(** * PC-Connect controller backend: authorization, assignment and audit core

    A shallow embedding of [backend-api/app]: the relational model of
    [models.py], the hypervisor adapter of [proxmox.py], the identity gateway
    of [auth.py], the request handlers of [routers/vms.py],
    [routers/admin.py] and [routers/auth.py], and the health probe of
    [main.py].

    The two external services (the Proxmox API and the GoTrue identity
    provider) and the JWT library are an environment [Env] of reply
    functions, with the provider's account endpoints in [Accounts].
    Handlers are programs of a state-and-exception monad [M] over
    a [World] holding the database, the request's ORM session, the trace of
    hypervisor calls and the schedule of database faults.  A Python exception
    keeps every effect performed before it was raised, so [M] returns the
    final world on both outcomes.  Calls to [logger] are left out: they touch
    nothing the handlers read. *)

From Stdlib Require Import ZArith String List Bool Lia DecimalString.
Import ListNotations.

Local Open Scope Z_scope.
Local Open Scope string_scope.

(** ** Python values *)

(** [str(n)] for an [int], as used by the f-strings of the source. *)
Definition str_int (z : Z) : string := NilZero.string_of_int (Z.to_int z).

(** Exceptions that travel through the handlers.  [HTTPException] is
    FastAPI's; [Exception] is the plain exception the adapter re-raises;
    [RequestError] is httpx's transport error; [MultipleResultsFound],
    [IntegrityError] and [OperationalError] come from the ORM; [KeyError]
    from a subscript on a dict.  [DBAPIError] is what the ORM raises when
    the driver cannot encode a query argument, [PendingRollbackError] what it
    raises on a session whose transaction has failed, and [JSONDecodeError]
    what [response.json()] raises on a body that is not JSON. *)
Inductive Exn : Type :=
| HTTPException (status_code : Z) (detail : string)
| Exception (msg : string)
| RequestError (msg : string)
| MultipleResultsFound
| NoResultFound
| IntegrityError (msg : string)
| OperationalError (msg : string)
| KeyError (key : string)
| DBAPIError (msg : string)
| PendingRollbackError (original : string)
| JSONDecodeError (msg : string).

(** [str(e)].  Starlette prints an [HTTPException] as its status code, a
    colon and the detail. *)
Definition str_exn (e : Exn) : string :=
  match e with
  | HTTPException c d => str_int c ++ ": " ++ d
  | Exception m => m
  | RequestError m => m
  | MultipleResultsFound =>
      "Multiple rows were found when one or none was required"
  | NoResultFound => "No row was found when one was required"
  | IntegrityError m => m
  | OperationalError m => m
  | KeyError k => "'" ++ k ++ "'"
  | DBAPIError m => m
  | PendingRollbackError original =>
      "This Session's transaction has been rolled back due to a previous " ++
      "exception during flush. To begin a new transaction with this " ++
      "Session, first issue Session.rollback(). Original exception was: " ++
      original
  | JSONDecodeError m => m
  end.

(** Truth value of an optional string: [None] and the empty string are
    false. *)
Definition truthy (o : option string) : bool :=
  match o with
  | Some s => negb (s =? "")
  | None => false
  end.

(** The values of PostgreSQL's INTEGER, the type of every integer column in
    [models.py].  A Python [int] is unbounded: the path parameters
    [vm_id: int] and [assignment_id: int] accept any integer. *)
Definition int4 (z : Z) : bool :=
  ((-2147483648 <=? z) && (z <=? 2147483647))%Z.

Definition HTTP_400_BAD_REQUEST : Z := 400.
Definition HTTP_401_UNAUTHORIZED : Z := 401.
Definition HTTP_403_FORBIDDEN : Z := 403.
Definition HTTP_404_NOT_FOUND : Z := 404.
Definition HTTP_500_INTERNAL_SERVER_ERROR : Z := 500.
Definition HTTP_503_SERVICE_UNAVAILABLE : Z := 503.

(** ** models.py: the three relations *)

Record User : Type := mkUser {
  user_id : string;            (* primary key, the GoTrue subject id *)
  user_email : string;         (* unique, not null *)
  user_is_admin : bool;
  user_created_at : Z
}.

Record VMAssignment : Type := mkVMAssignment {
  va_id : Z;                   (* primary key, autoincrement *)
  va_user_id : string;         (* foreign key users.id, ON DELETE CASCADE *)
  va_vm_id : Z;
  va_vm_name : option string;  (* cached name *)
  va_created_at : Z
}.

Record AuditLog : Type := mkAuditLog {
  al_id : Z;                   (* primary key, autoincrement *)
  al_user_id : option string;  (* foreign key users.id, ON DELETE SET NULL *)
  al_user_email : string;
  al_action : string;
  al_vm_id : Z;
  al_vm_name : option string;
  al_success : bool;
  al_error_message : option string;
  al_ip_address : option string;
  al_timestamp : Z
}.

(** The committed database: the rows of each table in insertion order, the
    two autoincrement sequences and the server clock read by [func.now()]. *)
Record Db : Type := mkDb {
  users : list User;
  vm_assignments : list VMAssignment;
  audit_logs : list AuditLog;
  vm_assignments_seq : Z;
  audit_logs_seq : Z;
  db_now : Z
}.

(** Objects registered with the session by [db.add] and [db.delete], waiting
    for the next [db.commit].  [InactiveTransaction] is the mark a failed
    commit leaves in the session: its transaction has been rolled back and
    stays unusable until [rollback()], which no handler calls; [original] is
    the text of the exception that failed it. *)
Inductive SessionOp : Type :=
| AddUser (id email : string) (is_admin : bool)
| AddVMAssignment (uid : string) (vm_id : Z) (vm_name : option string)
| AddAuditLog (uid : option string) (email action : string) (vm_id : Z)
    (vm_name : option string) (success : bool)
    (error_message ip_address : option string)
| DeleteUser (id : string)
| DeleteVMAssignment (id : Z)
| InactiveTransaction (original : string).

(** ** The hypervisor and identity-provider interfaces *)

Inductive Action : Type := start | stop | shutdown.

(** One request of the Proxmox client:
    [nodes(node).qemu(vm_id).status.current.get()],
    [nodes(node).qemu(vm_id).status.<action>.post()] and [version.get()]. *)
Inductive HvCall : Type :=
| StatusCurrentGet (vm_id : Z)
| StatusPost (a : Action) (vm_id : Z)
| VersionGet.

(** The raw status fields the hypervisor returns; each may be absent.  The
    numbers are only copied into the adapter's dict, [cpu] (a fraction in
    the source) included. *)
Record VmConfig : Type := mkVmConfig {
  cfg_name : option string;
  cfg_status : option string;
  cfg_uptime : option Z;
  cfg_cpu : option Z;
  cfg_mem : option Z;
  cfg_maxmem : option Z
}.

(** The JSON body of GoTrue's token endpoint, as far as [login] reads it. *)
Record AuthResponse : Type := mkAuthResponse {
  ar_access_token : option string;
  ar_expires_in : option Z;
  ar_user : option (option string * option string)   (* "id", "email" *)
}.

Inductive HttpReply (A : Type) : Type :=
| Response (status_code : Z) (body : A)
| TransportFailure (msg : string).
Arguments Response {A} status_code body.
Arguments TransportFailure {A} msg.

Inductive JwtResult : Type :=
| Payload (sub email : option string)
| ExpiredSignatureError
| InvalidTokenError.

(** The environment.  A hypervisor reply may depend on every call made
    before it, so a VM can change state between two reads; [inl msg] stands
    for the client raising an exception whose [str] is [msg]. *)
Record Env : Type := mkEnv {
  hv_status_current : list HvCall -> Z -> string + VmConfig;
  hv_status_post : list HvCall -> Action -> Z -> option string;
  hv_version : list HvCall -> bool;
  gotrue_token : string -> string -> HttpReply AuthResponse;
  jwt_decode : string -> JwtResult
}.

(** ** Worlds and the handler monad *)

Record World : Type := mkWorld {
  db : Db;
  pending : list SessionOp;            (* the session's unit of work *)
  hv_log : list HvCall;                (* hypervisor calls so far, oldest first *)
  commit_faults : list (option string) (* outcome of the coming commits *)
}.

Inductive Outcome (A : Type) : Type :=
| Return (a : A)
| Raise (e : Exn).
Arguments Return {A} a.
Arguments Raise {A} e.

Definition M (A : Type) : Type := World -> Outcome A * World.

Definition ret {A} (a : A) : M A := fun w => (Return a, w).

Definition raise {A} (e : Exn) : M A := fun w => (Raise e, w).

Definition bind {A B} (m : M A) (k : A -> M B) : M B :=
  fun w =>
    match m w with
    | (Return a, w') => k a w'
    | (Raise e, w') => (Raise e, w')
    end.

(** [try: m except Exception as e: h e]. *)
Definition try_except {A} (m : M A) (h : Exn -> M A) : M A :=
  fun w =>
    match m w with
    | (Return a, w') => (Return a, w')
    | (Raise e, w') => h e w'
    end.

(** [try: m except C as e: h e] for an exception class [C] given by its
    membership test; other exceptions propagate. *)
Definition try_except_class {A} (C : Exn -> bool) (m : M A)
    (h : Exn -> M A) : M A :=
  fun w =>
    match m w with
    | (Return a, w') => (Return a, w')
    | (Raise e, w') => if C e then h e w' else (Raise e, w')
    end.

Definition is_RequestError (e : Exn) : bool :=
  match e with
  | RequestError _ => true
  | _ => false
  end.

Declare Scope monad_scope.
Delimit Scope monad_scope with monad.
Notation "x <- m ;; k" := (bind m (fun x => k))
  (at level 61, m at next level, right associativity) : monad_scope.
Notation "m ;;; k" := (bind m (fun _ => k))
  (at level 61, right associativity) : monad_scope.
Local Open Scope monad_scope.

(** Modelled from the spec: [get_db] of [app/database.py], which is not among
    the sources, hands every request a session of its own, with an empty unit
    of work. *)
Definition request_world (d : Db) (log : list HvCall)
    (faults : list (option string)) : World :=
  mkWorld d [] log faults.

(** ** The ORM session

    [app/database.py] (the engine, [Base] and the [get_db] dependency that
    yields one [AsyncSession] per request) is not among the sources.  The
    handlers use the session through [add], [delete], [commit], [refresh] and
    [execute]; this module gives those calls the behaviour of a SQLAlchemy
    session over PostgreSQL with the constraints declared in [models.py]. *)
Module session.

Definition set_users (d : Db) (us : list User) : Db :=
  mkDb us (vm_assignments d) (audit_logs d) (vm_assignments_seq d)
    (audit_logs_seq d) (db_now d).

Definition has_user (d : Db) (uid : string) : bool :=
  existsb (fun u => user_id u =? uid) (users d).

(** The foreign key of [audit_logs.user_id] is nullable. *)
Definition fk_user (d : Db) (uid : option string) : bool :=
  match uid with
  | Some i => has_user d i
  | None => true
  end.

(** [ON DELETE SET NULL] on [audit_logs.user_id]. *)
Definition set_null (uid : string) (l : AuditLog) : AuditLog :=
  match al_user_id l with
  | Some i =>
      if i =? uid
      then mkAuditLog (al_id l) None (al_user_email l) (al_action l)
             (al_vm_id l) (al_vm_name l) (al_success l) (al_error_message l)
             (al_ip_address l) (al_timestamp l)
      else l
  | None => l
  end.

(** The driver's error for an integer argument that does not fit the
    INTEGER column it is sent for.  The text never reaches a client: the
    handlers let the exception through, or lose it to the next one. *)
Definition out_of_int32 (z : Z) : Exn :=
  DBAPIError
    ("invalid input for query argument: " ++ str_int z ++
     " (value out of int32 range)").

(** One INSERT or DELETE with the checks the schema declares: primary key
    and unique email on [users], the foreign key and
    [unique_user_vm_assignment] on [vm_assignments], the INTEGER type of
    [audit_logs.vm_id] and the foreign key on [audit_logs], the cascade and
    the set-null on deletion of a user.  An assignment is inserted only for
    a VM id the hypervisor has just answered for, and the hypervisor's ids
    are far below 2^31; the audit insert is made for whatever id the client
    sent.  An inactive transaction takes no statement. *)
Definition flush_op (d : Db) (op : SessionOp) : Exn + Db :=
  match op with
  | AddUser id email is_admin =>
      if has_user d id then
        inl (IntegrityError
               "duplicate key value violates unique constraint users_pkey")
      else if existsb (fun u => user_email u =? email) (users d) then
        inl (IntegrityError
               "duplicate key value violates unique constraint ix_users_email")
      else inr (set_users d
             (users d ++ [mkUser id email is_admin (db_now d)])%list)
  | AddVMAssignment uid vm_id vm_name =>
      if negb (has_user d uid) then
        inl (IntegrityError
               "insert on vm_assignments violates foreign key constraint")
      else if existsb (fun a => va_user_id a =? uid) (vm_assignments d) then
        inl (IntegrityError
               "duplicate key value violates unique constraint unique_user_vm_assignment")
      else
        inr (mkDb (users d)
               (vm_assignments d ++
                  [mkVMAssignment (vm_assignments_seq d) uid vm_id vm_name
                     (db_now d)])%list
               (audit_logs d) (vm_assignments_seq d + 1) (audit_logs_seq d)
               (db_now d))
  | AddAuditLog uid email action vm_id vm_name success error_message ip =>
      if negb (int4 vm_id) then inl (out_of_int32 vm_id)
      else if negb (fk_user d uid) then
        inl (IntegrityError
               "insert on audit_logs violates foreign key constraint")
      else
        inr (mkDb (users d) (vm_assignments d)
               (audit_logs d ++
                  [mkAuditLog (audit_logs_seq d) uid email action vm_id
                     vm_name success error_message ip (db_now d)])%list
               (vm_assignments_seq d) (audit_logs_seq d + 1) (db_now d))
  | DeleteUser id =>
      inr (mkDb (filter (fun u => negb (user_id u =? id)) (users d))
             (filter (fun a => negb (va_user_id a =? id)) (vm_assignments d))
             (map (set_null id) (audit_logs d))
             (vm_assignments_seq d) (audit_logs_seq d) (db_now d))
  | DeleteVMAssignment id =>
      inr (mkDb (users d)
             (filter (fun a => negb (va_id a =? id)%Z) (vm_assignments d))
             (audit_logs d) (vm_assignments_seq d) (audit_logs_seq d)
             (db_now d))
  | InactiveTransaction original => inl (PendingRollbackError original)
  end.

Fixpoint flush (d : Db) (ops : list SessionOp) : Exn + Db :=
  match ops with
  | [] => inr d
  | op :: rest =>
      match flush_op d op with
      | inl e => inl e
      | inr d' => flush d' rest
      end
  end.

(** The exception that left the session's transaction inactive, if one
    did. *)
Fixpoint inactive (ops : list SessionOp) : option string :=
  match ops with
  | [] => None
  | InactiveTransaction original :: _ => Some original
  | _ :: rest => inactive rest
  end.

(** [db.add(obj)] and [db.delete(obj)]: nothing reaches the database before
    the commit. *)
Definition add (op : SessionOp) : M unit :=
  fun w =>
    (Return tt,
     mkWorld (db w) (pending w ++ [op])%list (hv_log w) (commit_faults w)).

Definition delete (op : SessionOp) : M unit := add op.

(** Modelled from the spec: the session of [app/database.py], which is not
    among the sources (section 5: every store mutation is one atomic
    transaction, and every database call may find the store unreachable).
    [await db.commit()]: the next scheduled fault, if any, makes the commit
    raise; otherwise the unit of work is flushed in one transaction, which
    either applies every operation or, when a statement is refused, none.  A
    failed commit rolls the transaction back, which empties the unit of work
    and leaves the transaction inactive: since the handlers never call
    [rollback()], every later commit of the same session raises
    [PendingRollbackError] without reaching the database, whatever has been
    added in between. *)
Definition commit : M unit :=
  fun w =>
    match inactive (pending w) with
    | Some original => (Raise (PendingRollbackError original), w)
    | None =>
        let rest := tl (commit_faults w) in
        let failed (e : Exn) :=
          (Raise e,
           mkWorld (db w) [InactiveTransaction (str_exn e)] (hv_log w) rest) in
        match hd None (commit_faults w) with
        | Some msg => failed (OperationalError msg)
        | None =>
            match flush (db w) (pending w) with
            | inl e => failed e
            | inr d' => (Return tt, mkWorld d' [] (hv_log w) rest)
            end
        end
    end.

(** [await db.execute(select(T).where(p))]: the matching committed rows.
    No handler queries a session after a commit of it has failed. *)
Definition execute {A} (table : Db -> list A) (where_ : A -> bool)
    : M (list A) :=
  fun w => (Return (filter where_ (table (db w))), w).

(** A query whose [where] clause compares an INTEGER column with the Python
    [int] [n]: the driver encodes [n] as a 32-bit integer before anything is
    sent, and raises when it does not fit. *)
Definition execute_int4 {A} (n : Z) (table : Db -> list A)
    (where_ : A -> bool) : M (list A) :=
  if int4 n then execute table where_ else raise (out_of_int32 n).

Definition scalar_one_or_none {A} (rows : list A) : M (option A) :=
  match rows with
  | [] => ret None
  | [r] => ret (Some r)
  | _ => raise MultipleResultsFound
  end.

Definition scalar_one {A} (rows : list A) : M A :=
  match rows with
  | [] => raise NoResultFound
  | [r] => ret r
  | _ => raise MultipleResultsFound
  end.

(** [await db.refresh(obj)] for a row just inserted: read it back by key. *)
Definition refresh {A} (table : Db -> list A) (key : A -> bool) : M A :=
  rows <- execute table key ;; scalar_one rows.

End session.

(** ** proxmox.py: the hypervisor adapter *)

(** The dict built by [get_vm_status]; the entry [get_all_vms] builds for a
    VM it could not query has only the first three keys and ["error"]. *)
Record VmDict : Type := mkVmDict {
  vd_vm_id : Z;
  vd_vm_name : string;
  vd_status : string;
  vd_uptime : option Z;
  vd_cpu : option Z;
  vd_memory : option Z;
  vd_maxmem : option Z;
  vd_error : option string
}.

(** The dict returned by [start_vm], [stop_vm] and [shutdown_vm]. *)
Record ActionResult : Type := mkActionResult {
  res_success : bool;
  res_message : string;
  res_vm_id : Z;
  res_vm_name : string;
  res_status : string
}.

(** [d.get(key, default)]. *)
Definition dict_get {A} (v : option A) (default : A) : A :=
  match v with
  | Some x => x
  | None => default
  end.

Module proxmox.
Section Client.

Variable env : Env.

Definition log_call (c : HvCall) (w : World) : World :=
  mkWorld (db w) (pending w) (hv_log w ++ [c])%list (commit_faults w).

(** [self.client.nodes(self.node).qemu(vm_id).status.current.get()] *)
Definition status_current_get (vm_id : Z) : M VmConfig :=
  fun w =>
    match hv_status_current env (hv_log w) vm_id with
    | inr cfg => (Return cfg, log_call (StatusCurrentGet vm_id) w)
    | inl msg => (Raise (Exception msg), log_call (StatusCurrentGet vm_id) w)
    end.

(** [self.client.nodes(self.node).qemu(vm_id).status.<a>.post()] *)
Definition status_post (a : Action) (vm_id : Z) : M unit :=
  fun w =>
    match hv_status_post env (hv_log w) a vm_id with
    | None => (Return tt, log_call (StatusPost a vm_id) w)
    | Some msg => (Raise (Exception msg), log_call (StatusPost a vm_id) w)
    end.

(** The dict [get_vm_status] returns for the raw fields [vm_config]. *)
Definition status_dict (vm_id : Z) (vm_config : VmConfig) : VmDict :=
  mkVmDict vm_id
    (dict_get (cfg_name vm_config) ("VM-" ++ str_int vm_id))
    (dict_get (cfg_status vm_config) "unknown")
    (Some (dict_get (cfg_uptime vm_config) 0))
    (Some (dict_get (cfg_cpu vm_config) 0))
    (Some (dict_get (cfg_mem vm_config) 0))
    (Some (dict_get (cfg_maxmem vm_config) 0))
    None.

Definition get_vm_status (vm_id : Z) : M VmDict :=
  try_except
    (vm_config <- status_current_get vm_id ;;
     ret (status_dict vm_id vm_config))
    (fun e => raise (Exception ("Failed to get VM status: " ++ str_exn e))).

(** The entry appended for a VM whose query raised [e]. *)
Definition unknown_vm (vm_id : Z) (e : Exn) : VmDict :=
  mkVmDict vm_id ("VM-" ++ str_int vm_id) "unknown" None None None None
    (Some (str_exn e)).

(** The [for vm_id in vm_ids] loop; [vms] is the list built so far. *)
Fixpoint get_all_vms_loop (vm_ids : list Z) (vms : list VmDict)
    : M (list VmDict) :=
  match vm_ids with
  | [] => ret vms
  | vm_id :: rest =>
      vms' <- try_except
                (vm_status <- get_vm_status vm_id ;;
                 ret (vms ++ [vm_status])%list)
                (fun e => ret (vms ++ [unknown_vm vm_id e])%list) ;;
      get_all_vms_loop rest vms'
  end.

Definition default_vm_ids : list Z := [106; 103; 101; 102].

Definition get_all_vms (vm_ids : option (list Z)) : M (list VmDict) :=
  get_all_vms_loop (dict_get vm_ids default_vm_ids) [].

Definition start_vm (vm_id : Z) : M ActionResult :=
  try_except
    (current_status <- get_vm_status vm_id ;;
     if vd_status current_status =? "running" then
       ret (mkActionResult false "VM is already running" vm_id
              (vd_vm_name current_status) "running")
     else
       status_post start vm_id ;;;
       ret (mkActionResult true "VM start command sent successfully" vm_id
              (vd_vm_name current_status) "starting"))
    (fun e => raise (Exception ("Failed to start VM: " ++ str_exn e))).

Definition stop_vm (vm_id : Z) : M ActionResult :=
  try_except
    (current_status <- get_vm_status vm_id ;;
     if vd_status current_status =? "stopped" then
       ret (mkActionResult false "VM is already stopped" vm_id
              (vd_vm_name current_status) "stopped")
     else
       status_post stop vm_id ;;;
       ret (mkActionResult true "VM stop command sent successfully" vm_id
              (vd_vm_name current_status) "stopping"))
    (fun e => raise (Exception ("Failed to stop VM: " ++ str_exn e))).

Definition shutdown_vm (vm_id : Z) : M ActionResult :=
  try_except
    (current_status <- get_vm_status vm_id ;;
     if vd_status current_status =? "stopped" then
       ret (mkActionResult false "VM is already stopped" vm_id
              (vd_vm_name current_status) "stopped")
     else
       status_post shutdown vm_id ;;;
       ret (mkActionResult true "VM shutdown command sent successfully" vm_id
              (vd_vm_name current_status) "shutting_down"))
    (fun e => raise (Exception ("Failed to shutdown VM: " ++ str_exn e))).

Definition health_check : M bool :=
  fun w => (Return (hv_version env (hv_log w)), log_call VersionGet w).

End Client.
End proxmox.

(** ** schemas.py: response models *)

Record UserResponse : Type := mkUserResponse {
  ur_id : string;
  ur_email : string;
  ur_is_admin : bool;
  ur_created_at : Z
}.

Record TokenResponse : Type := mkTokenResponse {
  tr_access_token : string;
  tr_token_type : string;
  tr_expires_in : Z;
  tr_user : UserResponse
}.

Record VMResponse : Type := mkVMResponse {
  vr_vm_id : Z;
  vr_vm_name : string;
  vr_status : string;
  vr_uptime : option Z;
  vr_assigned_user : option string;
  vr_can_control : bool
}.

Record VMListResponse : Type := mkVMListResponse {
  vl_vms : list VMResponse;
  vl_total : Z
}.

Record VMActionResponse : Type := mkVMActionResponse {
  ac_success : bool;
  ac_message : string;
  ac_vm_id : Z;
  ac_vm_name : string;
  ac_status : option string
}.

Record VMAssignmentResponse : Type := mkVMAssignmentResponse {
  vs_id : Z;
  vs_user_id : string;
  vs_vm_id : Z;
  vs_vm_name : option string;
  vs_created_at : Z;
  vs_user : UserResponse
}.

Definition user_response (u : User) : UserResponse :=
  mkUserResponse (user_id u) (user_email u) (user_is_admin u)
    (user_created_at u).

(** ** auth.py: the identity gateway *)
Module auth.
Section Gateway.

Variable env : Env.

(** [client.post(f"{base_url}/token?grant_type=password", json=...)] *)
Definition post_token (email password : string) : M (Z * AuthResponse) :=
  match gotrue_token env email password with
  | Response code body => ret (code, body)
  | TransportFailure msg => raise (RequestError msg)
  end.

(** [GoTrueClient.login] *)
Definition login (email password : string) : M AuthResponse :=
  try_except_class is_RequestError
    (response <- post_token email password ;;
     if negb (fst response =? 200)%Z then
       raise (HTTPException HTTP_401_UNAUTHORIZED "Invalid credentials")
     else ret (snd response))
    (fun e =>
       raise (HTTPException HTTP_503_SERVICE_UNAVAILABLE
                "Authentication service unavailable")).

(** [GoTrueClient.verify_token] *)
Definition verify_token (token : string)
    : M (option string * option string) :=
  match jwt_decode env token with
  | Payload sub email => ret (sub, email)
  | ExpiredSignatureError =>
      raise (HTTPException HTTP_401_UNAUTHORIZED "Token has expired")
  | InvalidTokenError =>
      raise (HTTPException HTTP_401_UNAUTHORIZED "Invalid token")
  end.

(** Past the guard on the payload both claims are present, and
    [dict_get uid ""] is the subject id. *)
Definition get_current_user (token : string) : M User :=
  payload <- verify_token token ;;
  let uid := fst payload in
  let uemail := snd payload in
  if negb (truthy uid) || negb (truthy uemail) then
    raise (HTTPException HTTP_401_UNAUTHORIZED "Invalid token payload")
  else
    rows <- session.execute users
              (fun u => user_id u =? dict_get uid "") ;;
    user <- session.scalar_one_or_none rows ;;
    match user with
    | None =>
        raise (HTTPException HTTP_404_NOT_FOUND "User not found in database")
    | Some u => ret u
    end.

Definition get_current_admin_user (token : string) : M User :=
  current_user <- get_current_user token ;;
  if negb (user_is_admin current_user) then
    raise (HTTPException HTTP_403_FORBIDDEN "Admin privileges required")
  else ret current_user.

End Gateway.
End auth.

(** ** routers/auth.py *)
Module routers_auth.
Section Routes.

Variable env : Env.

(** [d[key]] on a dict that may lack the key. *)
Definition subscript {A} (v : option A) (key : string) : M A :=
  match v with
  | Some x => ret x
  | None => raise (KeyError key)
  end.

(** [POST /auth/login].  The handler receives credentials that passed the
    [UserLogin] schema.  [uid] and [uemail] are
    [auth_response.get("user", {}).get("id")] and [...get("email")]; past the
    guard both are present and [dict_get _ ""] reads them. *)
Definition login (email password : string) : M TokenResponse :=
  auth_response <- auth.login env email password ;;
  let uid :=
    match ar_user auth_response with
    | Some u => fst u
    | None => None
    end in
  let uemail :=
    match ar_user auth_response with
    | Some u => snd u
    | None => None
    end in
  if negb (truthy uid) || negb (truthy uemail) then
    raise (HTTPException HTTP_500_INTERNAL_SERVER_ERROR
             "Invalid authentication response")
  else
    rows <- session.execute users (fun u => user_id u =? dict_get uid "") ;;
    found <- session.scalar_one_or_none rows ;;
    user <- match found with
            | Some u => ret u
            | None =>
                session.add
                  (AddUser (dict_get uid "") (dict_get uemail "") false) ;;;
                session.commit ;;;
                session.refresh users
                  (fun u => user_id u =? dict_get uid "")
            end ;;
    access_token <- subscript (ar_access_token auth_response)
                      "access_token" ;;
    ret (mkTokenResponse access_token "bearer"
           (dict_get (ar_expires_in auth_response) 3600)
           (user_response user)).

End Routes.
End routers_auth.

(** ** routers/vms.py *)
Module vms.
Section Routes.

Variable env : Env.

(** [assignment_map.get(k)] for the dict
    [{a.vm_id: a for a in assignments}]: a later row replaces an earlier one
    with the same key. *)
Definition assignment_map_get (assignments : list VMAssignment) (k : Z)
    : option VMAssignment :=
  find (fun a => (va_vm_id a =? k)%Z) (rev assignments).

(** The admin branch's [for vm in all_vms] loop. *)
Fixpoint list_vms_admin_loop (assignments : list VMAssignment)
    (all_vms : list VmDict) (vm_responses : list VMResponse)
    : M (list VMResponse) :=
  match all_vms with
  | [] => ret vm_responses
  | vm :: rest =>
      assigned_user_email <-
        match assignment_map_get assignments (vd_vm_id vm) with
        | Some assignment =>
            rows <- session.execute users
                      (fun u => user_id u =? va_user_id assignment) ;;
            assigned_user <- session.scalar_one_or_none rows ;;
            ret (option_map user_email assigned_user)
        | None => ret None
        end ;;
      list_vms_admin_loop assignments rest
        (vm_responses ++
           [mkVMResponse (vd_vm_id vm) (vd_vm_name vm) (vd_status vm)
              (vd_uptime vm) assigned_user_email true])%list
  end.

(** [GET /vms/] *)
Definition list_vms (current_user : User) : M VMListResponse :=
  try_except
    (all_vms <- proxmox.get_all_vms env None ;;
     if user_is_admin current_user then
       assignments <- session.execute vm_assignments (fun _ => true) ;;
       vm_responses <- list_vms_admin_loop assignments all_vms [] ;;
       ret (mkVMListResponse vm_responses (Z.of_nat (length vm_responses)))
     else
       rows <- session.execute vm_assignments
                 (fun a => va_user_id a =? user_id current_user) ;;
       assignment <- session.scalar_one_or_none rows ;;
       match assignment with
       | None => ret (mkVMListResponse [] 0)
       | Some assignment =>
           match find (fun vm => (vd_vm_id vm =? va_vm_id assignment)%Z)
                   all_vms with
           | None =>
               raise (HTTPException HTTP_404_NOT_FOUND
                        ("Assigned VM " ++ str_int (va_vm_id assignment) ++
                         " not found in Proxmox"))
           | Some user_vm =>
               ret (mkVMListResponse
                      [mkVMResponse (vd_vm_id user_vm) (vd_vm_name user_vm)
                         (vd_status user_vm) (vd_uptime user_vm)
                         (Some (user_email current_user)) true]
                      1)
           end
       end)
    (fun e =>
       raise (HTTPException HTTP_500_INTERNAL_SERVER_ERROR
                ("Failed to fetch VMs: " ++ str_exn e))).

(** The permission block that opens both [get_vm_status] and [start_vm]
    (lines 116-130 and 164-178, the same statements).  The query compares
    the INTEGER column [vm_id] with the path parameter, outside any [try]. *)
Definition check_permissions (vm_id : Z) (current_user : User) : M unit :=
  if negb (user_is_admin current_user) then
    rows <- session.execute_int4 vm_id vm_assignments
              (fun a => (va_user_id a =? user_id current_user)
                        && (va_vm_id a =? vm_id)%Z) ;;
    assignment <- session.scalar_one_or_none rows ;;
    match assignment with
    | None =>
        raise (HTTPException HTTP_403_FORBIDDEN
                 "You don't have access to this VM")
    | Some _ => ret tt
    end
  else ret tt.

(** [GET /vms/{vm_id}/status] *)
Definition get_vm_status (vm_id : Z) (current_user : User) : M VMResponse :=
  check_permissions vm_id current_user ;;;
  try_except
    (vm_status <- proxmox.get_vm_status env vm_id ;;
     ret (mkVMResponse (vd_vm_id vm_status) (vd_vm_name vm_status)
            (vd_status vm_status) (vd_uptime vm_status)
            (if negb (user_is_admin current_user)
             then Some (user_email current_user) else None)
            true))
    (fun e =>
       raise (HTTPException HTTP_500_INTERNAL_SERVER_ERROR
                ("Failed to get VM status: " ++ str_exn e))).

(** The [VMActionResponse] built from the keys of [result]. *)
Definition action_response (result : ActionResult) : VMActionResponse :=
  mkVMActionResponse (res_success result) (res_message result)
    (res_vm_id result) (res_vm_name result) (Some (res_status result)).

(** [POST /vms/{vm_id}/start]; [client_host] is
    [request.client.host if request.client else None]. *)
Definition start_vm (vm_id : Z) (client_host : option string)
    (current_user : User) : M VMActionResponse :=
  check_permissions vm_id current_user ;;;
  try_except
    (result <- proxmox.start_vm env vm_id ;;
     session.add
       (AddAuditLog (Some (user_id current_user)) (user_email current_user)
          "start" vm_id (Some (res_vm_name result)) (res_success result)
          (if res_success result then None else Some (res_message result))
          client_host) ;;;
     session.commit ;;;
     ret (action_response result))
    (fun e =>
       session.add
         (AddAuditLog (Some (user_id current_user)) (user_email current_user)
            "start" vm_id (Some ("VM-" ++ str_int vm_id)) false
            (Some (str_exn e)) client_host) ;;;
       session.commit ;;;
       raise (HTTPException HTTP_500_INTERNAL_SERVER_ERROR
                ("Failed to start VM: " ++ str_exn e))).

End Routes.
End vms.

(** ** routers/admin.py *)
Module admin.
Section Routes.

Variable env : Env.

(** [DELETE /admin/users/{user_id}] *)
Definition delete_user (uid : string) : M string :=
  rows <- session.execute users (fun u => user_id u =? uid) ;;
  user <- session.scalar_one_or_none rows ;;
  match user with
  | None => raise (HTTPException HTTP_404_NOT_FOUND "User not found")
  | Some user =>
      session.delete (DeleteUser (user_id user)) ;;;
      session.commit ;;;
      ret ("User " ++ user_email user ++ " deleted successfully")
  end.

(** The primary key the coming INSERT into [vm_assignments] draws from the
    sequence; the ORM stores it on the object at flush. *)
Definition next_assignment_id : M Z :=
  fun w => (Return (vm_assignments_seq (db w)), w).

(** [POST /admin/vm-assignments] *)
Definition assign_vm_to_user (uid : string) (vm_id : Z)
    : M VMAssignmentResponse :=
  rows <- session.execute users (fun u => user_id u =? uid) ;;
  user <- session.scalar_one_or_none rows ;;
  match user with
  | None => raise (HTTPException HTTP_404_NOT_FOUND "User not found")
  | Some user =>
      rows <- session.execute vm_assignments
                (fun a => va_user_id a =? uid) ;;
      existing_assignment <- session.scalar_one_or_none rows ;;
      match existing_assignment with
      | Some existing =>
          raise (HTTPException HTTP_400_BAD_REQUEST
                   ("User already has VM " ++ str_int (va_vm_id existing) ++
                    " assigned"))
      | None =>
          vm_name <-
            try_except
              (vm_status <- proxmox.get_vm_status env vm_id ;;
               ret (vd_vm_name vm_status))
              (fun e =>
                 raise (HTTPException HTTP_404_NOT_FOUND
                          ("VM " ++ str_int vm_id ++
                           " not found in Proxmox: " ++ str_exn e))) ;;
          session.add (AddVMAssignment uid vm_id (Some vm_name)) ;;;
          key <- next_assignment_id ;;
          session.commit ;;;
          assignment <- session.refresh vm_assignments
                          (fun a => (va_id a =? key)%Z) ;;
          ret (mkVMAssignmentResponse (va_id assignment)
                 (va_user_id assignment) (va_vm_id assignment)
                 (va_vm_name assignment) (va_created_at assignment)
                 (user_response user))
      end
  end.

(** [DELETE /admin/vm-assignments/{assignment_id}].  The lookup compares the
    INTEGER primary key with the path parameter, outside any [try]. *)
Definition delete_vm_assignment (assignment_id : Z) : M string :=
  rows <- session.execute_int4 assignment_id vm_assignments
            (fun a => (va_id a =? assignment_id)%Z) ;;
  assignment <- session.scalar_one_or_none rows ;;
  match assignment with
  | None => raise (HTTPException HTTP_404_NOT_FOUND "Assignment not found")
  | Some assignment =>
      session.delete (DeleteVMAssignment (va_id assignment)) ;;;
      session.commit ;;;
      ret "VM assignment deleted successfully"
  end.

End Routes.
End admin.

(** ** auth.py: the account calls of [GoTrueClient] *)

(** The JSON body of GoTrue's signup endpoint, as far as [signup] and
    [create_user] read it: ["id"], the ["id"] of ["user"], and ["msg"]. *)
Record SignupResponse : Type := mkSignupResponse {
  sr_id : option string;
  sr_user : option (option string);
  sr_msg : option string
}.

(** The account endpoints of the identity provider.  A body that the client
    only hands on is kept as its JSON text.  The body of a signup reply, which
    the client reads on every status, is the object it parses to, or the
    decoder's message when it is not JSON (a gateway's error page). *)
Record Accounts : Type := mkAccounts {
  gotrue_signup : string -> string -> HttpReply (string + SignupResponse);
  gotrue_refresh : string -> HttpReply string;
  gotrue_user_put : string -> string -> HttpReply string;
  gotrue_recover : string -> HttpReply string;
  gotrue_health : HttpReply string
}.

Module gotrue.
Section Client.

Variable acc : Accounts.

(** One request of the HTTP client: the status code and the body, or
    [httpx.RequestError]. *)
Definition send {A} (reply : HttpReply A) : M (Z * A) :=
  match reply with
  | Response code body => ret (code, body)
  | TransportFailure msg => raise (RequestError msg)
  end.

Definition unavailable {A} (e : Exn) : M A :=
  raise (HTTPException HTTP_503_SERVICE_UNAVAILABLE
           "Authentication service unavailable").

(** [response.json()] *)
Definition json {A} (body : string + A) : M A :=
  match body with
  | inr parsed => ret parsed
  | inl msg => raise (JSONDecodeError msg)
  end.

Definition signup (email password : string) : M SignupResponse :=
  try_except_class is_RequestError
    (response <- send (gotrue_signup acc email password) ;;
     if negb ((fst response =? 200)%Z || (fst response =? 201)%Z) then
       body <- json (snd response) ;;
       raise (HTTPException HTTP_400_BAD_REQUEST
                (dict_get (sr_msg body) "Signup failed"))
     else json (snd response))
    unavailable.

Definition refresh_token (refresh_token : string) : M string :=
  try_except_class is_RequestError
    (response <- send (gotrue_refresh acc refresh_token) ;;
     if negb (fst response =? 200)%Z then
       raise (HTTPException HTTP_401_UNAUTHORIZED "Invalid refresh token")
     else ret (snd response))
    unavailable.

Definition change_password (access_token new_password : string) : M string :=
  try_except_class is_RequestError
    (response <- send (gotrue_user_put acc access_token new_password) ;;
     if negb (fst response =? 200)%Z then
       raise (HTTPException HTTP_400_BAD_REQUEST "Password change failed")
     else ret (snd response))
    unavailable.

(** The dict [{"message": ...}] is returned as its one value. *)
Definition request_password_reset (email : string) : M string :=
  try_except_class is_RequestError
    (response <- send (gotrue_recover acc email) ;;
     ret "Password reset email sent if account exists")
    unavailable.

Definition health_check : M bool :=
  try_except
    (response <- send (gotrue_health acc) ;;
     ret (fst response =? 200)%Z)
    (fun e => ret false).

End Client.
End gotrue.

(** ** routers/auth.py: the account routes *)
Module routers_account.
Section Routes.

Variable acc : Accounts.

(** [POST /auth/refresh] *)
Definition refresh_token (refresh_token : string) : M string :=
  gotrue.refresh_token acc refresh_token.

(** [POST /auth/request-password-reset] *)
Definition request_password_reset (email : string) : M string :=
  gotrue.request_password_reset acc email.

(** [POST /auth/change-password] *)
Definition change_password (new_password access_token : string) : M string :=
  gotrue.change_password acc access_token new_password.

End Routes.
End routers_account.

(** ** routers/admin.py: users and the assignment listing *)
Module admin_users.
Section Routes.

Variable acc : Accounts.

(** [a or b] on two optional strings. *)
Definition or_else (a b : option string) : option string :=
  if truthy a then a else b.

(** [POST /admin/users].  The first [except] clause hands an
    [HTTPException] on as it is, the second wraps every other exception. *)
Definition create_user (email password : string) (is_admin : bool)
    : M UserResponse :=
  try_except
    (gotrue_response <- gotrue.signup acc email password ;;
     let uid :=
       or_else (sr_id gotrue_response)
         match sr_user gotrue_response with
         | Some i => i
         | None => None
         end in
     if negb (truthy uid) then
       raise (HTTPException HTTP_500_INTERNAL_SERVER_ERROR
                "Failed to get user ID from GoTrue")
     else
       session.add (AddUser (dict_get uid "") email is_admin) ;;;
       session.commit ;;;
       new_user <- session.refresh users
                     (fun u => user_id u =? dict_get uid "") ;;
       ret (user_response new_user))
    (fun e =>
       match e with
       | HTTPException _ _ => raise e
       | _ =>
           raise (HTTPException HTTP_500_INTERNAL_SERVER_ERROR
                    ("Failed to create user: " ++ str_exn e))
       end).

(** [GET /admin/users] *)
Definition list_users : M (list UserResponse) :=
  rows <- session.execute users (fun _ => true) ;;
  ret (map user_response rows).

(** The rows of [select(VMAssignment).join(User)]: an assignment once for
    every user row its [user_id] names. *)
Definition join_user (d : Db) : list VMAssignment :=
  flat_map
    (fun a =>
       map (fun _ => a)
         (filter (fun u => user_id u =? va_user_id a) (users d)))
    (vm_assignments d).

(** The [for assignment in assignments] loop of [list_vm_assignments]. *)
Fixpoint list_vm_assignments_loop (assignments : list VMAssignment)
    (response : list VMAssignmentResponse) : M (list VMAssignmentResponse) :=
  match assignments with
  | [] => ret response
  | assignment :: rest =>
      rows <- session.execute users
                (fun u => user_id u =? va_user_id assignment) ;;
      user <- session.scalar_one rows ;;
      list_vm_assignments_loop rest
        (response ++
           [mkVMAssignmentResponse (va_id assignment) (va_user_id assignment)
              (va_vm_id assignment) (va_vm_name assignment)
              (va_created_at assignment) (user_response user)])%list
  end.

(** [GET /admin/vm-assignments] *)
Definition list_vm_assignments : M (list VMAssignmentResponse) :=
  assignments <- session.execute join_user (fun _ => true) ;;
  list_vm_assignments_loop assignments [].

End Routes.
End admin_users.

(** ** main.py: the health probe *)

Record HealthResponse : Type := mkHealthResponse {
  hr_status : string;
  hr_database : string;
  hr_proxmox : string;
  hr_gotrue : string;
  hr_timestamp : Z
}.

Module main.
Section App.

Variable env : Env.
Variable acc : Accounts.

(** [GET /health]; [utcnow] is the value of [datetime.utcnow()]. *)
Definition health_check (utcnow : Z) : M HealthResponse :=
  proxmox_ok <- proxmox.health_check env ;;
  let proxmox_status := if proxmox_ok : bool then "healthy" else "unhealthy" in
  gotrue_ok <- gotrue.health_check acc ;;
  let gotrue_status := if gotrue_ok : bool then "healthy" else "unhealthy" in
  let database_status := "healthy" in
  let overall_status :=
    if forallb (fun b : bool => b)
         [proxmox_status =? "healthy"; gotrue_status =? "healthy";
          database_status =? "healthy"]
    then "healthy" else "degraded" in
  ret (mkHealthResponse overall_status database_status proxmox_status
         gotrue_status utcnow).

End App.
End main.

(** ** A small installation used for concrete runs *)
Module lab.

Definition root : User := mkUser "u-root" "root@lab.example" true 1.
Definition alice : User := mkUser "u-alice" "alice@lab.example" false 2.
Definition bob : User := mkUser "u-bob" "bob@lab.example" false 3.

(** Alice owns VM 106 and has started it once; Bob owns nothing. *)
Definition store : Db :=
  mkDb [root; alice; bob]
    [mkVMAssignment 1 "u-alice" 106 (Some "ws-alice") 4]
    [mkAuditLog 1 (Some "u-alice") "alice@lab.example" "start" 106
       (Some "ws-alice") true None (Some "10.0.0.7") 5]
    2 2 9.

(** VM 106 runs, 103 is stopped, 102 is paused and refuses a forced stop,
    and the node knows no other VM (101 among them). *)
Definition status (log : list HvCall) (vm_id : Z) : string + VmConfig :=
  if (vm_id =? 106)%Z then
    inr (mkVmConfig (Some "ws-alice") (Some "running") (Some 3600) (Some 0)
           (Some 2048) (Some 8192))
  else if (vm_id =? 103)%Z then
    inr (mkVmConfig (Some "ws-bob") (Some "stopped") (Some 0) (Some 0)
           (Some 0) (Some 8192))
  else if (vm_id =? 102)%Z then
    inr (mkVmConfig (Some "ws-carol") (Some "paused") (Some 120) (Some 0)
           (Some 1024) (Some 4096))
  else inl "500 Internal Server Error: Configuration file does not exist".

Definition post (log : list HvCall) (a : Action) (vm_id : Z)
    : option string :=
  match a with
  | stop => if (vm_id =? 102)%Z then Some "VM is locked" else None
  | _ => None
  end.

(** The provider knows alice and dave, is unreachable for eve, and answers
    mallory with a body that names no user. *)
Definition token (email password : string) : HttpReply AuthResponse :=
  if (email =? "alice@lab.example") && (password =? "correct horse") then
    Response 200
      (mkAuthResponse (Some "jwt-alice") (Some 1800)
         (Some (Some "u-alice", Some "alice@lab.example")))
  else if (email =? "dave@lab.example") && (password =? "battery staple") then
    Response 200
      (mkAuthResponse (Some "jwt-dave") None
         (Some (Some "u-dave", Some "dave@lab.example")))
  else if email =? "eve@lab.example" then
    TransportFailure "connection refused"
  else if email =? "mallory@lab.example" then
    Response 200 (mkAuthResponse (Some "jwt-mallory") (Some 1800) None)
  else Response 400 (mkAuthResponse None None None).

Definition decode (tok : string) : JwtResult :=
  if tok =? "jwt-alice" then
    Payload (Some "u-alice") (Some "alice@lab.example")
  else if tok =? "jwt-dave" then
    Payload (Some "u-dave") (Some "dave@lab.example")
  else if tok =? "jwt-old" then ExpiredSignatureError
  else InvalidTokenError.

Definition env : Env := mkEnv status post (fun _ => true) token decode.

Definition world : World := request_world store [] [].

End lab.

(** The account endpoints of the lab's provider: erin and frank can be
    signed up (the second answered 201 with the id under ["user"]), alice is
    registered already, gia's signup comes back without an id, the provider
    is unreachable for eve, and hal's signup is answered by the gateway in
    front of the provider, with a page that is not JSON. *)
Module lab_accounts.

Definition signup (email password : string)
    : HttpReply (string + SignupResponse) :=
  if email =? "erin@lab.example" then
    Response 200 (inr (mkSignupResponse (Some "u-erin") None None))
  else if email =? "frank@lab.example" then
    Response 201 (inr (mkSignupResponse None (Some (Some "u-frank")) None))
  else if email =? "alice@lab.example" then
    Response 422
      (inr (mkSignupResponse None None (Some "User already registered")))
  else if email =? "gia@lab.example" then
    Response 200 (inr (mkSignupResponse None None None))
  else if email =? "eve@lab.example" then
    TransportFailure "connection refused"
  else if email =? "hal@lab.example" then
    Response 502 (inl "Expecting value: line 1 column 1 (char 0)")
  else Response 500 (inr (mkSignupResponse None None None)).

Definition refresh (refresh_token : string) : HttpReply string :=
  if refresh_token =? "rt-alice" then Response 200 "access_token=jwt-alice-2"
  else if refresh_token =? "rt-eve" then TransportFailure "connection refused"
  else Response 400 "invalid_grant".

Definition user_put (access_token new_password : string) : HttpReply string :=
  if access_token =? "jwt-alice" then Response 200 "id=u-alice"
  else Response 401 "invalid JWT".

Definition recover (email : string) : HttpReply string :=
  if email =? "alice@lab.example" then Response 200 "{}"
  else if email =? "eve@lab.example" then TransportFailure "connection refused"
  else Response 429 "rate limit exceeded".

Definition accounts : Accounts :=
  mkAccounts signup refresh user_put recover (Response 200 "ok").

End lab_accounts.

(** ** Vocabulary of the statements *)

(** The entry of the batch listing for [vm_id] when [log] holds the calls
    made before its query. *)
Definition batch_entry (env : Env) (log : list HvCall) (vm_id : Z)
    : VmDict :=
  match hv_status_current env log vm_id with
  | inr cfg => proxmox.status_dict vm_id cfg
  | inl msg =>
      mkVmDict vm_id ("VM-" ++ str_int vm_id) "unknown" None None None None
        (Some ("Failed to get VM status: " ++ msg))
  end.

(** The three control actions share one shape; these name what differs. *)
Definition adapter (env : Env) (a : Action) : Z -> M ActionResult :=
  match a with
  | start => proxmox.start_vm env
  | stop => proxmox.stop_vm env
  | shutdown => proxmox.shutdown_vm env
  end.

Definition target_state (a : Action) : string :=
  match a with
  | start => "running"
  | stop => "stopped"
  | shutdown => "stopped"
  end.

Definition transitional_state (a : Action) : string :=
  match a with
  | start => "starting"
  | stop => "stopping"
  | shutdown => "shutting_down"
  end.

Definition noop_message (a : Action) : string :=
  match a with
  | start => "VM is already running"
  | stop => "VM is already stopped"
  | shutdown => "VM is already stopped"
  end.

Definition sent_message (a : Action) : string :=
  match a with
  | start => "VM start command sent successfully"
  | stop => "VM stop command sent successfully"
  | shutdown => "VM shutdown command sent successfully"
  end.

Definition failure_prefix (a : Action) : string :=
  match a with
  | start => "Failed to start VM: "
  | stop => "Failed to stop VM: "
  | shutdown => "Failed to shutdown VM: "
  end.

(** The integrity constraints models.py declares, with what the two
    autoincrement sequences guarantee: primary keys, the unique email, the
    unique [user_id] of [vm_assignments] (one assignment per user), and the
    foreign keys to [users]. *)
Record db_ok (d : Db) : Prop := mk_db_ok {
  users_pkey : NoDup (map user_id (users d));
  ix_users_email : NoDup (map user_email (users d));
  vm_assignments_pkey : NoDup (map va_id (vm_assignments d));
  vm_assignments_below_seq :
    Forall (fun a => va_id a < vm_assignments_seq d)%Z (vm_assignments d);
  unique_user_vm_assignment : NoDup (map va_user_id (vm_assignments d));
  vm_assignments_user_fkey :
    Forall (fun a => session.has_user d (va_user_id a) = true)
      (vm_assignments d);
  audit_logs_pkey : NoDup (map al_id (audit_logs d));
  audit_logs_below_seq :
    Forall (fun l => al_id l < audit_logs_seq d)%Z (audit_logs d);
  audit_logs_user_fkey :
    Forall (fun l => session.fk_user d (al_user_id l) = true) (audit_logs d)
}.


(** The HTTP status the framework answers with: 200 for a returned value,
    the exception's own code for an [HTTPException], 500 for any other
    exception. *)
Definition status_code {A} (o : Outcome A) : Z :=
  match o with
  | Return _ => 200
  | Raise (HTTPException c _) => c
  | Raise _ => HTTP_500_INTERNAL_SERVER_ERROR
  end.

(** The exception of the permission block. *)
Definition forbidden : Exn :=
  HTTPException HTTP_403_FORBIDDEN "You don't have access to this VM".

(** A run from [w] was denied: answered 403 with nothing done. *)
Definition denied {A} (w : World) (run : Outcome A * World) : Prop :=
  run = (Raise forbidden, w).

(** A run from [w] was allowed: it went on to query the hypervisor about
    [vm_id], and its answer is not 403. *)
Definition allowed {A} (vm_id : Z) (w : World) (run : Outcome A * World)
    : Prop :=
  status_code (fst run) <> HTTP_403_FORBIDDEN /\
  exists calls,
    hv_log (snd run) = (hv_log w ++ StatusCurrentGet vm_id :: calls)%list.

(** A [VMAssignment] row with this user's id and this VM id exists. *)
Definition assigned (d : Db) (u : User) (vm_id : Z) : Prop :=
  exists a,
    In a (vm_assignments d) /\ va_user_id a = user_id u /\ va_vm_id a = vm_id.


(** The world after a request that started from [w], whose adapter call
    ended in [w1], and which committed the one audit row [row]. *)
Definition audited (w w1 : World) (row : AuditLog) : World :=
  mkWorld
    (mkDb (users (db w)) (vm_assignments (db w)) (audit_logs (db w) ++ [row])
       (vm_assignments_seq (db w)) (audit_logs_seq (db w) + 1)
       (db_now (db w)))
    [] (hv_log w1) (tl (commit_faults w)).

(** The audit row [start_vm] writes from world [w]. *)
Definition start_row (w : World) (u : User) (vm_id : Z) (ip : option string)
    (vm_name : string) (success : bool) (error_message : option string)
    : AuditLog :=
  mkAuditLog (audit_logs_seq (db w)) (Some (user_id u)) (user_email u)
    "start" vm_id (Some vm_name) success error_message ip (db_now (db w)).

(** The row [assign_vm_to_user] inserts from world [w] when the hypervisor
    answered [cfg] for the VM. *)
Definition new_assignment (w : World) (uid : string) (vm_id : Z)
    (cfg : VmConfig) : VMAssignment :=
  mkVMAssignment (vm_assignments_seq (db w)) uid vm_id
    (Some (vd_vm_name (proxmox.status_dict vm_id cfg))) (db_now (db w)).

(** The database after the INSERT of [row] into [vm_assignments]. *)
Definition with_assignment (d : Db) (row : VMAssignment) : Db :=
  mkDb (users d) (vm_assignments d ++ [row]) (audit_logs d)
    (vm_assignments_seq d + 1) (audit_logs_seq d) (db_now d).

(** The database after [DELETE FROM users WHERE id = uid]. *)
Definition without_user (d : Db) (uid : string) : Db :=
  mkDb (filter (fun u => negb (user_id u =? uid)) (users d))
    (filter (fun a => negb (va_user_id a =? uid)) (vm_assignments d))
    (map (session.set_null uid) (audit_logs d))
    (vm_assignments_seq d) (audit_logs_seq d) (db_now d).

(** ["id"] and ["email"] of the ["user"] object of a token response. *)
Definition body_user_id (body : AuthResponse) : option string :=
  match ar_user body with
  | Some u => fst u
  | None => None
  end.

Definition body_user_email (body : AuthResponse) : option string :=
  match ar_user body with
  | Some u => snd u
  | None => None
  end.

(** The world after [login] inserted the user it did not find. *)
Definition with_user (w : World) (uid uemail : string) : World :=
  mkWorld
    (session.set_users (db w)
       (users (db w) ++ [mkUser uid uemail false (db_now (db w))]))
    [] (hv_log w) (tl (commit_faults w)).

(** The owner [list_vms] shows an admin for VM [k]: the email of the user
    of the row the assignment dict holds for [k]. *)
Definition shown_owner (d : Db) (assignments : list VMAssignment) (k : Z)
    : option string :=
  match vms.assignment_map_get assignments k with
  | Some a =>
      option_map user_email
        (hd_error (filter (fun u => user_id u =? va_user_id a) (users d)))
  | None => None
  end.

(** The entry [list_vms] builds for an admin from one dict of the batch
    listing. *)
Definition admin_entry (d : Db) (assignments : list VMAssignment)
    (vm : VmDict) : VMResponse :=
  mkVMResponse (vd_vm_id vm) (vd_vm_name vm) (vd_status vm) (vd_uptime vm)
    (shown_owner d assignments (vd_vm_id vm)) true.

(** The user id [create_user] reads off a signup response:
    [r.get("id") or r.get("user", {}).get("id")], when it is truthy. *)
Definition signup_user_id (body : SignupResponse) : option string :=
  let uid :=
    admin_users.or_else (sr_id body)
      match sr_user body with
      | Some i => i
      | None => None
      end in
  if truthy uid then uid else None.

(** The world after a request inserted the user row
    [(uid, email, is_admin)]. *)
Definition with_new_user (w : World) (uid email : string) (is_admin : bool)
    : World :=
  mkWorld
    (session.set_users (db w)
       (users (db w) ++ [mkUser uid email is_admin (db_now (db w))]))
    [] (hv_log w) (tl (commit_faults w)).


(** A handler moves every world along the relation [R]. *)
Definition frame (R : World -> World -> Prop) {A} (m : M A) : Prop :=
  forall w, R w (snd (m w)).

(** [R] is closed under the effects a handler has on the world: none, one
    after the other, registering an operation that [ops] admits, a commit,
    and a hypervisor request that [calls] admits. *)
Record footprint (R : World -> World -> Prop) (ops : SessionOp -> bool)
    (calls : HvCall -> bool) : Prop := mk_footprint {
  fp_refl : forall w, R w w;
  fp_trans : forall w1 w2 w3, R w1 w2 -> R w2 w3 -> R w1 w3;
  fp_add : forall op w, ops op = true -> R w (snd (session.add op w));
  fp_commit : forall w, R w (snd (session.commit w));
  fp_call : forall c w, calls c = true -> R w (proxmox.log_call c w)
}.

(** The operations that write to [audit_logs]: the insert of a row, and the
    deletion of a user, which nulls [user_id] on the user's rows. *)
Definition touches_audit (op : SessionOp) : bool :=
  match op with
  | AddAuditLog _ _ _ _ _ _ _ _ => true
  | DeleteUser _ => true
  | _ => false
  end.

(** From a unit of work that holds no write to [audit_logs], the handler
    left such a unit of work and the audit table as it was. *)
Definition audit_untouched (w w' : World) : Prop :=
  existsb touches_audit (pending w) = false ->
  existsb touches_audit (pending w') = false /\
  audit_logs (db w') = audit_logs (db w).

(** The hypervisor requests that change a VM's state. *)
Definition is_command (c : HvCall) : bool :=
  match c with
  | StatusPost _ _ => true
  | _ => false
  end.

(** The handler sent the hypervisor queries only. *)
Definition only_queried (w w' : World) : Prop :=
  exists sent,
    hv_log w' = (hv_log w ++ sent)%list /\ existsb is_command sent = false.

(** The entries of a session that change neither users nor assignments: an
    audit insert, and the mark of a failed transaction, which holds no
    statement. *)
Definition is_audit_insert (op : SessionOp) : bool :=
  match op with
  | AddAuditLog _ _ _ _ _ _ _ _ => true
  | InactiveTransaction _ => true
  | _ => false
  end.

(** From a unit of work that holds audit inserts only, the handler left
    such a unit of work, and the users and the assignments as they were. *)
Definition accounts_untouched (w w' : World) : Prop :=
  forallb is_audit_insert (pending w) = true ->
  forallb is_audit_insert (pending w') = true /\
  users (db w') = users (db w) /\
  vm_assignments (db w') = vm_assignments (db w).

(** What a run of [start_vm] may have done to the database: nothing, or
    one audit row of this caller, action and VM. *)
Definition at_most_one_start_row (u : User) (vm_id : Z) (ip : option string)
    (d d' : Db) : Prop :=
  users d' = users d /\
  vm_assignments d' = vm_assignments d /\
  (audit_logs d' = audit_logs d \/
   exists row,
     audit_logs d' = (audit_logs d ++ [row])%list /\
     al_user_id row = Some (user_id u) /\
     al_user_email row = user_email u /\
     al_action row = "start" /\ al_vm_id row = vm_id /\
     al_ip_address row = ip).

(** * Properties *)

Local Open Scope list_scope.

(** ** Running handlers *)

Lemma bind_return {A B} (m : M A) (k : A -> M B) (w w' : World) (a : A) :
  m w = (Return a, w') -> bind m k w = k a w'.
Proof. intros H. unfold bind. now rewrite H. Qed.

Lemma bind_raise {A B} (m : M A) (k : A -> M B) (w w' : World) (e : Exn) :
  m w = (Raise e, w') -> bind m k w = (Raise e, w').
Proof. intros H. unfold bind. now rewrite H. Qed.

Lemma try_except_return {A} (m : M A) (h : Exn -> M A) (w w' : World)
    (a : A) :
  m w = (Return a, w') -> try_except m h w = (Return a, w').
Proof. intros H. unfold try_except. now rewrite H. Qed.

Lemma try_except_raise {A} (m : M A) (h : Exn -> M A) (w w' : World)
    (e : Exn) :
  m w = (Raise e, w') -> try_except m h w = h e w'.
Proof. intros H. unfold try_except. now rewrite H. Qed.

Lemma commit_scheduled_fault (w : World) (msg : string) :
  session.inactive (pending w) = None ->
  hd None (commit_faults w) = Some msg ->
  session.commit w =
  (Raise (OperationalError msg),
   mkWorld (db w) [InactiveTransaction msg] (hv_log w)
     (tl (commit_faults w))).
Proof. intros Hi Hf. unfold session.commit. now rewrite Hi, Hf. Qed.

Lemma commit_inactive (w : World) (original : string) :
  session.inactive (pending w) = Some original ->
  session.commit w = (Raise (PendingRollbackError original), w).
Proof. intros Hi. unfold session.commit. now rewrite Hi. Qed.

Lemma add_run (op : SessionOp) (w : World) :
  session.add op w =
  (Return tt, mkWorld (db w) (pending w ++ [op]) (hv_log w) (commit_faults w)).
Proof. reflexivity. Qed.

(** ** The hypervisor adapter *)
Section AdapterFacts.

Variable env : Env.

(** The status query in closed form: one call, and the client's failure
    re-raised under the adapter's prefix. *)
Lemma get_vm_status_run (vm_id : Z) (w : World) :
  proxmox.get_vm_status env vm_id w =
  match hv_status_current env (hv_log w) vm_id with
  | inr cfg =>
      (Return (proxmox.status_dict vm_id cfg),
       proxmox.log_call (StatusCurrentGet vm_id) w)
  | inl msg =>
      (Raise (Exception ("Failed to get VM status: " ++ msg)%string),
       proxmox.log_call (StatusCurrentGet vm_id) w)
  end.
Proof.
  unfold proxmox.get_vm_status, try_except, bind, proxmox.status_current_get.
  destruct (hv_status_current env (hv_log w) vm_id); reflexivity.
Qed.

Lemma batch_entry_vm_id (log : list HvCall) (vm_id : Z) :
  vd_vm_id (batch_entry env log vm_id) = vm_id.
Proof.
  unfold batch_entry.
  destruct (hv_status_current env log vm_id); reflexivity.
Qed.

(** One turn of the loop appends exactly the entry of its id and logs exactly
    its query, whatever the hypervisor answered. *)
Lemma get_all_vms_loop_step (vm_id : Z) (rest : list Z) (vms : list VmDict)
    (w : World) :
  proxmox.get_all_vms_loop env (vm_id :: rest) vms w =
  proxmox.get_all_vms_loop env rest
    (vms ++ [batch_entry env (hv_log w) vm_id])
    (proxmox.log_call (StatusCurrentGet vm_id) w).
Proof.
  cbn [proxmox.get_all_vms_loop].
  unfold bind at 1. unfold try_except at 1. unfold bind at 1.
  rewrite get_vm_status_run. unfold batch_entry.
  destruct (hv_status_current env (hv_log w) vm_id); reflexivity.
Qed.

Lemma get_all_vms_loop_run (ids : list Z) :
  forall (vms : list VmDict) (w : World),
  exists out,
    proxmox.get_all_vms_loop env ids vms w =
      (Return (vms ++ out),
       mkWorld (db w) (pending w) (hv_log w ++ map StatusCurrentGet ids)
         (commit_faults w)) /\
    map vd_vm_id out = ids /\
    forall i vm_id,
      nth_error ids i = Some vm_id ->
      nth_error out i =
        Some (batch_entry env (hv_log w ++ map StatusCurrentGet (firstn i ids))
                vm_id).
Proof.
  induction ids as [|id ids IH]; intros vms w.
  - exists []. cbn. rewrite !app_nil_r. destruct w; cbn.
    repeat split. intros [|i] vm_id H; discriminate.
  - rewrite get_all_vms_loop_step.
    destruct (IH (vms ++ [batch_entry env (hv_log w) id])
                (proxmox.log_call (StatusCurrentGet id) w))
      as (out & Hrun & Hids & Hnth).
    exists (batch_entry env (hv_log w) id :: out).
    rewrite Hrun. cbn [proxmox.log_call db pending hv_log commit_faults].
    rewrite <- !app_assoc. cbn [app map].
    split; [reflexivity|]. split.
    + rewrite batch_entry_vm_id, Hids. reflexivity.
    + intros [|i] vm_id H; cbn in H |- *.
      * injection H as <-. rewrite app_nil_r. reflexivity.
      * rewrite (Hnth i vm_id H).
        cbn [proxmox.log_call hv_log]. rewrite <- app_assoc. reflexivity.
Qed.

(** The batch listing always returns, with the entries of the requested
    ids in their order. *)
Lemma get_all_vms_run (vm_ids : option (list Z)) (w : World) :
  exists vms,
    proxmox.get_all_vms env vm_ids w =
      (Return vms,
       mkWorld (db w) (pending w)
         (hv_log w ++
            map StatusCurrentGet (dict_get vm_ids proxmox.default_vm_ids))
         (commit_faults w)) /\
    map vd_vm_id vms = dict_get vm_ids proxmox.default_vm_ids /\
    forall i vm_id,
      nth_error (dict_get vm_ids proxmox.default_vm_ids) i = Some vm_id ->
      nth_error vms i =
        Some (batch_entry env
                (hv_log w ++
                   map StatusCurrentGet
                     (firstn i (dict_get vm_ids proxmox.default_vm_ids)))
                vm_id).
Proof.
  unfold proxmox.get_all_vms.
  destruct (get_all_vms_loop_run (dict_get vm_ids proxmox.default_vm_ids)
              [] w) as (out & Hrun & Hids & Hnth).
  exists out. cbn [app] in Hrun. auto.
Qed.

(** C7.  [get_all_vms] never raises and queries each requested id (the given
    list, or the default four) once, in order.  The result holds one entry
    per requested id, in the same order: the normal status dict when the
    query of that id succeeded, and when it failed an entry with status
    ["unknown"] and the failure's text under ["error"].  A failing id leaves
    the other entries as they would be. *)
Theorem get_all_vms_partial_failure (vm_ids : option (list Z)) (w : World) :
  let ids := dict_get vm_ids proxmox.default_vm_ids in
  exists vms,
    proxmox.get_all_vms env vm_ids w =
      (Return vms,
       mkWorld (db w) (pending w) (hv_log w ++ map StatusCurrentGet ids)
         (commit_faults w)) /\
    length vms = length ids /\
    map vd_vm_id vms = ids /\
    forall i vm_id,
      nth_error ids i = Some vm_id ->
      exists vm,
        nth_error vms i = Some vm /\
        match
          hv_status_current env
            (hv_log w ++ map StatusCurrentGet (firstn i ids)) vm_id
        with
        | inr cfg => vm = proxmox.status_dict vm_id cfg /\ vd_error vm = None
        | inl msg =>
            vm = proxmox.unknown_vm vm_id
                   (Exception ("Failed to get VM status: " ++ msg)%string) /\
            vd_status vm = "unknown" /\
            vd_error vm = Some ("Failed to get VM status: " ++ msg)%string
        end.
Proof.
  intro ids.
  destruct (get_all_vms_run vm_ids w) as (out & Hrun & Hids & Hnth).
  fold ids in Hrun, Hids, Hnth. exists out.
  split; [exact Hrun|]. split.
  - rewrite <- Hids. now rewrite length_map.
  - split; [exact Hids|].
    intros i vm_id H. eexists. split; [apply (Hnth i vm_id H)|].
    unfold batch_entry.
    destruct (hv_status_current env _ vm_id); repeat split; reflexivity.
Qed.

(** Every control action in closed form, once the status read returned. *)
Lemma adapter_run (a : Action) (vm_id : Z) (w : World) (cfg : VmConfig) :
  hv_status_current env (hv_log w) vm_id = inr cfg ->
  let cur := proxmox.status_dict vm_id cfg in
  let w1 := proxmox.log_call (StatusCurrentGet vm_id) w in
  let w2 := proxmox.log_call (StatusPost a vm_id) w1 in
  adapter env a vm_id w =
  if (vd_status cur =? target_state a)%string then
    (Return (mkActionResult false (noop_message a) vm_id (vd_vm_name cur)
               (target_state a)), w1)
  else
    match hv_status_post env (hv_log w1) a vm_id with
    | None =>
        (Return (mkActionResult true (sent_message a) vm_id (vd_vm_name cur)
                   (transitional_state a)), w2)
    | Some msg => (Raise (Exception (failure_prefix a ++ msg)%string), w2)
    end.
Proof.
  intros H cur w1 w2.
  destruct a; cbn [adapter target_state];
    unfold proxmox.start_vm, proxmox.stop_vm, proxmox.shutdown_vm;
    unfold try_except at 1; unfold bind at 1;
    rewrite get_vm_status_run, H; fold cur; fold w1;
    (destruct (vd_status cur =? _)%string; [reflexivity|]);
    unfold bind, proxmox.status_post; fold w1;
    destruct (hv_status_post env (hv_log w1) _ vm_id); reflexivity.
Qed.

(** When the status read itself fails, the action raises and sends no
    command. *)
Lemma adapter_run_unreachable (a : Action) (vm_id : Z) (w : World)
    (msg : string) :
  hv_status_current env (hv_log w) vm_id = inl msg ->
  adapter env a vm_id w =
  (Raise (Exception (failure_prefix a ++ "Failed to get VM status: " ++ msg)
            %string),
   proxmox.log_call (StatusCurrentGet vm_id) w).
Proof.
  intros H.
  destruct a; cbn [adapter];
    unfold proxmox.start_vm, proxmox.stop_vm, proxmox.shutdown_vm;
    unfold try_except at 1; unfold bind at 1;
    rewrite get_vm_status_run, H; reflexivity.
Qed.

(** C3.  Once the live status of [vm_id] has been read: [start_vm] on a VM
    that is ["running"], and [stop_vm] and [shutdown_vm] on one that is
    ["stopped"], return (they do not raise) a result with [success = false],
    the "already" message and the live status itself, after the status read
    only, so nothing was sent that could change the VM.  In every other live
    state the action's command is posted to the hypervisor directly after the
    read, and when the hypervisor takes it the result has [success = true]
    and the label ["starting"], ["stopping"] or ["shutting_down"]; the post
    is the adapter's last call, so it does not poll for the transition. *)
Theorem noop_report_or_command (vm_id : Z) (w : World) (cfg : VmConfig) :
  hv_status_current env (hv_log w) vm_id = inr cfg ->
  let live := dict_get (cfg_status cfg) "unknown"%string in
  let name := dict_get (cfg_name cfg) ("VM-" ++ str_int vm_id)%string in
  let w1 := proxmox.log_call (StatusCurrentGet vm_id) w in
  (live = "running"%string ->
   proxmox.start_vm env vm_id w =
     (Return (mkActionResult false "VM is already running" vm_id name live),
      w1)) /\
  (live = "stopped"%string ->
   proxmox.stop_vm env vm_id w =
     (Return (mkActionResult false "VM is already stopped" vm_id name live),
      w1) /\
   proxmox.shutdown_vm env vm_id w =
     (Return (mkActionResult false "VM is already stopped" vm_id name live),
      w1)) /\
  (live <> "running"%string ->
   hv_log (snd (proxmox.start_vm env vm_id w)) =
     hv_log w ++ [StatusCurrentGet vm_id; StatusPost start vm_id] /\
   (hv_status_post env (hv_log w1) start vm_id = None ->
    proxmox.start_vm env vm_id w =
      (Return (mkActionResult true "VM start command sent successfully"
                 vm_id name "starting"),
       proxmox.log_call (StatusPost start vm_id) w1))) /\
  (live <> "stopped"%string ->
   (hv_log (snd (proxmox.stop_vm env vm_id w)) =
      hv_log w ++ [StatusCurrentGet vm_id; StatusPost stop vm_id] /\
    (hv_status_post env (hv_log w1) stop vm_id = None ->
     proxmox.stop_vm env vm_id w =
       (Return (mkActionResult true "VM stop command sent successfully"
                  vm_id name "stopping"),
        proxmox.log_call (StatusPost stop vm_id) w1))) /\
   (hv_log (snd (proxmox.shutdown_vm env vm_id w)) =
      hv_log w ++ [StatusCurrentGet vm_id; StatusPost shutdown vm_id] /\
    (hv_status_post env (hv_log w1) shutdown vm_id = None ->
     proxmox.shutdown_vm env vm_id w =
       (Return (mkActionResult true "VM shutdown command sent successfully"
                  vm_id name "shutting_down"),
        proxmox.log_call (StatusPost shutdown vm_id) w1)))).
Proof.
  intros H live name w1.
  pose proof (adapter_run start vm_id w cfg H) as Hstart.
  pose proof (adapter_run stop vm_id w cfg H) as Hstop.
  pose proof (adapter_run shutdown vm_id w cfg H) as Hshut.
  cbn [adapter target_state transitional_state noop_message sent_message
       failure_prefix proxmox.status_dict vd_status vd_vm_name]
    in Hstart, Hstop, Hshut.
  fold live name w1 in Hstart, Hstop, Hshut.
  repeat split.
  - intros E. rewrite Hstart, E. reflexivity.
  - rewrite Hstop, H0. reflexivity.
  - rewrite Hshut, H0. reflexivity.
  - apply String.eqb_neq in H0. rewrite Hstart, H0.
    destruct (hv_status_post env (hv_log w1) start vm_id); cbn;
      now rewrite <- app_assoc.
  - intros E. apply String.eqb_neq in H0. now rewrite Hstart, H0, E.
  - apply String.eqb_neq in H0. rewrite Hstop, H0.
    destruct (hv_status_post env (hv_log w1) stop vm_id); cbn;
      now rewrite <- app_assoc.
  - intros E. apply String.eqb_neq in H0. now rewrite Hstop, H0, E.
  - apply String.eqb_neq in H0. rewrite Hshut, H0.
    destruct (hv_status_post env (hv_log w1) shutdown vm_id); cbn;
      now rewrite <- app_assoc.
  - intros E. apply String.eqb_neq in H0. now rewrite Hshut, H0, E.
Qed.

(** C10.  The no-op test is equality of the live status string with the one
    target of the action, ["running"] for start and ["stopped"] for stop and
    shutdown: the result reports a no-op exactly when the two strings are
    equal.  For any other live status, ["paused"] and ["unknown"] among them
    (and a reply without a status, which reads as ["unknown"]), the command
    is posted, and when the hypervisor takes it the result has
    [success = true] and the transitional label. *)
Theorem noop_iff_exact_target (a : Action) (vm_id : Z) (w : World)
    (cfg : VmConfig) :
  hv_status_current env (hv_log w) vm_id = inr cfg ->
  let live := dict_get (cfg_status cfg) "unknown"%string in
  let run := adapter env a vm_id w in
  (live = target_state a <->
   exists name,
     run = (Return (mkActionResult false (noop_message a) vm_id name
                      (target_state a)),
            proxmox.log_call (StatusCurrentGet vm_id) w)) /\
  (live <> target_state a ->
   In (StatusPost a vm_id) (hv_log (snd run)) /\
   (hv_status_post env (hv_log w ++ [StatusCurrentGet vm_id]) a vm_id = None ->
    exists r,
      fst run = Return r /\ res_success r = true /\
      res_status r = transitional_state a)) /\
  (live = "paused"%string \/ live = "unknown"%string \/ cfg_status cfg = None ->
   live <> target_state a).
Proof.
  intros H live run.
  pose proof (adapter_run a vm_id w cfg H) as Hrun.
  cbn [proxmox.status_dict vd_status vd_vm_name] in Hrun.
  fold live run in Hrun.
  split; [|split].
  - split.
    + intros E. apply String.eqb_eq in E. rewrite Hrun, E. eauto.
    + intros [name E]. destruct (String.eqb_spec live (target_state a)) as [|N];
        [assumption|].
      rewrite Hrun in E.
      destruct (hv_status_post env _ a vm_id); discriminate.
  - intros N. apply String.eqb_neq in N. rewrite Hrun, N.
    cbn [proxmox.log_call hv_log].
    split.
    + destruct (hv_status_post env _ a vm_id); cbn;
        apply in_or_app; right; left; reflexivity.
    + intros E. rewrite E. eexists. cbn. repeat split.
  - intros [E | [E | E]]; [| |unfold live; rewrite E; cbn [dict_get]];
      try rewrite E; destruct a; discriminate.
Qed.

End AdapterFacts.

(** ** Queries on keyed tables *)
Section KeyedTables.

Context {A K : Type}.
Variable key : A -> K.

Lemma filter_none (p : A -> bool) (l : list A) :
  (forall x, In x l -> p x = false) -> filter p l = [].
Proof.
  induction l as [|a l IH]; intros H; cbn; [reflexivity|].
  rewrite (H a (or_introl eq_refl)). apply IH.
  intros x Hx. apply H. now right.
Qed.

(** A filter that pins the value of a unique column selects at most the one
    row holding it. *)
Lemma filter_unique (p : A -> bool) (k : K) (l : list A) (x : A) :
  NoDup (map key l) ->
  (forall y, p y = true -> key y = k) ->
  In x l -> p x = true -> filter p l = [x].
Proof.
  induction l as [|a l IH]; cbn; intros ND Hp Hin Hx; [contradiction|].
  inversion ND as [|? ? Hnotin ND']; subst.
  destruct Hin as [->|Hin].
  - rewrite Hx. f_equal. apply filter_none.
    intros y Hy. destruct (p y) eqn:E; [|reflexivity].
    exfalso. apply Hnotin.
    rewrite (Hp x Hx), <- (Hp y E). now apply in_map.
  - destruct (p a) eqn:E.
    + exfalso. apply Hnotin.
      rewrite (Hp a E), <- (Hp x Hx). now apply in_map.
    + now apply IH.
Qed.

Lemma filter_unique_cases (p : A -> bool) (k : K) (l : list A) :
  NoDup (map key l) ->
  (forall y, p y = true -> key y = k) ->
  filter p l = [] \/ exists x, In x l /\ p x = true /\ filter p l = [x].
Proof.
  intros ND Hp.
  destruct (filter p l) as [|x rest] eqn:E; [now left|right].
  assert (Hx : In x (filter p l)) by (rewrite E; now left).
  apply filter_In in Hx. destruct Hx as [Hin Hpx].
  exists x. repeat split; try assumption.
  rewrite <- E. now apply (filter_unique p k).
Qed.

Lemma NoDup_map_filter (p : A -> bool) (l : list A) :
  NoDup (map key l) -> NoDup (map key (filter p l)).
Proof.
  induction l as [|a l IH]; cbn; intros ND; [constructor|].
  inversion ND as [|? ? Hnotin ND']; subst.
  destruct (p a); cbn; [|now apply IH].
  constructor; [|now apply IH].
  intros Hin. apply Hnotin.
  apply in_map_iff in Hin. destruct Hin as (y & Hy & Hiny).
  apply filter_In in Hiny. rewrite <- Hy. apply in_map. tauto.
Qed.

Lemma NoDup_map_snoc (l : list A) (x : A) :
  NoDup (map key l) ->
  (forall y, In y l -> key y <> key x) ->
  NoDup (map key (l ++ [x])).
Proof.
  intros ND Hfresh. rewrite map_app. apply NoDup_app.
  - assumption.
  - cbn. constructor; [intros []|constructor].
  - intros k Hk [<-|[]].
    apply in_map_iff in Hk. destruct Hk as (y & Hy & Hin).
    now apply (Hfresh y Hin).
Qed.

End KeyedTables.

Lemma scalar_one_or_none_nil {A} (w : World) :
  session.scalar_one_or_none (@nil A) w = (Return None, w).
Proof. reflexivity. Qed.

Lemma scalar_one_or_none_one {A} (r : A) (w : World) :
  session.scalar_one_or_none [r] w = (Return (Some r), w).
Proof. reflexivity. Qed.

(** ** The integrity constraints of models.py *)

Lemma has_user_spec (d : Db) (uid : string) :
  session.has_user d uid = true <->
  exists u, In u (users d) /\ user_id u = uid.
Proof.
  unfold session.has_user. rewrite existsb_exists.
  split; intros (u & Hin & H); exists u; split; auto;
    now apply String.eqb_eq.
Qed.

Lemma has_user_false (d : Db) (uid : string) :
  session.has_user d uid = false ->
  forall u, In u (users d) -> user_id u <> uid.
Proof.
  intros H u Hin E.
  assert (session.has_user d uid = true) by (apply has_user_spec; eauto).
  congruence.
Qed.

Lemma filter_nil_existsb_false {A} (p : A -> bool) (l : list A) :
  (forall x, In x l -> p x = false) -> existsb p l = false.
Proof.
  induction l as [|a l IH]; intros H; cbn; [reflexivity|].
  rewrite (H a (or_introl eq_refl)). apply IH.
  intros x Hx. apply H. now right.
Qed.

Lemma existsb_false {A} (p : A -> bool) (l : list A) :
  existsb p l = false -> forall x, In x l -> p x = false.
Proof.
  intros H x Hin. destruct (p x) eqn:E; [|reflexivity].
  assert (existsb p l = true) by (apply existsb_exists; eauto).
  congruence.
Qed.

Lemma has_user_incl (d d' : Db) (uid : string) :
  (forall u, In u (users d) -> user_id u = uid -> In u (users d')) ->
  session.has_user d uid = true -> session.has_user d' uid = true.
Proof.
  intros Hincl H. apply has_user_spec in H. destruct H as (u & Hin & E).
  apply has_user_spec. exists u. auto.
Qed.

Lemma fk_user_incl (d d' : Db) (uid : option string) :
  (forall u, In u (users d) -> In u (users d')) ->
  session.fk_user d uid = true -> session.fk_user d' uid = true.
Proof.
  destruct uid as [i|]; cbn; [|reflexivity].
  intros Hincl. apply has_user_incl. auto.
Qed.

Lemma set_null_id (uid : string) (l : AuditLog) :
  al_id (session.set_null uid l) = al_id l.
Proof.
  unfold session.set_null.
  destruct (al_user_id l) as [i|]; [destruct (i =? uid)%string|]; reflexivity.
Qed.

(** What [ON DELETE SET NULL] does to one audit row: only [user_id] can
    change, and it changes exactly when it named the deleted user. *)
Lemma set_null_spec (uid : string) (l : AuditLog) :
  let l' := session.set_null uid l in
  al_id l' = al_id l /\ al_user_email l' = al_user_email l /\
  al_action l' = al_action l /\ al_vm_id l' = al_vm_id l /\
  al_vm_name l' = al_vm_name l /\ al_success l' = al_success l /\
  al_error_message l' = al_error_message l /\
  al_ip_address l' = al_ip_address l /\ al_timestamp l' = al_timestamp l /\
  (al_user_id l = Some uid -> al_user_id l' = None) /\
  (al_user_id l <> Some uid -> l' = l).
Proof.
  unfold session.set_null.
  destruct (al_user_id l) as [i|] eqn:E.
  - destruct (String.eqb_spec i uid) as [->|N]; cbn; rewrite ?E;
      repeat split; try reflexivity; try congruence.
  - rewrite E. repeat split; congruence.
Qed.

Ltac db_fields :=
  cbn [users vm_assignments audit_logs vm_assignments_seq audit_logs_seq
       db_now session.set_users].

(** Every INSERT and DELETE the session can flush keeps the constraints: a
    statement that would break one is refused instead. *)

Lemma flush_op_db_ok (d d' : Db) (op : SessionOp) :
  db_ok d -> session.flush_op d op = inr d' -> db_ok d'.
Proof.
  intros [Upk Uem Apk Aseq Auq Afk Lpk Lseq Lfk] H.
  destruct op as [id email adm | uid vm name
                 | uid email action vm name ok err ip | id | id | original];
    cbn [session.flush_op] in H; [| | | | |discriminate].
  - destruct (session.has_user d id) eqn:Hid; [discriminate|].
    destruct (existsb _ (users d)) eqn:Hem; [discriminate|].
    injection H as <-.
    constructor; db_fields; try assumption.
    + apply NoDup_map_snoc; [assumption|].
      intros y Hy. now apply (has_user_false d id Hid).
    + apply NoDup_map_snoc; [assumption|].
      intros y Hy. apply (existsb_false _ _ Hem) in Hy.
      now apply String.eqb_neq in Hy.
    + eapply Forall_impl; [|exact Afk]. intros a.
      apply has_user_incl. intros u Hu _. db_fields. apply in_or_app. now left.
    + eapply Forall_impl; [|exact Lfk]. intros l.
      apply fk_user_incl. intros u Hu. db_fields. apply in_or_app. now left.
  - destruct (session.has_user d uid) eqn:Hid; [|discriminate].
    destruct (existsb _ (vm_assignments d)) eqn:Hex; [discriminate|].
    cbn in H. injection H as <-.
    constructor; db_fields; try assumption.
    + apply NoDup_map_snoc; [assumption|].
      intros y Hy. rewrite Forall_forall in Aseq. specialize (Aseq y Hy).
      cbn. lia.
    + apply Forall_app. split.
      * eapply Forall_impl; [|exact Aseq]. cbn. intros; lia.
      * constructor; [cbn; lia|constructor].
    + apply NoDup_map_snoc; [assumption|].
      intros y Hy. apply (existsb_false _ _ Hex) in Hy.
      now apply String.eqb_neq in Hy.
    + apply Forall_app. split; [exact Afk|].
      constructor; [exact Hid|constructor].
  - destruct (int4 vm); [|discriminate].
    destruct (session.fk_user d uid) eqn:Hfk; [|discriminate].
    cbn in H. injection H as <-.
    constructor; db_fields; try assumption.
    + apply NoDup_map_snoc; [assumption|].
      intros y Hy. rewrite Forall_forall in Lseq. specialize (Lseq y Hy).
      cbn. lia.
    + apply Forall_app. split.
      * eapply Forall_impl; [|exact Lseq]. cbn. intros; lia.
      * constructor; [cbn; lia|constructor].
    + apply Forall_app. split; [exact Lfk|].
      constructor; [exact Hfk|constructor].
  - injection H as <-.
    assert (Hkeep : forall i, i <> id ->
              session.has_user d i = true ->
              session.has_user
                (mkDb (filter (fun u => negb (user_id u =? id)%string)
                         (users d))
                   (filter (fun a => negb (va_user_id a =? id)%string)
                      (vm_assignments d))
                   (map (session.set_null id) (audit_logs d))
                   (vm_assignments_seq d) (audit_logs_seq d) (db_now d)) i
              = true).
    { intros i Hi. apply has_user_incl. intros u Hu E. db_fields.
      apply filter_In. split; [assumption|].
      apply negb_true_iff, String.eqb_neq. congruence. }
    constructor; db_fields.
    + now apply NoDup_map_filter.
    + now apply NoDup_map_filter.
    + now apply NoDup_map_filter.
    + rewrite Forall_forall in Aseq |- *. intros a Ha.
      apply filter_In in Ha. now apply Aseq.
    + now apply NoDup_map_filter.
    + rewrite Forall_forall in Afk |- *. intros a Ha.
      apply filter_In in Ha. destruct Ha as [Ha Hne].
      apply negb_true_iff, String.eqb_neq in Hne.
      apply Hkeep; [assumption|]. now apply Afk.
    + rewrite map_map. erewrite map_ext; [exact Lpk|].
      intros l. apply set_null_id.
    + rewrite Forall_forall in Lseq |- *. intros l Hl.
      apply in_map_iff in Hl. destruct Hl as (l0 & <- & Hl0).
      rewrite set_null_id. now apply Lseq.
    + rewrite Forall_forall in Lfk |- *. intros l Hl.
      apply in_map_iff in Hl. destruct Hl as (l0 & <- & Hl0).
      specialize (Lfk l0 Hl0). unfold session.set_null.
      destruct (al_user_id l0) as [i|] eqn:E; [|now rewrite E].
      destruct (String.eqb_spec i id) as [->|N]; [reflexivity|].
      rewrite E. cbn [session.fk_user] in Lfk |- *. now apply Hkeep.
  - injection H as <-.
    constructor; db_fields; try assumption.
    + now apply NoDup_map_filter.
    + rewrite Forall_forall in Aseq |- *. intros a Ha.
      apply filter_In in Ha. now apply Aseq.
    + now apply NoDup_map_filter.
    + rewrite Forall_forall in Afk |- *. intros a Ha.
      apply filter_In in Ha. now apply Afk.
Qed.



Lemma commit_raise_keeps_db (w : World) (e : Exn) :
  fst (session.commit w) = Raise e -> db (snd (session.commit w)) = db w.
Proof.
  unfold session.commit.
  destruct (session.inactive (pending w)); [reflexivity|].
  destruct (hd None (commit_faults w)); [reflexivity|].
  destruct (session.flush (db w) (pending w)); [reflexivity|discriminate].
Qed.

(** ** Every handler keeps the constraints

    The database changes only at a commit, and a commit installs only
    databases that satisfy the constraints; so does every handler, whatever
    the environment answers. *)
Section Invariant.

Variable env : Env.






















End Invariant.

(** ** Access control on a single VM *)

Section AccessFacts.

Variable env : Env.








Lemma commit_hv_log (w : World) :
  hv_log (snd (session.commit w)) = hv_log w.
Proof.
  unfold session.commit.
  destruct (session.inactive (pending w)); [reflexivity|].
  destruct (hd None (commit_faults w)); [reflexivity|].
  destruct (session.flush (db w) (pending w)); reflexivity.
Qed.





Lemma check_permissions_world (vm_id : Z) (u : User) (w : World) :
  snd (vms.check_permissions vm_id u w) = w.
Proof.
  unfold vms.check_permissions.
  destruct (user_is_admin u); [reflexivity|]. cbn [negb].
  unfold bind, session.execute_int4, session.execute.
  destruct (int4 vm_id); [|reflexivity].
  destruct (filter _ (vm_assignments (db w))) as [|a [|b rest]];
    reflexivity.
Qed.

Lemma denied_not_allowed {A} (vm_id : Z) (w : World)
    (run : Outcome A * World) :
  denied w run -> ~ allowed vm_id w run.
Proof. intros -> [H _]. now apply H. Qed.




End AccessFacts.

(** ** The audit trail of [start_vm] *)
Section AuditFacts.

Variable env : Env.

(** The adapter only talks to the hypervisor: the database, the session and
    the fault schedule are as before. *)
Lemma adapter_frame (a : Action) (vm_id : Z) (w : World) :
  let w1 := snd (adapter env a vm_id w) in
  db w1 = db w /\ pending w1 = pending w /\
  commit_faults w1 = commit_faults w.
Proof.
  destruct (hv_status_current env (hv_log w) vm_id) as [msg|cfg] eqn:E.
  - rewrite (adapter_run_unreachable env a vm_id w msg E). now cbn.
  - rewrite (adapter_run env a vm_id w cfg E).
    destruct (_ =? _)%string; [now cbn|].
    destruct (hv_status_post env _ a vm_id); now cbn.
Qed.

Lemma commit_one_audit (w1 : World) (d : Db) (uid : string)
    (email action : string) (vm_id : Z) (vm_name : option string)
    (success : bool) (err ip : option string) :
  db w1 = d -> pending w1 = [] ->
  hd None (commit_faults w1) = None ->
  int4 vm_id = true ->
  session.has_user d uid = true ->
  session.commit
    (mkWorld (db w1)
       (pending w1 ++
          [AddAuditLog (Some uid) email action vm_id vm_name success err ip])
       (hv_log w1) (commit_faults w1)) =
  (Return tt,
   mkWorld
     (mkDb (users d) (vm_assignments d)
        (audit_logs d ++
           [mkAuditLog (audit_logs_seq d) (Some uid) email action vm_id
              vm_name success err ip (db_now d)])
        (vm_assignments_seq d) (audit_logs_seq d + 1)%Z (db_now d))
     [] (hv_log w1) (tl (commit_faults w1))).
Proof.
  intros Hd Hp Hf Hr Hu. unfold session.commit.
  cbn [db pending hv_log commit_faults]. rewrite Hf, Hp, Hd.
  cbn [app session.inactive session.flush session.flush_op session.fk_user].
  now rewrite Hr, Hu.
Qed.

(** C2, as the code has it.  For a [POST /vms/{id}/start] that passed the
    permission block, for a VM id that is a 32-bit integer, made by a user
    whose row exists, when the commit of the audit row goes through: the
    request appends exactly one [AuditLog] row and changes nothing else in
    the database.  If the adapter returned, the row carries the adapter's
    [success] flag and the response is the adapter's result; if the adapter
    raised, the row has [success = false] and the exception's message and
    the response is 500 with that message. *)
Theorem start_vm_writes_one_audit_row (vm_id : Z) (ip : option string)
    (u : User) (w : World) :
  vms.check_permissions vm_id u w = (Return tt, w) ->
  pending w = [] ->
  int4 vm_id = true ->
  session.has_user (db w) (user_id u) = true ->
  hd None (commit_faults w) = None ->
  match proxmox.start_vm env vm_id w with
  | (Return r, w1) =>
      vms.start_vm env vm_id ip u w =
      (Return (vms.action_response r),
       audited w w1
         (start_row w u vm_id ip (res_vm_name r) (res_success r)
            (if res_success r then None else Some (res_message r))))
  | (Raise e, w1) =>
      vms.start_vm env vm_id ip u w =
      (Raise (HTTPException 500 ("Failed to start VM: " ++ str_exn e)%string),
       audited w w1
         (start_row w u vm_id ip ("VM-" ++ str_int vm_id)%string false
            (Some (str_exn e))))
  end.
Proof.
  intros Hc Hp Hr Hu Hf.
  destruct (adapter_frame start vm_id w) as (Hd1 & Hp1 & Hf1).
  cbn [adapter] in Hd1, Hp1, Hf1.
  unfold vms.start_vm. rewrite (bind_return _ _ _ _ _ Hc).
  destruct (proxmox.start_vm env vm_id w) as [[r|e] w1] eqn:E;
    cbn [snd] in Hd1, Hp1, Hf1.
  - apply try_except_return.
    rewrite (bind_return _ _ _ _ _ E).
    rewrite (bind_return _ _ _ _ _ (add_run _ w1)).
    erewrite bind_return;
      [|apply (commit_one_audit w1 (db w)); congruence].
    unfold ret, audited, start_row. now rewrite Hf1.
  - erewrite try_except_raise; [|apply bind_raise; exact E].
    rewrite (bind_return _ _ _ _ _ (add_run _ w1)).
    erewrite bind_return;
      [|apply (commit_one_audit w1 (db w)); congruence].
    unfold raise, audited, start_row. now rewrite Hf1.
Qed.

(** When the commit of the audit row fails, no row is written and the
    request ends in an unhandled database exception, whatever the adapter
    did.  After the adapter returned, the failure lands in the handler's
    [except] clause, whose own commit meets the session's inactive
    transaction and raises [PendingRollbackError]; after the adapter raised,
    the failing commit is the one of the [except] clause itself. *)
Lemma start_vm_commit_failure_raises (vm_id : Z) (ip : option string)
    (u : User) (w : World) (msg : string) :
  vms.check_permissions vm_id u w = (Return tt, w) ->
  pending w = [] ->
  hd None (commit_faults w) = Some msg ->
  let run := vms.start_vm env vm_id ip u w in
  fst run =
  Raise
    match fst (proxmox.start_vm env vm_id w) with
    | Return _ => PendingRollbackError msg
    | Raise _ => OperationalError msg
    end /\
  db (snd run) = db w /\
  hv_log (snd run) = hv_log (snd (proxmox.start_vm env vm_id w)).
Proof.
  intros Hc Hp Hf run. unfold run; clear run.
  destruct (adapter_frame start vm_id w) as (Hd1 & Hp1 & Hf1).
  cbn [adapter] in Hd1, Hp1, Hf1.
  unfold vms.start_vm. rewrite (bind_return _ _ _ _ _ Hc).
  destruct (proxmox.start_vm env vm_id w) as [[r|e] w1] eqn:E;
    cbn [fst snd] in Hd1, Hp1, Hf1 |- *.
  - assert (Hfirst :
        session.commit
          (mkWorld (db w1)
             (pending w1 ++
                [AddAuditLog (Some (user_id u)) (user_email u) "start" vm_id
                   (Some (res_vm_name r)) (res_success r)
                   (if res_success r then None else Some (res_message r))
                   ip])
             (hv_log w1) (commit_faults w1)) =
        (Raise (OperationalError msg),
         mkWorld (db w1) [InactiveTransaction msg] (hv_log w1)
           (tl (commit_faults w1)))).
    { rewrite Hp1, Hp.
      apply (commit_scheduled_fault (mkWorld _ _ _ _)); [reflexivity|].
      cbn [commit_faults]. now rewrite Hf1. }
    rewrite (try_except_raise _ _ w
               (mkWorld (db w1) [InactiveTransaction msg] (hv_log w1)
                  (tl (commit_faults w1)))
               (OperationalError msg)).
    2:{ rewrite (bind_return _ _ _ _ _ E).
        rewrite (bind_return _ _ _ _ _ (add_run _ w1)).
        apply bind_raise. exact Hfirst. }
    rewrite (bind_return _ _ _ _ _ (add_run _ _)).
    cbn [db pending hv_log commit_faults app].
    erewrite bind_raise;
      [|apply (commit_inactive (mkWorld _ _ _ _) msg); reflexivity].
    cbn [fst snd db hv_log]. now split.
  - rewrite (try_except_raise _ _ _ _ _ (bind_raise _ _ _ _ _ E)).
    rewrite (bind_return _ _ _ _ _ (add_run _ w1)).
    erewrite bind_raise.
    2:{ apply (commit_scheduled_fault (mkWorld _ _ _ _) msg).
        - cbn [pending]. now rewrite Hp1, Hp.
        - cbn [commit_faults]. now rewrite Hf1. }
    cbn [fst snd db hv_log]. now split.
Qed.

End AuditFacts.

(** ** Listing for a user who is not an admin *)
Section ListingFacts.

Variable env : Env.

Lemma find_by_id (k : Z) (l : list VmDict) :
  (In k (map vd_vm_id l) ->
   exists vm,
     find (fun vm => (vd_vm_id vm =? k)%Z) l = Some vm /\
     In vm l /\ vd_vm_id vm = k) /\
  (~ In k (map vd_vm_id l) ->
   find (fun vm => (vd_vm_id vm =? k)%Z) l = None).
Proof.
  split.
  - intros Hin. apply in_map_iff in Hin. destruct Hin as (x & Hx & Hin).
    destruct (find (fun vm => (vd_vm_id vm =? k)%Z) l) as [vm|] eqn:E.
    + apply find_some in E. destruct E as [Hvm Hk].
      apply Z.eqb_eq in Hk. now exists vm.
    + pose proof (find_none _ _ E x Hin) as Hn. cbn in Hn.
      apply Z.eqb_neq in Hn. contradiction.
  - intros Hno.
    destruct (find (fun vm => (vd_vm_id vm =? k)%Z) l) as [vm|] eqn:E;
      [|reflexivity].
    apply find_some in E. destruct E as [Hvm Hk]. apply Z.eqb_eq in Hk.
    exfalso. apply Hno. rewrite <- Hk. now apply in_map.
Qed.

(** C4.  For a caller who is not an admin, with the one-assignment-per-user
    constraint in force.  The live listing [all_vms] always comes back, one
    entry per default VM id.  Without an assignment row the answer is the
    empty list.  With a row whose [vm_id] is in the listing the answer is the
    one entry of that VM, owned by the caller.  With a row whose [vm_id] is
    not in the listing the request fails: the 404 raised for the missing VM
    is caught by the handler's own [except Exception] and leaves as a 500
    whose detail quotes it; no list is returned. *)
Theorem list_vms_non_admin (u : User) (w : World) :
  user_is_admin u = false ->
  NoDup (map va_user_id (vm_assignments (db w))) ->
  exists all_vms w1,
    proxmox.get_all_vms env None w = (Return all_vms, w1) /\
    map vd_vm_id all_vms = [106; 103; 101; 102]%Z /\
    ((forall a, In a (vm_assignments (db w)) -> va_user_id a <> user_id u) ->
     vms.list_vms env u w = (Return (mkVMListResponse [] 0), w1)) /\
    (forall a,
       In a (vm_assignments (db w)) -> va_user_id a = user_id u ->
       (In (va_vm_id a) (map vd_vm_id all_vms) ->
        exists vm,
          In vm all_vms /\ vd_vm_id vm = va_vm_id a /\
          vms.list_vms env u w =
          (Return
             (mkVMListResponse
                [mkVMResponse (va_vm_id a) (vd_vm_name vm) (vd_status vm)
                   (vd_uptime vm) (Some (user_email u)) true]
                1),
           w1)) /\
       (~ In (va_vm_id a) (map vd_vm_id all_vms) ->
        vms.list_vms env u w =
        (Raise
           (HTTPException 500
              ("Failed to fetch VMs: 404: Assigned VM " ++
               str_int (va_vm_id a) ++ " not found in Proxmox")%string),
         w1))).
Proof.
  intros Hadm ND.
  destruct (get_all_vms_run env None w) as (all_vms & Hrun & Hids & _).
  cbn [dict_get] in Hrun, Hids.
  eexists all_vms, _. split; [exact Hrun|]. split; [exact Hids|].
  set (own := fun a : VMAssignment => (va_user_id a =? user_id u)%string).
  assert (Hown : forall y, own y = true -> va_user_id y = user_id u).
  { intros y Hy. now apply String.eqb_eq. }
  split.
  - intros Hnone. unfold vms.list_vms.
    apply try_except_return.
    rewrite (bind_return _ _ _ _ _ Hrun). rewrite Hadm.
    unfold bind at 1, session.execute. cbn [db]. fold own.
    rewrite filter_none; [reflexivity|].
    intros a Ha. apply String.eqb_neq. now apply Hnone.
  - intros a Ha Hu.
    assert (Hrows : filter own (vm_assignments (db w)) = [a]).
    { apply (filter_unique va_user_id own (user_id u)); try assumption.
      now apply String.eqb_eq. }
    destruct (find_by_id (va_vm_id a) all_vms) as [Hfound Hmissing].
    split.
    + intros Hin. destruct (Hfound Hin) as (vm & Hfind & Hvm & Hk).
      exists vm. split; [assumption|]. split; [assumption|].
      unfold vms.list_vms. apply try_except_return.
      rewrite (bind_return _ _ _ _ _ Hrun). rewrite Hadm.
      unfold bind at 1, session.execute. cbn [db]. fold own.
      rewrite Hrows. cbn [session.scalar_one_or_none bind ret].
      rewrite Hfind, Hk. reflexivity.
    + intros Hno. specialize (Hmissing Hno).
      unfold vms.list_vms.
      erewrite try_except_raise with
        (e := HTTPException HTTP_404_NOT_FOUND
                ("Assigned VM " ++ str_int (va_vm_id a) ++
                 " not found in Proxmox")%string);
        [reflexivity|].
      rewrite (bind_return _ _ _ _ _ Hrun). rewrite Hadm.
      unfold bind at 1, session.execute. cbn [db]. fold own.
      rewrite Hrows. cbn [session.scalar_one_or_none bind ret].
      rewrite Hmissing. reflexivity.
Qed.

End ListingFacts.

(** ** Assignment creation *)
Section AssignmentFacts.

Variable env : Env.

Lemma execute_run {A} (table : Db -> list A) (p : A -> bool) (w : World) :
  session.execute table p w = (Return (filter p (table (db w))), w).
Proof. reflexivity. Qed.

Lemma filter_nil_existsb {A} (p : A -> bool) (l : list A) :
  filter p l = [] -> existsb p l = false.
Proof.
  induction l as [|a l IH]; cbn; [reflexivity|].
  destruct (p a); [discriminate|]. exact IH.
Qed.

(** [assign_vm_to_user] in closed form on a database that satisfies its
    constraints: the three checks in their order, then the insert. *)
Lemma assign_vm_to_user_run (uid : string) (vm_id : Z) (w : World) :
  db_ok (db w) -> pending w = [] ->
  admin.assign_vm_to_user env uid vm_id w =
  match filter (fun u => user_id u =? uid)%string (users (db w)) with
  | [] => (Raise (HTTPException 404 "User not found"), w)
  | user :: _ =>
      match
        filter (fun a => va_user_id a =? uid)%string (vm_assignments (db w))
      with
      | existing :: _ =>
          (Raise
             (HTTPException 400
                ("User already has VM " ++ str_int (va_vm_id existing) ++
                 " assigned")%string), w)
      | [] =>
          let w1 := proxmox.log_call (StatusCurrentGet vm_id) w in
          match hv_status_current env (hv_log w) vm_id with
          | inl msg =>
              (Raise
                 (HTTPException 404
                    ("VM " ++ str_int vm_id ++
                     " not found in Proxmox: Failed to get VM status: " ++
                     msg)%string), w1)
          | inr cfg =>
              match hd None (commit_faults w) with
              | Some msg =>
                  (Raise (OperationalError msg),
                   mkWorld (db w) [InactiveTransaction msg] (hv_log w1)
                     (tl (commit_faults w)))
              | None =>
                  let row := new_assignment w uid vm_id cfg in
                  (Return
                     (mkVMAssignmentResponse (va_id row) uid vm_id
                        (va_vm_name row) (va_created_at row)
                        (user_response user)),
                   mkWorld (with_assignment (db w) row) [] (hv_log w1)
                     (tl (commit_faults w)))
              end
          end
      end
  end.
Proof.
  intros Hok Hp. unfold admin.assign_vm_to_user.
  rewrite (bind_return _ _ _ _ _ (execute_run _ _ w)).
  destruct (filter_unique_cases user_id (fun u => user_id u =? uid)%string
              uid (users (db w)) (users_pkey _ Hok))
    as [E|(user & Hin & Hid & E)];
    [intros y Hy; now apply String.eqb_eq| |]; rewrite E.
  { now rewrite (bind_return _ _ _ _ _ (scalar_one_or_none_nil w)). }
  rewrite (bind_return _ _ _ _ _ (scalar_one_or_none_one user w)).
  rewrite (bind_return _ _ _ _ _ (execute_run _ _ w)).
  destruct (filter_unique_cases va_user_id
              (fun a => va_user_id a =? uid)%string uid
              (vm_assignments (db w)) (unique_user_vm_assignment _ Hok))
    as [Ea|(existing & Hina & Hida & Ea)];
    [intros y Hy; now apply String.eqb_eq| |]; rewrite Ea.
  2:{ now rewrite (bind_return _ _ _ _ _ (scalar_one_or_none_one existing w)). }
  rewrite (bind_return _ _ _ _ _ (scalar_one_or_none_nil w)).
  set (w1 := proxmox.log_call (StatusCurrentGet vm_id) w).
  destruct (hv_status_current env (hv_log w) vm_id) as [msg|cfg] eqn:Ehv.
  { apply bind_raise.
    erewrite try_except_raise with
      (e := Exception ("Failed to get VM status: " ++ msg)%string);
      [reflexivity|].
    apply bind_raise. rewrite get_vm_status_run, Ehv. reflexivity. }
  erewrite bind_return;
    [|apply try_except_return; erewrite bind_return;
      [reflexivity|rewrite get_vm_status_run, Ehv; reflexivity]].
  fold w1.
  rewrite (bind_return _ _ _ _ _ (add_run _ w1)).
  erewrite bind_return; [|reflexivity].
  cbn [db pending hv_log commit_faults proxmox.log_call w1].
  assert (Hu : session.has_user (db w) uid = true).
  { apply has_user_spec. exists user. split; [assumption|].
    now apply String.eqb_eq. }
  unfold bind at 1. unfold session.commit at 1.
  cbn [db pending hv_log commit_faults].
  rewrite Hp. cbn [app session.inactive].
  destruct (hd None (commit_faults w)) as [msg|]; [reflexivity|].
  cbn [session.flush session.flush_op].
  rewrite Hu, (filter_nil_existsb _ _ Ea). cbn [negb].
  fold (new_assignment w uid vm_id cfg).
  fold (with_assignment (db w) (new_assignment w uid vm_id cfg)).
  erewrite bind_return with (a := new_assignment w uid vm_id cfg);
    [reflexivity|].
  unfold session.refresh.
  rewrite (bind_return _ _ _ _ _ (execute_run _ _ _)).
  cbn [db vm_assignments with_assignment].
  rewrite (filter_unique va_id _ (vm_assignments_seq (db w)) _
             (new_assignment w uid vm_id cfg)).
  - reflexivity.
  - apply NoDup_map_snoc; [apply (vm_assignments_pkey _ Hok)|].
    intros y Hy. pose proof (vm_assignments_below_seq _ Hok) as Hb.
    rewrite Forall_forall in Hb. specialize (Hb y Hy). cbn. lia.
  - intros y Hy. now apply Z.eqb_eq.
  - apply in_or_app. right. now left.
  - cbn. apply Z.eqb_refl.
Qed.

(** C5.  [assign_vm_to_user] on a database that satisfies its constraints.
    It fails with 404 "User not found" when [uid] has no [User] row; with the
    error "User already has VM n assigned" (sent as 400 Bad Request) when the
    user already has an assignment row; with 404 "VM n not found in Proxmox"
    when the user exists, has no row, and the hypervisor's status query for
    the VM raises.  Otherwise, when the commit goes through, it appends one
    row holding the user, the VM id and the VM's name as the hypervisor just
    reported it.  A run that ends in an exception leaves the database as it
    was, and after every run the constraints still hold, so no user ever has
    two rows. *)
Theorem assign_vm_to_user_outcomes (uid : string) (vm_id : Z) (w : World) :
  db_ok (db w) -> pending w = [] ->
  let run := admin.assign_vm_to_user env uid vm_id w in
  (session.has_user (db w) uid = false ->
   run = (Raise (HTTPException 404 "User not found"), w)) /\
  (forall a,
     In a (vm_assignments (db w)) -> va_user_id a = uid ->
     run =
     (Raise
        (HTTPException 400
           ("User already has VM " ++ str_int (va_vm_id a) ++ " assigned")
           %string), w)) /\
  (session.has_user (db w) uid = true ->
   (forall a, In a (vm_assignments (db w)) -> va_user_id a <> uid) ->
   (forall msg,
      hv_status_current env (hv_log w) vm_id = inl msg ->
      fst run =
      Raise
        (HTTPException 404
           ("VM " ++ str_int vm_id ++
            " not found in Proxmox: Failed to get VM status: " ++ msg)
           %string)) /\
   (forall cfg,
      hv_status_current env (hv_log w) vm_id = inr cfg ->
      hd None (commit_faults w) = None ->
      exists resp,
        fst run = Return resp /\
        vs_user_id resp = uid /\ vs_vm_id resp = vm_id /\
        vs_vm_name resp =
          Some (dict_get (cfg_name cfg) ("VM-" ++ str_int vm_id)%string) /\
        db (snd run) =
          with_assignment (db w) (new_assignment w uid vm_id cfg))) /\
  (forall e, fst run = Raise e -> db (snd run) = db w) /\
  db_ok (db (snd run)) /\
  NoDup (map va_user_id (vm_assignments (db (snd run)))).
Proof.
  intros Hok Hp run.
  assert (Hrun := assign_vm_to_user_run uid vm_id w Hok Hp). fold run in Hrun.
  assert (Hkeyu : forall y : User,
            (user_id y =? uid)%string = true -> user_id y = uid)
    by (intros y Hy; now apply String.eqb_eq).
  assert (Hkeya : forall y : VMAssignment,
            (va_user_id y =? uid)%string = true -> va_user_id y = uid)
    by (intros y Hy; now apply String.eqb_eq).
  destruct (filter_unique_cases user_id _ uid (users (db w))
              (users_pkey _ Hok) Hkeyu) as [E|(user & Hin & Hid & E)];
    rewrite E in Hrun.
  { (* no such user *)
    assert (Hu : session.has_user (db w) uid = false)
      by (apply (filter_nil_existsb _ _ E)).
    rewrite Hrun. cbn [fst snd].
    split; [reflexivity|]. split.
    { intros a Ha Hua. exfalso.
      pose proof (vm_assignments_user_fkey _ Hok) as Hfk.
      rewrite Forall_forall in Hfk. specialize (Hfk a Ha).
      rewrite Hua in Hfk. congruence. }
    split; [intros Hu'; congruence|].
    split; [reflexivity|].
    split; [exact Hok|apply (unique_user_vm_assignment _ Hok)]. }
  assert (Hu : session.has_user (db w) uid = true).
  { apply has_user_spec. exists user. split; [assumption|now apply Hkeyu]. }
  destruct (filter_unique_cases va_user_id _ uid (vm_assignments (db w))
              (unique_user_vm_assignment _ Hok) Hkeya)
    as [Ea|(existing & Hina & Hida & Ea)]; rewrite Ea in Hrun.
  2:{ (* the user already has a row *)
    rewrite Hrun. cbn [fst snd].
    split; [intros Hu'; congruence|]. split.
    { intros a Ha Hua.
      assert (Eq : [existing] = [a]).
      { rewrite <- Ea.
        apply (filter_unique va_user_id _ uid); try assumption.
        - apply (unique_user_vm_assignment _ Hok).
        - now apply String.eqb_eq. }
      injection Eq as ->. reflexivity. }
    split.
    { intros _ Hnone. exfalso. apply (Hnone existing Hina). now apply Hkeya. }
    split; [reflexivity|].
    split; [exact Hok|apply (unique_user_vm_assignment _ Hok)]. }
  (* the user exists and has no row *)
  assert (Hnorow : forall a, In a (vm_assignments (db w)) ->
            va_user_id a = uid -> False).
  { intros a Ha Hua.
    assert (Hin' : In a (filter (fun a => va_user_id a =? uid)%string
                           (vm_assignments (db w)))).
    { apply filter_In. split; [assumption|now apply String.eqb_eq]. }
    rewrite Ea in Hin'. contradiction. }
  split; [intros Hu'; congruence|].
  split; [intros a Ha Hua; exfalso; now apply (Hnorow a)|].
  cbv zeta in Hrun.
  destruct (hv_status_current env (hv_log w) vm_id) as [msg|cfg] eqn:Ehv.
  { rewrite Hrun. cbn [fst snd proxmox.log_call db].
    split.
    { intros _ _. split; [|intros cfg Hc; discriminate].
      intros msg' Hm. injection Hm as <-. reflexivity. }
    split; [reflexivity|].
    split; [exact Hok|apply (unique_user_vm_assignment _ Hok)]. }
  destruct (hd None (commit_faults w)) as [msg|] eqn:Hf.
  { rewrite Hrun. cbn [fst snd db].
    split.
    { intros _ _. split; [intros msg' Hm; discriminate|].
      intros cfg' _ Hn. discriminate. }
    split; [reflexivity|].
    split; [exact Hok|apply (unique_user_vm_assignment _ Hok)]. }
  assert (Hok' : db_ok (with_assignment (db w)
                          (new_assignment w uid vm_id cfg))).
  { apply (flush_op_db_ok (db w) _
             (AddVMAssignment uid vm_id
                (Some (vd_vm_name (proxmox.status_dict vm_id cfg))))
             Hok).
    cbn [session.flush_op]. rewrite Hu, (filter_nil_existsb _ _ Ea).
    reflexivity. }
  rewrite Hrun. cbn [fst snd db].
  split.
  { intros _ _. split; [intros msg' Hm; discriminate|].
    intros cfg' Hc _. injection Hc as <-.
    eexists. split; [reflexivity|]. repeat split. }
  split; [intros e He; discriminate|].
  split; [exact Hok'|apply (unique_user_vm_assignment _ Hok')].
Qed.

End AssignmentFacts.

(** ** Deleting a user *)
Section DeletionFacts.

Lemma delete_user_run (uid : string) (w : World) (user : User) :
  NoDup (map user_id (users (db w))) -> pending w = [] ->
  In user (users (db w)) -> user_id user = uid ->
  admin.delete_user uid w =
  match hd None (commit_faults w) with
  | Some msg =>
      (Raise (OperationalError msg),
       mkWorld (db w) [InactiveTransaction msg] (hv_log w)
         (tl (commit_faults w)))
  | None =>
      (Return ("User " ++ user_email user ++ " deleted successfully")%string,
       mkWorld (without_user (db w) uid) [] (hv_log w)
         (tl (commit_faults w)))
  end.
Proof.
  intros ND Hp Hin Hid. unfold admin.delete_user.
  rewrite (bind_return _ _ _ _ _ (execute_run _ _ w)).
  rewrite (filter_unique user_id _ uid (users (db w)) user ND);
    [|intros y Hy; now apply String.eqb_eq|assumption
     |now apply String.eqb_eq].
  rewrite (bind_return _ _ _ _ _ (scalar_one_or_none_one user w)).
  unfold session.delete.
  rewrite (bind_return _ _ _ _ _ (add_run _ w)).
  unfold bind, session.commit. cbn [db pending hv_log commit_faults].
  rewrite Hp. cbn [app session.inactive].
  destruct (hd None (commit_faults w)); [reflexivity|].
  rewrite Hid. reflexivity.
Qed.

(** C6.  [DELETE /admin/users/{id}] on an existing user, when the commit
    goes through: the user's row is gone; every assignment row of that user
    is gone with it and the other rows stay, so the lookup of the user's
    assignment finds none; the audit table keeps every row, in order, each
    with all its fields as before, [user_email] among them, except that
    [user_id] is now null on the rows that referenced the deleted user. *)
Theorem delete_user_cascades (uid : string) (w : World) :
  NoDup (map user_id (users (db w))) -> pending w = [] ->
  session.has_user (db w) uid = true ->
  hd None (commit_faults w) = None ->
  let run := admin.delete_user uid w in
  let d' := db (snd run) in
  (exists msg, fst run = Return msg) /\
  session.has_user d' uid = false /\
  (forall a,
     In a (vm_assignments d') <->
     In a (vm_assignments (db w)) /\ va_user_id a <> uid) /\
  (rows <- session.execute vm_assignments
             (fun a => va_user_id a =? uid)%string ;;
   session.scalar_one_or_none rows) (snd run) = (Return None, snd run) /\
  length (audit_logs d') = length (audit_logs (db w)) /\
  forall i l,
    nth_error (audit_logs (db w)) i = Some l ->
    exists l',
      nth_error (audit_logs d') i = Some l' /\
      al_id l' = al_id l /\ al_user_email l' = al_user_email l /\
      al_action l' = al_action l /\ al_vm_id l' = al_vm_id l /\
      al_vm_name l' = al_vm_name l /\ al_success l' = al_success l /\
      al_error_message l' = al_error_message l /\
      al_ip_address l' = al_ip_address l /\
      al_timestamp l' = al_timestamp l /\
      (al_user_id l = Some uid -> al_user_id l' = None) /\
      (al_user_id l <> Some uid -> l' = l).
Proof.
  intros ND Hp Hu Hf run d'.
  apply has_user_spec in Hu. destruct Hu as (user & Hin & Hid).
  assert (Hrun := delete_user_run uid w user ND Hp Hin Hid).
  rewrite Hf in Hrun. fold run in Hrun.
  assert (Hd' : d' = without_user (db w) uid)
    by (unfold d'; now rewrite Hrun).
  assert (Hgone : forall a,
            In a (vm_assignments d') <->
            In a (vm_assignments (db w)) /\ va_user_id a <> uid).
  { intros a. rewrite Hd'. cbn [without_user vm_assignments].
    rewrite filter_In, negb_true_iff, String.eqb_neq. tauto. }
  split; [rewrite Hrun; cbn [fst]; eauto|].
  split; [|split; [exact Hgone|split]].
  - rewrite Hd'. unfold session.has_user. cbn [without_user users].
    apply filter_nil_existsb_false.
    intros u Hu'. apply filter_In in Hu'. destruct Hu' as [_ Hne].
    apply negb_true_iff in Hne. exact Hne.
  - rewrite (bind_return _ _ _ _ _ (execute_run _ _ _)).
    fold d'. rewrite filter_none; [reflexivity|].
    intros a Ha. destruct (proj1 (Hgone a) Ha) as [_ Hne].
    now apply String.eqb_neq.
  - rewrite Hd'. cbn [without_user audit_logs]. split.
    + apply length_map.
    + intros i l Hl. exists (session.set_null uid l). split.
      * now apply map_nth_error.
      * apply set_null_spec.
Qed.

End DeletionFacts.

(** ** Login and bearer-token resolution *)
Section IdentityFacts.

Variable env : Env.

Lemma gotrue_login_run (email password : string) (w : World) :
  auth.login env email password w =
  match gotrue_token env email password with
  | TransportFailure _ =>
      (Raise (HTTPException 503 "Authentication service unavailable"), w)
  | Response code body =>
      if (code =? 200)%Z then (Return body, w)
      else (Raise (HTTPException 401 "Invalid credentials"), w)
  end.
Proof.
  unfold auth.login, try_except_class, bind, auth.post_token.
  destruct (gotrue_token env email password) as [code body|msg];
    [|reflexivity].
  cbn [ret fst snd]. destruct (code =? 200)%Z; reflexivity.
Qed.

Lemma truthy_some (s : string) : truthy (Some s) = true <-> s <> EmptyString.
Proof.
  cbn [truthy]. rewrite negb_true_iff. apply String.eqb_neq.
Qed.

(** An accepted login whose body lacks the user's id or email stops at the
    handler's guard. *)
Lemma login_guard (email password : string) (w : World)
    (body : AuthResponse) :
  gotrue_token env email password = Response 200 body ->
  truthy (body_user_id body) = false \/
  truthy (body_user_email body) = false ->
  routers_auth.login env email password w =
  (Raise (HTTPException 500 "Invalid authentication response"), w).
Proof.
  intros Hg Hbad.
  assert (Hl : auth.login env email password w = (Return body, w))
    by (rewrite gotrue_login_run, Hg; reflexivity).
  unfold routers_auth.login. rewrite (bind_return _ _ _ _ _ Hl).
  fold (body_user_id body) (body_user_email body).
  destruct Hbad as [-> | ->]; [reflexivity|].
  now rewrite orb_true_r.
Qed.

(** An accepted login with id and email present: fetch the local row, or
    insert one with [is_admin = false] and read it back. *)
Lemma login_accepted_run (email password : string) (w : World)
    (body : AuthResponse) (uid uemail : string) :
  pending w = [] ->
  NoDup (map user_id (users (db w))) ->
  gotrue_token env email password = Response 200 body ->
  ar_user body = Some (Some uid, Some uemail) ->
  uid <> EmptyString -> uemail <> EmptyString ->
  let respond (u : User) (w' : World) :=
    match ar_access_token body with
    | Some tok =>
        (Return
           (mkTokenResponse tok "bearer"
              (dict_get (ar_expires_in body) 3600) (user_response u)), w')
    | None => (Raise (KeyError "access_token"), w')
    end in
  routers_auth.login env email password w =
  match filter (fun u => user_id u =? uid)%string (users (db w)) with
  | u :: _ => respond u w
  | [] =>
      let failed (e : Exn) :=
        (Raise e,
         mkWorld (db w) [InactiveTransaction (str_exn e)] (hv_log w)
           (tl (commit_faults w))) in
      match hd None (commit_faults w) with
      | Some msg => failed (OperationalError msg)
      | None =>
          if existsb (fun u => user_email u =? uemail)%string (users (db w))
          then
            failed
              (IntegrityError
                 "duplicate key value violates unique constraint ix_users_email")
          else
            respond (mkUser uid uemail false (db_now (db w)))
              (with_user w uid uemail)
      end
  end.
Proof.
  intros Hp ND Hg Hbody Hid Hem respond.
  assert (Hl : auth.login env email password w = (Return body, w))
    by (rewrite gotrue_login_run, Hg; reflexivity).
  unfold routers_auth.login. rewrite (bind_return _ _ _ _ _ Hl).
  rewrite Hbody. cbn [fst snd dict_get].
  rewrite (proj2 (truthy_some uid) Hid), (proj2 (truthy_some uemail) Hem).
  cbn [negb orb].
  rewrite (bind_return _ _ _ _ _ (execute_run _ _ w)).
  destruct (filter_unique_cases user_id (fun u => user_id u =? uid)%string
              uid (users (db w)) ND)
    as [E|(u & Hin & Hu & E)];
    [intros y Hy; now apply String.eqb_eq| |]; rewrite E.
  2:{ rewrite (bind_return _ _ _ _ _ (scalar_one_or_none_one u w)).
      erewrite bind_return; [|reflexivity].
      unfold respond, routers_auth.subscript.
      destruct (ar_access_token body); reflexivity. }
  rewrite (bind_return _ _ _ _ _ (scalar_one_or_none_nil w)).
  cbv zeta.
  destruct (hd None (commit_faults w)) as [msg|] eqn:Hf.
  { apply bind_raise. rewrite (bind_return _ _ _ _ _ (add_run _ w)).
    apply bind_raise. unfold session.commit.
    cbn [db pending hv_log commit_faults]. rewrite Hf, Hp.
    reflexivity. }
  assert (Hnew : session.has_user (db w) uid = false)
    by (apply (filter_nil_existsb _ _ E)).
  destruct (existsb (fun u => user_email u =? uemail)%string (users (db w)))
    eqn:Hmail.
  { apply bind_raise. rewrite (bind_return _ _ _ _ _ (add_run _ w)).
    apply bind_raise. unfold session.commit.
    cbn [db pending hv_log commit_faults]. rewrite Hf, Hp.
    cbn [app session.inactive session.flush session.flush_op].
    now rewrite Hnew, Hmail. }
  erewrite bind_return with
    (a := mkUser uid uemail false (db_now (db w)))
    (w' := with_user w uid uemail).
  - unfold respond, routers_auth.subscript.
    destruct (ar_access_token body); reflexivity.
  - rewrite (bind_return _ _ _ _ _ (add_run _ w)).
    erewrite bind_return with (w' := with_user w uid uemail).
    + unfold session.refresh.
      rewrite (bind_return _ _ _ _ _ (execute_run _ _ _)).
      cbn [with_user db session.set_users users].
      rewrite filter_app, E. cbn [filter app user_id].
      now rewrite String.eqb_refl.
    + unfold session.commit. cbn [db pending hv_log commit_faults].
      rewrite Hf, Hp.
      cbn [app session.inactive session.flush session.flush_op].
      now rewrite Hnew, Hmail.
Qed.

(** Bearer-token resolution reads the database and writes nothing. *)
Lemma get_current_user_world (tok : string) (w : World) :
  snd (auth.get_current_user env tok w) = w.
Proof.
  unfold auth.get_current_user, auth.verify_token, bind.
  destruct (jwt_decode env tok) as [sub mail| |]; try reflexivity.
  cbn [ret raise fst snd].
  destruct (negb (truthy sub) || negb (truthy mail)); [reflexivity|].
  unfold session.execute.
  destruct (filter _ (users (db w))) as [|u [|u' rest]]; reflexivity.
Qed.

(** C8, as the code has it.  [login] answers 503 when the provider cannot be
    reached and 401 when it rejects the credentials.  When the provider
    accepts with a body that names the user's id and email and carries an
    access token, [login] returns that token together with the local user
    keyed by that id: the existing row, untouched, or, when there is none
    (and the insert commits: no other row has the email), a new row with
    [is_admin = false].  An acceptance whose body lacks the id or the email
    is answered 500.  Conversely [login] returns only on an acceptance, with
    the provider's token and the local user of the provider's id.
    Bearer-token resolution never writes: a valid token whose subject has no
    local row is answered with an error (404) and creates nothing. *)
Theorem login_fetches_or_creates (email password : string) (w : World) :
  pending w = [] ->
  NoDup (map user_id (users (db w))) ->
  let run := routers_auth.login env email password w in
  (forall msg,
     gotrue_token env email password = TransportFailure msg ->
     run =
     (Raise (HTTPException 503 "Authentication service unavailable"), w)) /\
  (forall code body,
     gotrue_token env email password = Response code body ->
     code <> 200%Z ->
     run = (Raise (HTTPException 401 "Invalid credentials"), w)) /\
  (forall body,
     gotrue_token env email password = Response 200 body ->
     truthy (body_user_id body) = false \/
     truthy (body_user_email body) = false ->
     run =
     (Raise (HTTPException 500 "Invalid authentication response"), w)) /\
  (forall body uid uemail tok,
     gotrue_token env email password = Response 200 body ->
     ar_user body = Some (Some uid, Some uemail) ->
     uid <> EmptyString -> uemail <> EmptyString ->
     ar_access_token body = Some tok ->
     let answer u :=
       mkTokenResponse tok "bearer" (dict_get (ar_expires_in body) 3600)
         (user_response u) in
     (forall u,
        In u (users (db w)) -> user_id u = uid ->
        run = (Return (answer u), w)) /\
     (session.has_user (db w) uid = false ->
      (forall u, In u (users (db w)) -> user_email u <> uemail) ->
      hd None (commit_faults w) = None ->
      run =
      (Return (answer (mkUser uid uemail false (db_now (db w)))),
       with_user w uid uemail))) /\
  (forall resp,
     fst run = Return resp ->
     exists body,
       gotrue_token env email password = Response 200 body /\
       ar_access_token body = Some (tr_access_token resp) /\
       body_user_id body = Some (ur_id (tr_user resp)) /\
       session.has_user (db (snd run)) (ur_id (tr_user resp)) = true) /\
  (forall tok,
     snd (auth.get_current_user env tok w) = w /\
     forall sub mail,
       jwt_decode env tok = Payload (Some sub) (Some mail) ->
       sub <> EmptyString -> mail <> EmptyString ->
       session.has_user (db w) sub = false ->
       auth.get_current_user env tok w =
       (Raise (HTTPException 404 "User not found in database"), w)).
Proof.
  intros Hp ND run.
  assert (H503 : forall msg,
            gotrue_token env email password = TransportFailure msg ->
            run = (Raise (HTTPException 503
                            "Authentication service unavailable"), w)).
  { intros msg Hg. unfold run, routers_auth.login.
    apply bind_raise. now rewrite gotrue_login_run, Hg. }
  assert (H401 : forall code body,
            gotrue_token env email password = Response code body ->
            code <> 200%Z ->
            run = (Raise (HTTPException 401 "Invalid credentials"), w)).
  { intros code body Hg Hc. unfold run, routers_auth.login.
    apply bind_raise. rewrite gotrue_login_run, Hg.
    apply Z.eqb_neq in Hc. now rewrite Hc. }
  split; [exact H503|]. split; [exact H401|].
  split; [intros body Hg Hbad; now apply (login_guard email password w body)|].
  split; [|split].
  - intros body uid uemail tok Hg Hbody Hid Hem Htok answer.
    pose proof (login_accepted_run email password w body uid uemail
                  Hp ND Hg Hbody Hid Hem) as Hrun.
    cbv zeta in Hrun. rewrite Htok in Hrun. fold run in Hrun. split.
    + intros u Hin Hu. rewrite Hrun.
      rewrite (filter_unique user_id _ uid (users (db w)) u ND);
        [reflexivity|intros y Hy; now apply String.eqb_eq|assumption
        |now apply String.eqb_eq].
    + intros Hnew Hfree Hf. rewrite Hrun.
      rewrite filter_none, Hf.
      * rewrite filter_nil_existsb_false; [reflexivity|].
        intros u Hu. apply String.eqb_neq. now apply Hfree.
      * intros u Hu. apply String.eqb_neq.
        now apply (has_user_false _ _ Hnew).
  - intros resp Hret. unfold run in *. clear run.
    destruct (gotrue_token env email password) as [code body|msg] eqn:Hg.
    2:{ rewrite (H503 msg eq_refl) in Hret. discriminate. }
    destruct (Z.eq_dec code 200) as [->|Hc].
    2:{ rewrite (H401 code body eq_refl Hc) in Hret. discriminate. }
    exists body. split; [reflexivity|].
    destruct (truthy (body_user_id body)) eqn:Tid.
    2:{ rewrite (login_guard email password w body Hg (or_introl Tid))
          in Hret. discriminate. }
    destruct (truthy (body_user_email body)) eqn:Tem.
    2:{ rewrite (login_guard email password w body Hg (or_intror Tem))
          in Hret. discriminate. }
    unfold body_user_id, body_user_email in Tid, Tem |- *.
    destruct (ar_user body) as [[[uid|] [uemail|]]|] eqn:Hbody;
      cbn [fst snd truthy] in Tid, Tem; try discriminate.
    apply truthy_some in Tid, Tem.
    pose proof (login_accepted_run email password w body uid uemail
                  Hp ND Hg Hbody Tid Tem) as Hrun.
    cbv zeta in Hrun. cbn [fst].
    destruct (filter_unique_cases user_id (fun u => user_id u =? uid)%string
                uid (users (db w)) ND)
      as [E|(u & Hin & Hu & E)];
      [intros y Hy; now apply String.eqb_eq| |]; rewrite E in Hrun.
    + destruct (hd None (commit_faults w));
        [rewrite Hrun in Hret; discriminate|].
      destruct (existsb _ (users (db w)));
        [rewrite Hrun in Hret; discriminate|].
      destruct (ar_access_token body) as [tok|];
        [|rewrite Hrun in Hret; discriminate].
      rewrite Hrun in Hret |- *. cbn [fst snd] in Hret |- *.
      injection Hret as <-.
      cbn [tr_access_token tr_user user_response ur_id user_id].
      repeat split. apply has_user_spec.
      exists (mkUser uid uemail false (db_now (db w))).
      split; [|reflexivity].
      cbn [with_user db session.set_users users].
      apply in_or_app. right. now left.
    + destruct (ar_access_token body) as [tok|];
        [|rewrite Hrun in Hret; discriminate].
      rewrite Hrun in Hret |- *. cbn [fst snd] in Hret |- *.
      injection Hret as <-. cbn [tr_access_token tr_user user_response ur_id].
      apply String.eqb_eq in Hu. rewrite Hu.
      repeat split. apply has_user_spec. now exists u.
  - intros tok. split; [apply get_current_user_world|].
    intros sub mail Hj Hs Hm Hnew.
    unfold auth.get_current_user, auth.verify_token. rewrite Hj.
    erewrite bind_return; [|reflexivity]. cbn [fst snd dict_get].
    rewrite (proj2 (truthy_some sub) Hs), (proj2 (truthy_some mail) Hm).
    cbn [negb orb].
    rewrite (bind_return _ _ _ _ _ (execute_run _ _ w)).
    rewrite filter_none; [reflexivity|].
    intros u Hu. apply String.eqb_neq. now apply (has_user_false _ _ Hnew).
Qed.

End IdentityFacts.

(** * Concrete runs on the lab installation *)

Lemma lab_store_ok : db_ok lab.store.
Proof.
  constructor; cbn;
    repeat match goal with
      | |- NoDup _ => constructor
      | |- Forall _ _ => constructor
      | |- ~ In _ _ => cbn; intuition discriminate
      end;
    reflexivity.
Qed.

Lemma lab_unique_assignment :
  NoDup (map va_user_id (vm_assignments (db lab.world))).
Proof. apply (unique_user_vm_assignment _ lab_store_ok). Qed.

Lemma lab_users_pkey : NoDup (map user_id (users (db lab.world))).
Proof. apply (users_pkey _ lab_store_ok). Qed.

(** Four ids, one of them unknown to the node: four entries, three from the
    hypervisor and one ["unknown"] with the error text. *)
Example get_all_vms_four_ids_one_failing :
  fst (proxmox.get_all_vms lab.env None lab.world) =
  Return
    [mkVmDict 106 "ws-alice" "running" (Some 3600) (Some 0) (Some 2048)
       (Some 8192) None;
     mkVmDict 103 "ws-bob" "stopped" (Some 0) (Some 0) (Some 0) (Some 8192)
       None;
     mkVmDict 101 "VM-101" "unknown" None None None None
       (Some
          "Failed to get VM status: 500 Internal Server Error: Configuration file does not exist");
     mkVmDict 102 "ws-carol" "paused" (Some 120) (Some 0) (Some 1024)
       (Some 4096) None].
Proof. reflexivity. Qed.


(** C1 fails on the code.  Bob, who is not an admin and has no assignment,
    asks for the status of VM 2147483648.  The path parameter is a Python
    [int], the column it is compared with an INTEGER: the permission query
    cannot be sent, and the request is answered 500, not 403. *)
Lemma unassigned_request_answered_500 :
  user_is_admin lab.bob = false /\
  ~ assigned (db lab.world) lab.bob 2147483648 /\
  vms.get_vm_status lab.env 2147483648 lab.bob lab.world =
    (Raise (session.out_of_int32 2147483648), lab.world) /\
  status_code
    (fst (vms.get_vm_status lab.env 2147483648 lab.bob lab.world)) = 500 /\
  ~ denied lab.world
      (vms.get_vm_status lab.env 2147483648 lab.bob lab.world).
Proof.
  split; [reflexivity|]. split.
  { intros (a & [<-|[]] & Hu & _). discriminate Hu. }
  split; [reflexivity|]. split; [reflexivity|].
  unfold denied. intros H. discriminate H.
Qed.

(** The admin starts the stopped VM 103: one audit row, carrying the
    adapter's [success = true]. *)
Lemma start_vm_writes_one_audit_row_witness :
  vms.check_permissions 103 lab.root lab.world = (Return tt, lab.world) /\
  pending lab.world = [] /\
  int4 103 = true /\
  session.has_user (db lab.world) (user_id lab.root) = true /\
  hd None (commit_faults lab.world) = None /\
  fst (vms.start_vm lab.env 103 (Some "10.0.0.9") lab.root lab.world) =
    Return
      (mkVMActionResponse true "VM start command sent successfully" 103
         "ws-bob" (Some "starting")) /\
  audit_logs
    (db (snd (vms.start_vm lab.env 103 (Some "10.0.0.9") lab.root
                lab.world))) =
    audit_logs lab.store ++
    [mkAuditLog 2 (Some "u-root") "root@lab.example" "start" 103
       (Some "ws-bob") true None (Some "10.0.0.9") 9].
Proof.
  do 5 (split; [reflexivity|]).
  pose proof (start_vm_writes_one_audit_row lab.env 103 (Some "10.0.0.9")
                lab.root lab.world eq_refl eq_refl eq_refl eq_refl eq_refl)
    as H.
  split.
  - exact (f_equal fst H).
  - exact (f_equal (fun r => audit_logs (db (snd r))) H).
Defined.

(** C2 fails on the code.  The admin starts the stopped VM 103 while the
    database drops the connection at the commit of the audit row.  The
    request passed the permission block, the adapter returned
    [success = true] and the start command reached the hypervisor.  The
    failed commit lands in the handler's [except] clause, whose own commit
    finds the session's transaction inactive: the request ends in an
    unhandled [PendingRollbackError], answered 500, and no audit row is
    written at all. *)
Lemma audit_failure_masks_start_outcome :
  vms.check_permissions 103 lab.root
    (request_world lab.store []
       [Some "server closed the connection unexpectedly"]) =
    (Return tt,
     request_world lab.store []
       [Some "server closed the connection unexpectedly"]) /\
  proxmox.start_vm lab.env 103
    (request_world lab.store []
       [Some "server closed the connection unexpectedly"]) =
    (Return
       (mkActionResult true "VM start command sent successfully" 103
          "ws-bob" "starting"),
     mkWorld lab.store [] [StatusCurrentGet 103; StatusPost start 103]
       [Some "server closed the connection unexpectedly"]) /\
  fst (vms.start_vm lab.env 103 (Some "10.0.0.9") lab.root
         (request_world lab.store []
            [Some "server closed the connection unexpectedly"])) =
    Raise
      (PendingRollbackError "server closed the connection unexpectedly") /\
  status_code
    (fst (vms.start_vm lab.env 103 (Some "10.0.0.9") lab.root
            (request_world lab.store []
               [Some "server closed the connection unexpectedly"]))) =
    500 /\
  hv_log
    (snd (vms.start_vm lab.env 103 (Some "10.0.0.9") lab.root
            (request_world lab.store []
               [Some "server closed the connection unexpectedly"]))) =
    [StatusCurrentGet 103; StatusPost start 103] /\
  audit_logs
    (db (snd (vms.start_vm lab.env 103 (Some "10.0.0.9") lab.root
                (request_world lab.store []
                   [Some "server closed the connection unexpectedly"])))) =
    audit_logs lab.store.
Proof. repeat split. Qed.

(** VM 103 is stopped: stopping it and shutting it down are no-ops, starting
    it sends the command. *)
Lemma noop_report_or_command_witness :
  hv_status_current lab.env (hv_log lab.world) 103 =
    inr (mkVmConfig (Some "ws-bob") (Some "stopped") (Some 0) (Some 0)
           (Some 0) (Some 8192)) /\
  proxmox.stop_vm lab.env 103 lab.world =
    (Return (mkActionResult false "VM is already stopped" 103 "ws-bob"
               "stopped"),
     proxmox.log_call (StatusCurrentGet 103) lab.world) /\
  proxmox.shutdown_vm lab.env 103 lab.world =
    (Return (mkActionResult false "VM is already stopped" 103 "ws-bob"
               "stopped"),
     proxmox.log_call (StatusCurrentGet 103) lab.world) /\
  proxmox.start_vm lab.env 103 lab.world =
    (Return (mkActionResult true "VM start command sent successfully" 103
               "ws-bob" "starting"),
     proxmox.log_call (StatusPost start 103)
       (proxmox.log_call (StatusCurrentGet 103) lab.world)).
Proof.
  split; [reflexivity|].
  destruct (noop_report_or_command lab.env 103 lab.world _ eq_refl)
    as (_ & Hstopped & Hstart & _).
  destruct (Hstopped eq_refl) as [Hstop Hshutdown].
  split; [exact Hstop|]. split; [exact Hshutdown|].
  assert (Hlive : dict_get (Some "stopped"%string) "unknown"%string
                  <> "running"%string) by (cbn; discriminate).
  exact (proj2 (Hstart Hlive) eq_refl).
Defined.

(** VM 102 is paused: a start is not a no-op, the command is sent. *)
Lemma noop_iff_exact_target_witness :
  hv_status_current lab.env (hv_log lab.world) 102 =
    inr (mkVmConfig (Some "ws-carol") (Some "paused") (Some 120) (Some 0)
           (Some 1024) (Some 4096)) /\
  In (StatusPost start 102)
    (hv_log (snd (adapter lab.env start 102 lab.world))) /\
  exists r,
    fst (adapter lab.env start 102 lab.world) = Return r /\
    res_success r = true /\ res_status r = "starting"%string.
Proof.
  split; [reflexivity|].
  destruct (noop_iff_exact_target lab.env start 102 lab.world _ eq_refl)
    as (_ & Hother & Hpaused).
  destruct (Hother (Hpaused (or_introl eq_refl))) as [Hsent Hres].
  split; [exact Hsent|exact (Hres eq_refl)].
Defined.

(** Alice lists her VMs and gets the one entry of VM 106. *)
Lemma list_vms_non_admin_witness :
  user_is_admin lab.alice = false /\
  NoDup (map va_user_id (vm_assignments (db lab.world))) /\
  exists vm w1,
    vms.list_vms lab.env lab.alice lab.world =
    (Return
       (mkVMListResponse
          [mkVMResponse 106 (vd_vm_name vm) (vd_status vm) (vd_uptime vm)
             (Some "alice@lab.example"%string) true]
          1),
     w1).
Proof.
  split; [reflexivity|]. split; [exact lab_unique_assignment|].
  destruct (list_vms_non_admin lab.env lab.alice lab.world eq_refl
              lab_unique_assignment)
    as (all_vms & w1 & _ & Hids & _ & Hrow).
  destruct (Hrow (mkVMAssignment 1 "u-alice" 106 (Some "ws-alice"%string) 4)
              (or_introl eq_refl) eq_refl) as [Hlisted _].
  assert (Hin : In 106%Z (map vd_vm_id all_vms))
    by (rewrite Hids; left; reflexivity).
  destruct (Hlisted Hin) as (vm & _ & _ & Hrun).
  exists vm, w1. exact Hrun.
Defined.

(** Bob, who has no VM, is assigned the stopped VM 103: the row snapshots
    the name the hypervisor reports. *)
Lemma assign_vm_to_user_outcomes_witness :
  db_ok (db lab.world) /\ pending lab.world = [] /\
  session.has_user (db lab.world) "u-bob" = true /\
  db (snd (admin.assign_vm_to_user lab.env "u-bob" 103 lab.world)) =
    with_assignment lab.store
      (mkVMAssignment 2 "u-bob" 103 (Some "ws-bob"%string) 9) /\
  db_ok (db (snd (admin.assign_vm_to_user lab.env "u-bob" 103 lab.world))).
Proof.
  split; [exact lab_store_ok|]. split; [reflexivity|].
  split; [reflexivity|].
  destruct (assign_vm_to_user_outcomes lab.env "u-bob" 103 lab.world
              lab_store_ok eq_refl)
    as (_ & _ & Hfree & _ & Hok & _).
  split; [|exact Hok].
  assert (Hnone : forall a, In a (vm_assignments (db lab.world)) ->
                            va_user_id a <> "u-bob"%string).
  { intros a [<-|[]]. discriminate. }
  destruct (Hfree eq_refl Hnone) as [_ Hinsert].
  destruct (Hinsert _ eq_refl eq_refl) as (resp & _ & _ & _ & _ & Hdb).
  exact Hdb.
Defined.

(** Alice is deleted: her assignment is gone, her audit row stays with a
    null [user_id] and her email. *)
Lemma delete_user_cascades_witness :
  NoDup (map user_id (users (db lab.world))) /\ pending lab.world = [] /\
  session.has_user (db lab.world) "u-alice" = true /\
  hd None (commit_faults lab.world) = None /\
  (rows <- session.execute vm_assignments
             (fun a => va_user_id a =? "u-alice")%string ;;
   session.scalar_one_or_none rows)%monad
    (snd (admin.delete_user "u-alice" lab.world)) =
    (Return None, snd (admin.delete_user "u-alice" lab.world)) /\
  exists l',
    nth_error
      (audit_logs (db (snd (admin.delete_user "u-alice" lab.world)))) 0 =
      Some l' /\
    al_user_id l' = None /\
    al_user_email l' = "alice@lab.example"%string.
Proof.
  split; [exact lab_users_pkey|]. do 3 (split; [reflexivity|]).
  destruct (delete_user_cascades "u-alice" lab.world lab_users_pkey eq_refl
              eq_refl eq_refl)
    as (_ & _ & _ & Hlookup & _ & Hrows).
  split; [exact Hlookup|].
  destruct (Hrows 0%nat _ eq_refl)
    as (l' & Hnth & _ & Hemail & _ & _ & _ & _ & _ & _ & _ & Hnull & _).
  exists l'. split; [exact Hnth|]. split; [exact (Hnull eq_refl)|].
  exact Hemail.
Defined.

(** Dave logs in for the first time and gets a local row that is not an
    admin's; his token then resolves, but before that login it did not. *)
Lemma login_fetches_or_creates_witness :
  pending lab.world = [] /\
  NoDup (map user_id (users (db lab.world))) /\
  routers_auth.login lab.env "dave@lab.example" "battery staple" lab.world =
    (Return
       (mkTokenResponse "jwt-dave" "bearer" 3600
          (mkUserResponse "u-dave" "dave@lab.example" false 9)),
     with_user lab.world "u-dave" "dave@lab.example") /\
  routers_auth.login lab.env "alice@lab.example" "correct horse" lab.world =
    (Return
       (mkTokenResponse "jwt-alice" "bearer" 1800 (user_response lab.alice)),
     lab.world) /\
  auth.get_current_user lab.env "jwt-dave" lab.world =
    (Raise (HTTPException 404 "User not found in database"), lab.world).
Proof.
  split; [reflexivity|]. split; [exact lab_users_pkey|].
  destruct (login_fetches_or_creates lab.env "dave@lab.example"
              "battery staple" lab.world eq_refl lab_users_pkey)
    as (_ & _ & _ & Hdave & _ & Hbearer).
  destruct (Hdave _ "u-dave"%string "dave@lab.example"%string
              "jwt-dave"%string eq_refl eq_refl)
    as [_ Hcreate]; [discriminate|discriminate|reflexivity|].
  assert (Hfree : forall u, In u (users (db lab.world)) ->
                            user_email u <> "dave@lab.example"%string).
  { intros u [<-|[<-|[<-|[]]]]; discriminate. }
  split; [exact (Hcreate eq_refl Hfree eq_refl)|].
  destruct (login_fetches_or_creates lab.env "alice@lab.example"
              "correct horse" lab.world eq_refl lab_users_pkey)
    as (_ & _ & _ & Halice & _).
  destruct (Halice _ "u-alice"%string "alice@lab.example"%string
              "jwt-alice"%string eq_refl eq_refl)
    as [Hfetch _]; [discriminate|discriminate|reflexivity|].
  split; [exact (Hfetch lab.alice (or_intror (or_introl eq_refl)) eq_refl)|].
  destruct (Hbearer "jwt-dave"%string) as [_ Hmissing].
  apply (Hmissing "u-dave"%string "dave@lab.example"%string eq_refl);
    [discriminate|discriminate|reflexivity].
Defined.

(** C8 fails on the code.  The provider accepts mallory's credentials (HTTP
    200 with a token) in a body that names no user, and [login] answers 500.
    It also accepts dave's while another local row already holds his email
    under an older id, and the insert of his new row is refused. *)
Lemma login_fails_on_accepted_credentials :
  gotrue_token lab.env "mallory@lab.example" "open sesame" =
    Response 200 (mkAuthResponse (Some "jwt-mallory"%string) (Some 1800) None)
  /\
  routers_auth.login lab.env "mallory@lab.example" "open sesame" lab.world =
    (Raise (HTTPException 500 "Invalid authentication response"), lab.world)
  /\
  gotrue_token lab.env "dave@lab.example" "battery staple" =
    Response 200
      (mkAuthResponse (Some "jwt-dave"%string) None
         (Some (Some "u-dave"%string, Some "dave@lab.example"%string)))
  /\
  fst (routers_auth.login lab.env "dave@lab.example" "battery staple"
         (request_world
            (mkDb [mkUser "u-dave-2019" "dave@lab.example" false 0] [] [] 1 1
               9)
            [] [])) =
    Raise
      (IntegrityError
         "duplicate key value violates unique constraint ix_users_email").
Proof. repeat split. Qed.


(** C9 fails on the code.  Bob, who is not an admin and has no assignment,
    asks to start VM 2147483648: the permission query cannot be sent, and
    the request is answered 500, not 403.  No hypervisor call is made and no
    audit row is written. *)
Lemma unassigned_start_answered_500 :
  user_is_admin lab.bob = false /\
  ~ assigned (db lab.world) lab.bob 2147483648 /\
  vms.start_vm lab.env 2147483648 (Some "10.0.0.8") lab.bob lab.world =
    (Raise (session.out_of_int32 2147483648), lab.world) /\
  status_code
    (fst (vms.start_vm lab.env 2147483648 (Some "10.0.0.8") lab.bob
            lab.world)) = 500 /\
  vms.start_vm lab.env 2147483648 (Some "10.0.0.8") lab.bob lab.world <>
    (Raise (HTTPException 403 "You don't have access to this VM"), lab.world).
Proof.
  split; [reflexivity|]. split.
  { intros (a & [<-|[]] & Hu & _). discriminate Hu. }
  split; [reflexivity|]. split; [reflexivity|].
  intros H. discriminate H.
Qed.

(** * Further properties of the code *)

(** ** The identity gateway *)
Section GatewayFacts.

Variable env : Env.

(** X1.  Resolution of a bearer token.  An expired or invalid token and a payload
    without subject or email are answered 401.  A payload with both resolves
    to the local row whose id is the subject, whatever email that row holds:
    the email claim must be present but is not compared with the row.  What
    is returned is always a row of [users] whose id is the subject. *)
Theorem get_current_user_outcomes (tok : string) (w : World) :
  NoDup (map user_id (users (db w))) ->
  let run := auth.get_current_user env tok w in
  (jwt_decode env tok = ExpiredSignatureError ->
   run = (Raise (HTTPException 401 "Token has expired"), w)) /\
  (jwt_decode env tok = InvalidTokenError ->
   run = (Raise (HTTPException 401 "Invalid token"), w)) /\
  (forall sub mail,
     jwt_decode env tok = Payload sub mail ->
     truthy sub = false \/ truthy mail = false ->
     run = (Raise (HTTPException 401 "Invalid token payload"), w)) /\
  (forall sub mail u,
     jwt_decode env tok = Payload (Some sub) (Some mail) ->
     sub <> EmptyString -> mail <> EmptyString ->
     In u (users (db w)) -> user_id u = sub ->
     run = (Return u, w)) /\
  (forall u,
     fst run = Return u ->
     In u (users (db w)) /\
     exists mail, jwt_decode env tok = Payload (Some (user_id u)) mail).
Proof.
  intros ND run. unfold run, auth.get_current_user, auth.verify_token.
  split; [intros ->; reflexivity|]. split; [intros ->; reflexivity|].
  split; [|split].
  - intros sub mail -> Hbad.
    erewrite bind_return; [|reflexivity]. cbn [fst snd].
    destruct Hbad as [-> | ->]; [reflexivity|]. now rewrite orb_true_r.
  - intros sub mail u -> Hs Hm Hin Hu.
    erewrite bind_return; [|reflexivity]. cbn [fst snd dict_get].
    rewrite (proj2 (truthy_some sub) Hs), (proj2 (truthy_some mail) Hm).
    cbn [negb orb].
    rewrite (bind_return _ _ _ _ _ (execute_run _ _ w)).
    rewrite (filter_unique user_id _ sub (users (db w)) u ND);
      [reflexivity|intros y Hy; now apply String.eqb_eq|assumption
      |now apply String.eqb_eq].
  - intros u.
    destruct (jwt_decode env tok) as [sub mail| |]; try discriminate.
    erewrite bind_return; [|reflexivity]. cbn [fst snd].
    destruct (truthy sub) eqn:Ts; [|discriminate].
    destruct (negb (truthy mail)); [discriminate|]. cbn [negb orb].
    destruct sub as [sub|]; [|discriminate]. cbn [dict_get].
    rewrite (bind_return _ _ _ _ _ (execute_run _ _ w)).
    destruct (filter_unique_cases user_id (fun u => user_id u =? sub)%string
                sub (users (db w)) ND)
      as [E|(x & Hin & Hx & E)];
      [intros y Hy; now apply String.eqb_eq| |]; rewrite E;
      [discriminate|].
    cbn. intros H. injection H as <-.
    apply String.eqb_eq in Hx. rewrite Hx. eauto.
Qed.

(** X2.  The admin gate.  It writes nothing; what it returns is an admin's row
    of [users]; a resolved user who is not an admin is answered 403, and a
    token that does not resolve is answered with the resolution's own
    error. *)
Theorem admin_gate (tok : string) (w : World) :
  let run := auth.get_current_admin_user env tok w in
  snd run = w /\
  (forall u,
     fst run = Return u ->
     user_is_admin u = true /\
     auth.get_current_user env tok w = (Return u, w)) /\
  (forall u,
     auth.get_current_user env tok w = (Return u, w) ->
     user_is_admin u = false ->
     run = (Raise (HTTPException 403 "Admin privileges required"), w)) /\
  (forall e,
     fst (auth.get_current_user env tok w) = Raise e -> run = (Raise e, w)).
Proof.
  intros run. unfold run, auth.get_current_admin_user, bind.
  pose proof (get_current_user_world env tok w) as Hw.
  destruct (auth.get_current_user env tok w) as [[u|e] w'];
    cbn [snd] in Hw; subst w'.
  - destruct (user_is_admin u) eqn:Hadm; cbn [negb fst snd ret raise].
    + split; [reflexivity|]. split.
      { intros u' H. injection H as <-. auto. }
      split; [|intros e H; discriminate].
      intros u' H. injection H as <-. congruence.
    + split; [reflexivity|]. split; [intros u' H; discriminate|].
      split; [reflexivity|intros e H; discriminate].
  - cbn [fst snd]. split; [reflexivity|].
    split; [intros u H; discriminate|].
    split; [intros u H; discriminate|].
    intros e' H. injection H as <-. reflexivity.
Qed.

End GatewayFacts.

(** Alice's token resolves to her row; Bob's row has another email than any
    token names, which would not matter. *)
Lemma get_current_user_outcomes_witness :
  NoDup (map user_id (users (db lab.world))) /\
  auth.get_current_user lab.env "jwt-alice" lab.world =
    (Return lab.alice, lab.world) /\
  auth.get_current_user lab.env "jwt-old" lab.world =
    (Raise (HTTPException 401 "Token has expired"), lab.world).
Proof.
  split; [exact lab_users_pkey|].
  destruct (get_current_user_outcomes lab.env "jwt-alice" lab.world
              lab_users_pkey) as (_ & _ & _ & Hok & _).
  split.
  - apply (Hok "u-alice"%string "alice@lab.example"%string lab.alice
             eq_refl); [discriminate|discriminate| |reflexivity].
    right. left. reflexivity.
  - destruct (get_current_user_outcomes lab.env "jwt-old" lab.world
                lab_users_pkey) as (Hold & _).
    exact (Hold eq_refl).
Defined.

(** ** Failure paths of the adapter and of the VM routes *)
Section FailureFacts.

Variable env : Env.

(** X3.  How a control action fails.  When the status read raises, the action
    raises with both prefixes and sends no command.  When the VM is not in
    the target state and the hypervisor refuses the command, the action
    raises with the hypervisor's message after that single command.  In no
    case does the adapter touch the database, the session or anything but the
    hypervisor. *)
Theorem adapter_failures (a : Action) (vm_id : Z) (w : World) :
  let w1 := proxmox.log_call (StatusCurrentGet vm_id) w in
  (forall msg,
     hv_status_current env (hv_log w) vm_id = inl msg ->
     adapter env a vm_id w =
     (Raise
        (Exception
           (failure_prefix a ++ "Failed to get VM status: " ++ msg)%string),
      w1)) /\
  (forall cfg msg,
     hv_status_current env (hv_log w) vm_id = inr cfg ->
     dict_get (cfg_status cfg) "unknown"%string <> target_state a ->
     hv_status_post env (hv_log w1) a vm_id = Some msg ->
     adapter env a vm_id w =
     (Raise (Exception (failure_prefix a ++ msg)%string),
      proxmox.log_call (StatusPost a vm_id) w1)) /\
  db (snd (adapter env a vm_id w)) = db w /\
  pending (snd (adapter env a vm_id w)) = pending w /\
  commit_faults (snd (adapter env a vm_id w)) = commit_faults w.
Proof.
  intros w1. split; [|split].
  - intros msg H. now apply adapter_run_unreachable.
  - intros cfg msg H Hne Hpost.
    rewrite (adapter_run env a vm_id w cfg H).
    cbn [proxmox.status_dict vd_status]. apply String.eqb_neq in Hne.
    rewrite Hne. fold w1. now rewrite Hpost.
  - apply adapter_frame.
Qed.

(** X4.  [GET /vms/{id}/status] past the permission block.  When the hypervisor
    answers, the response carries the adapter's name, status and uptime,
    and the caller's email as owner unless the caller is an admin.  When the
    status read raises, the answer is 500 with the adapter's prefix twice.
    Allowed or not, the route is read-only: the database is as before and
    the only hypervisor call it can make is the status read of this VM. *)
Theorem get_vm_status_route (vm_id : Z) (u : User) (w : World) :
  let run := vms.get_vm_status env vm_id u w in
  (vms.check_permissions vm_id u w = (Return tt, w) ->
   (forall cfg,
      hv_status_current env (hv_log w) vm_id = inr cfg ->
      run =
      (Return
         (mkVMResponse vm_id
            (dict_get (cfg_name cfg) ("VM-" ++ str_int vm_id)%string)
            (dict_get (cfg_status cfg) "unknown"%string)
            (Some (dict_get (cfg_uptime cfg) 0%Z))
            (if user_is_admin u then None else Some (user_email u)) true),
       proxmox.log_call (StatusCurrentGet vm_id) w)) /\
   (forall msg,
      hv_status_current env (hv_log w) vm_id = inl msg ->
      run =
      (Raise
         (HTTPException 500
            ("Failed to get VM status: Failed to get VM status: " ++ msg)
            %string),
       proxmox.log_call (StatusCurrentGet vm_id) w))) /\
  db (snd run) = db w /\
  (hv_log (snd run) = hv_log w \/
   hv_log (snd run) = hv_log w ++ [StatusCurrentGet vm_id]).
Proof.
  intros run. split.
  - intros Hc. unfold run, vms.get_vm_status.
    rewrite (bind_return _ _ _ _ _ Hc). split.
    + intros cfg H. apply try_except_return.
      erewrite bind_return; [|rewrite get_vm_status_run, H; reflexivity].
      unfold ret. cbn [proxmox.status_dict vd_vm_id vd_vm_name vd_status
                       vd_uptime].
      destruct (user_is_admin u); reflexivity.
    + intros msg H.
      erewrite try_except_raise with
        (e := Exception ("Failed to get VM status: " ++ msg)%string);
        [reflexivity|].
      apply bind_raise. rewrite get_vm_status_run, H. reflexivity.
  - pose proof (check_permissions_world vm_id u w) as Hw.
    unfold run, vms.get_vm_status.
    destruct (vms.check_permissions vm_id u w) as [[[]|e] w0] eqn:Hc;
      cbn [snd] in Hw; subst w0.
    + rewrite (bind_return _ _ _ _ _ Hc).
      unfold try_except, bind. rewrite get_vm_status_run.
      destruct (hv_status_current env (hv_log w) vm_id);
        (split; [reflexivity|now right]).
    + rewrite (bind_raise _ _ _ _ _ Hc). split; [reflexivity|now left].
Qed.

(** The commit of one pending audit row either raises, leaving the database
    as it was and the session inactive, or installs exactly that row and
    leaves the session empty. *)
Lemma commit_audit_cases (w1 : World) (d : Db) (uid : option string)
    (email action : string) (vm : Z) (name : option string) (ok : bool)
    (err ip0 : option string) :
  db w1 = d -> pending w1 = [] ->
  exists o w2,
    session.commit
      (mkWorld (db w1)
         (pending w1 ++ [AddAuditLog uid email action vm name ok err ip0])
         (hv_log w1) (commit_faults w1)) = (o, w2) /\
    ((exists e original,
        o = Raise e /\ db w2 = d /\
        session.inactive (pending w2) = Some original) \/
     o = Return tt /\ pending w2 = [] /\
     db w2 =
     mkDb (users d) (vm_assignments d)
       (audit_logs d ++
          [mkAuditLog (audit_logs_seq d) uid email action vm name ok err ip0
             (db_now d)])
       (vm_assignments_seq d) (audit_logs_seq d + 1) (db_now d)).
Proof.
  intros Hd Hpe. unfold session.commit.
  cbn [db pending hv_log commit_faults].
  rewrite Hpe, Hd.
  cbn [app session.inactive session.flush session.flush_op].
  destruct (hd None (commit_faults w1)).
  { eexists _, _. split; [reflexivity|left].
    eexists _, _. repeat split. }
  destruct (negb (int4 vm)).
  { eexists _, _. split; [reflexivity|left].
    eexists _, _. repeat split. }
  destruct (negb (session.fk_user d uid)).
  - eexists _, _. split; [reflexivity|left].
    eexists _, _. repeat split.
  - eexists _, _. split; [reflexivity|right]. repeat split.
Qed.

Lemma inactive_app (ops more : list SessionOp) (original : string) :
  session.inactive ops = Some original ->
  session.inactive (ops ++ more) = Some original.
Proof.
  induction ops as [|op ops IH]; cbn; [discriminate|].
  destruct op; auto.
Qed.

(** On an inactive session the [except] clause of [start_vm] changes
    nothing in the database: its commit raises. *)
Lemma start_vm_handler_inactive (vm_id : Z) (ip : option string) (u : User)
    (e : Exn) (w1 : World) (original : string) :
  session.inactive (pending w1) = Some original ->
  (session.add
     (AddAuditLog (Some (user_id u)) (user_email u) "start" vm_id
        (Some ("VM-" ++ str_int vm_id)%string) false
        (Some (str_exn e)) ip) ;;;
   session.commit ;;;
   raise (HTTPException HTTP_500_INTERNAL_SERVER_ERROR
            ("Failed to start VM: " ++ str_exn e)%string))%monad w1 =
  (Raise (PendingRollbackError original) : Outcome VMActionResponse,
   snd (session.add
          (AddAuditLog (Some (user_id u)) (user_email u) "start" vm_id
             (Some ("VM-" ++ str_int vm_id)%string) false
             (Some (str_exn e)) ip) w1)).
Proof.
  intros Hi.
  rewrite (bind_return _ _ _ _ _ (add_run _ w1)).
  apply bind_raise. apply commit_inactive.
  cbn [pending]. now apply inactive_app.
Qed.

Lemma start_vm_handler_cases (vm_id : Z) (ip : option string) (u : User)
    (d : Db) (e : Exn) (w1 : World) :
  db w1 = d -> pending w1 = [] ->
  at_most_one_start_row u vm_id ip d
    (db (snd
           ((session.add
               (AddAuditLog (Some (user_id u)) (user_email u) "start" vm_id
                  (Some ("VM-" ++ str_int vm_id)%string) false
                  (Some (str_exn e)) ip) ;;;
             session.commit ;;;
             raise (HTTPException HTTP_500_INTERNAL_SERVER_ERROR
                      ("Failed to start VM: " ++ str_exn e)%string))%monad
              w1 : Outcome VMActionResponse * World))).
Proof.
  intros Hd Hp.
  rewrite (bind_return _ _ _ _ _ (add_run _ w1)).
  destruct (commit_audit_cases w1 d (Some (user_id u)) (user_email u)
              "start"%string vm_id (Some ("VM-" ++ str_int vm_id)%string)
              false (Some (str_exn e)) ip Hd Hp)
    as (o & w2 & Hc & [(e2 & original & -> & Hd2 & _)|(-> & _ & Hd2)]).
  - rewrite (bind_raise _ _ _ _ _ Hc). cbn [snd]. rewrite Hd2.
    repeat split. now left.
  - rewrite (bind_return _ _ _ _ _ Hc). cbn [snd raise]. rewrite Hd2.
    repeat split. right. eexists. split; [reflexivity|]. repeat split.
Qed.

(** X5.  Whatever the hypervisor and the database do, [start_vm] writes at most
    one audit row, and only that: the users and the assignments are as
    before, the earlier audit rows are as before, and the new row, if any,
    names the caller, the action ["start"] and this VM. *)
Theorem start_vm_writes_at_most_one_row (vm_id : Z) (ip : option string)
    (u : User) (w : World) :
  pending w = [] ->
  at_most_one_start_row u vm_id ip (db w)
    (db (snd (vms.start_vm env vm_id ip u w))).
Proof.
  intros Hp. unfold vms.start_vm.
  pose proof (check_permissions_world vm_id u w) as Hw.
  destruct (vms.check_permissions vm_id u w) as [[[]|e] w0] eqn:Hc;
    cbn [snd] in Hw; subst w0.
  2:{ rewrite (bind_raise _ _ _ _ _ Hc). repeat split. now left. }
  rewrite (bind_return _ _ _ _ _ Hc).
  destruct (adapter_frame env start vm_id w) as (Hd1 & Hp1 & _).
  cbn [adapter] in Hd1, Hp1. rewrite Hp in Hp1.
  destruct (proxmox.start_vm env vm_id w) as [[r|e] w1] eqn:E;
    cbn [snd] in Hd1, Hp1.
  - destruct (commit_audit_cases w1 (db w) (Some (user_id u)) (user_email u)
                "start"%string vm_id (Some (res_vm_name r)) (res_success r)
                (if res_success r then None else Some (res_message r)) ip
                Hd1 Hp1)
      as (o & w2 & Hcm &
          [(e1 & original & -> & Hd2 & Hi2)|(-> & Hp2 & Hd2)]).
    + erewrite try_except_raise with (e := e1) (w' := w2).
      * rewrite (start_vm_handler_inactive vm_id ip u e1 w2 original Hi2).
        cbn [snd session.add db]. rewrite Hd2. repeat split. now left.
      * rewrite (bind_return _ _ _ _ _ E).
        rewrite (bind_return _ _ _ _ _ (add_run _ w1)).
        apply bind_raise. exact Hcm.
    + erewrite try_except_return.
      2:{ rewrite (bind_return _ _ _ _ _ E).
          rewrite (bind_return _ _ _ _ _ (add_run _ w1)).
          rewrite (bind_return _ _ _ _ _ Hcm). reflexivity. }
      cbn [snd]. rewrite Hd2.
      repeat split. right. eexists. split; [reflexivity|]. repeat split.
  - erewrite try_except_raise with (e := e) (w' := w1);
      [|apply bind_raise; exact E].
    now apply start_vm_handler_cases.
Qed.

(** [start_vm] past the permission block in terms of what the adapter
    did, when the audit commit goes through. *)
Lemma start_vm_after_adapter (vm_id : Z) (ip : option string) (u : User)
    (w w1 : World) (o : Outcome ActionResult) :
  vms.check_permissions vm_id u w = (Return tt, w) ->
  pending w = [] ->
  int4 vm_id = true ->
  session.has_user (db w) (user_id u) = true ->
  hd None (commit_faults w) = None ->
  proxmox.start_vm env vm_id w = (o, w1) ->
  vms.start_vm env vm_id ip u w =
  match o with
  | Return r =>
      (Return (vms.action_response r),
       audited w w1
         (start_row w u vm_id ip (res_vm_name r) (res_success r)
            (if res_success r then None else Some (res_message r))))
  | Raise e =>
      (Raise (HTTPException 500 ("Failed to start VM: " ++ str_exn e)%string),
       audited w w1
         (start_row w u vm_id ip ("VM-" ++ str_int vm_id)%string false
            (Some (str_exn e))))
  end.
Proof.
  intros Hc Hp Hr Hu Hf E.
  destruct (adapter_frame env start vm_id w) as (Hd1 & Hp1 & Hf1).
  cbn [adapter] in Hd1, Hp1, Hf1. rewrite E in Hd1, Hp1, Hf1.
  cbn [snd] in Hd1, Hp1, Hf1.
  unfold vms.start_vm. rewrite (bind_return _ _ _ _ _ Hc).
  destruct o as [r|e].
  - apply try_except_return.
    rewrite (bind_return _ _ _ _ _ E).
    rewrite (bind_return _ _ _ _ _ (add_run _ w1)).
    erewrite bind_return;
      [|apply (commit_one_audit w1 (db w)); congruence].
    unfold ret, audited, start_row. now rewrite Hf1.
  - erewrite try_except_raise; [|apply bind_raise; exact E].
    rewrite (bind_return _ _ _ _ _ (add_run _ w1)).
    erewrite bind_return;
      [|apply (commit_one_audit w1 (db w)); congruence].
    unfold raise, audited, start_row. now rewrite Hf1.
Qed.

(** X6.  [POST /vms/{id}/start] end to end, for a request past the permission
    block, for a VM id that is a 32-bit integer (the audit table takes no
    other), whose audit commit goes through.  On a VM that is already running
    the answer is a 200 with [success = false], no command is sent, and the
    audit row records a failure with the message "VM is already running".
    When the status read raises, or the hypervisor refuses the command, the
    answer is 500 with the prefix "Failed to start VM: " twice, and the audit
    row has [success = false], the adapter's message, and the placeholder
    name VM-<id> (also when the hypervisor had just reported the VM's
    name). *)
Theorem start_vm_noop_and_failures (vm_id : Z) (ip : option string)
    (u : User) (w : World) :
  vms.check_permissions vm_id u w = (Return tt, w) ->
  pending w = [] ->
  int4 vm_id = true ->
  session.has_user (db w) (user_id u) = true ->
  hd None (commit_faults w) = None ->
  let run := vms.start_vm env vm_id ip u w in
  let w1 := proxmox.log_call (StatusCurrentGet vm_id) w in
  let placeholder := ("VM-" ++ str_int vm_id)%string in
  (forall cfg,
     hv_status_current env (hv_log w) vm_id = inr cfg ->
     cfg_status cfg = Some "running"%string ->
     run =
     (Return
        (mkVMActionResponse false "VM is already running" vm_id
           (dict_get (cfg_name cfg) placeholder) (Some "running"%string)),
      audited w w1
        (start_row w u vm_id ip (dict_get (cfg_name cfg) placeholder) false
           (Some "VM is already running"%string)))) /\
  (forall msg,
     hv_status_current env (hv_log w) vm_id = inl msg ->
     run =
     (Raise
        (HTTPException 500
           ("Failed to start VM: Failed to start VM: " ++
            "Failed to get VM status: " ++ msg)%string),
      audited w w1
        (start_row w u vm_id ip placeholder false
           (Some ("Failed to start VM: Failed to get VM status: " ++ msg)
              %string)))) /\
  (forall cfg msg,
     hv_status_current env (hv_log w) vm_id = inr cfg ->
     dict_get (cfg_status cfg) "unknown"%string <> "running"%string ->
     hv_status_post env (hv_log w1) start vm_id = Some msg ->
     run =
     (Raise
        (HTTPException 500
           ("Failed to start VM: Failed to start VM: " ++ msg)%string),
      audited w (proxmox.log_call (StatusPost start vm_id) w1)
        (start_row w u vm_id ip placeholder false
           (Some ("Failed to start VM: " ++ msg)%string)))).
Proof.
  intros Hc Hp Hr Hu Hf run w1 placeholder.
  split; [|split].
  - intros cfg H Hrun.
    pose proof (adapter_run env start vm_id w cfg H) as E.
    cbn [adapter proxmox.status_dict vd_status vd_vm_name target_state
         noop_message] in E.
    rewrite Hrun in E. cbn [dict_get] in E. rewrite String.eqb_refl in E.
    unfold run.
    rewrite (start_vm_after_adapter vm_id ip u w _ _ Hc Hp Hr Hu Hf E).
    reflexivity.
  - intros msg H.
    pose proof (adapter_run_unreachable env start vm_id w msg H) as E.
    cbn [adapter failure_prefix] in E. unfold run.
    rewrite (start_vm_after_adapter vm_id ip u w _ _ Hc Hp Hr Hu Hf E).
    reflexivity.
  - intros cfg msg H Hne Hpost.
    pose proof (adapter_run env start vm_id w cfg H) as E.
    cbn [adapter proxmox.status_dict vd_status vd_vm_name target_state
         failure_prefix] in E.
    apply String.eqb_neq in Hne. rewrite Hne in E. fold w1 in E.
    rewrite Hpost in E. unfold run.
    rewrite (start_vm_after_adapter vm_id ip u w _ _ Hc Hp Hr Hu Hf E).
    reflexivity.
Qed.

End FailureFacts.

(** The admin starts VM 106, which runs already: a 200 that reports the
    no-op, and an audit row that records a failure. *)
Lemma start_vm_noop_and_failures_witness :
  vms.check_permissions 106 lab.root lab.world = (Return tt, lab.world) /\
  pending lab.world = [] /\
  int4 106 = true /\
  session.has_user (db lab.world) (user_id lab.root) = true /\
  hd None (commit_faults lab.world) = None /\
  fst (vms.start_vm lab.env 106 None lab.root lab.world) =
    Return
      (mkVMActionResponse false "VM is already running" 106 "ws-alice"
         (Some "running"%string)) /\
  audit_logs (db (snd (vms.start_vm lab.env 106 None lab.root lab.world))) =
    audit_logs lab.store ++
    [mkAuditLog 2 (Some "u-root"%string) "root@lab.example" "start" 106
       (Some "ws-alice"%string) false (Some "VM is already running"%string)
       None 9].
Proof.
  do 5 (split; [reflexivity|]).
  destruct (start_vm_noop_and_failures lab.env 106 None lab.root lab.world
              eq_refl eq_refl eq_refl eq_refl eq_refl) as (Hnoop & _).
  pose proof (Hnoop _ eq_refl eq_refl) as H.
  split.
  - exact (f_equal fst H).
  - exact (f_equal (fun r => audit_logs (db (snd r))) H).
Defined.

(** The admin's start of the stopped VM 103 leaves at most one row. *)
Lemma start_vm_writes_at_most_one_row_witness :
  pending lab.world = [] /\
  at_most_one_start_row lab.root 103 None (db lab.world)
    (db (snd (vms.start_vm lab.env 103 None lab.root lab.world))).
Proof.
  split; [reflexivity|].
  exact (start_vm_writes_at_most_one_row lab.env 103 None lab.root lab.world
           eq_refl).
Defined.

(** ** Listings *)
Section ListingMoreFacts.

Variable env : Env.

Lemma filter_all {A} (l : list A) : filter (fun _ => true) l = l.
Proof. induction l as [|a l IH]; cbn; [reflexivity|now rewrite IH]. Qed.

Lemma find_app_none {A} (p : A -> bool) (l1 l2 : list A) :
  (forall x, In x l1 -> p x = false) -> find p (l1 ++ l2) = find p l2.
Proof.
  induction l1 as [|a l1 IH]; intros H; cbn; [reflexivity|].
  rewrite (H a (or_introl eq_refl)). apply IH.
  intros x Hx. apply H. now right.
Qed.

(** The dict built from the assignments keeps, for a VM id, the last row
    that names it. *)
Lemma assignment_map_get_last (before after : list VMAssignment)
    (a : VMAssignment) (k : Z) :
  va_vm_id a = k ->
  (forall b, In b after -> va_vm_id b <> k) ->
  vms.assignment_map_get (before ++ a :: after) k = Some a.
Proof.
  intros Ha Hafter. unfold vms.assignment_map_get.
  rewrite rev_app_distr. cbn [rev]. rewrite <- app_assoc.
  rewrite find_app_none.
  - cbn. apply Z.eqb_eq in Ha. now rewrite Ha.
  - intros x Hx. apply in_rev in Hx. apply Z.eqb_neq. now apply Hafter.
Qed.

Lemma assignment_map_get_none (l : list VMAssignment) (k : Z) :
  (forall b, In b l -> va_vm_id b <> k) ->
  vms.assignment_map_get l k = None.
Proof.
  intros H. unfold vms.assignment_map_get.
  rewrite <- (app_nil_r (rev l)). rewrite find_app_none; [reflexivity|].
  intros x Hx. apply in_rev in Hx. apply Z.eqb_neq. now apply H.
Qed.

Lemma list_vms_admin_loop_run (assignments : list VMAssignment)
    (all_vms : list VmDict) (w : World) :
  NoDup (map user_id (users (db w))) ->
  forall vm_responses,
    vms.list_vms_admin_loop assignments all_vms vm_responses w =
    (Return (vm_responses ++ map (admin_entry (db w) assignments) all_vms),
     w).
Proof.
  intros ND. induction all_vms as [|vm rest IH]; intros acc;
    cbn [vms.list_vms_admin_loop map].
  - now rewrite app_nil_r.
  - erewrite bind_return with (a := shown_owner (db w) assignments (vd_vm_id vm))
                              (w' := w).
    + rewrite IH, <- app_assoc. reflexivity.
    + unfold shown_owner.
      destruct (vms.assignment_map_get assignments (vd_vm_id vm)) as [a|];
        [|reflexivity].
      rewrite (bind_return _ _ _ _ _ (execute_run _ _ w)).
      destruct (filter_unique_cases user_id
                  (fun u => user_id u =? va_user_id a)%string
                  (va_user_id a) (users (db w)) ND)
        as [E|(x & _ & _ & E)];
        [intros y Hy; now apply String.eqb_eq| |]; rewrite E; reflexivity.
Qed.

(** X7.  [GET /vms] for an admin, with unique user ids.  The listing never
    fails, whatever the hypervisor answers: one entry per default VM id, in
    order, each one controllable and carrying the adapter's name, status and
    uptime.  A VM that no row names has no owner; a VM named by several rows
    (the schema allows it) shows the owner of the last of them. *)
Theorem list_vms_admin (u : User) (w : World) :
  user_is_admin u = true ->
  NoDup (map user_id (users (db w))) ->
  exists all_vms w1 entries,
    proxmox.get_all_vms env None w = (Return all_vms, w1) /\
    vms.list_vms env u w = (Return (mkVMListResponse entries 4), w1) /\
    map vr_vm_id entries = [106; 103; 101; 102]%Z /\
    Forall2
      (fun vm e =>
         vr_vm_id e = vd_vm_id vm /\ vr_vm_name e = vd_vm_name vm /\
         vr_status e = vd_status vm /\ vr_uptime e = vd_uptime vm /\
         vr_can_control e = true)
      all_vms entries /\
    forall e,
      In e entries ->
      ((forall a, In a (vm_assignments (db w)) -> va_vm_id a <> vr_vm_id e) ->
       vr_assigned_user e = None) /\
      (forall before a after owner,
         vm_assignments (db w) = before ++ a :: after ->
         va_vm_id a = vr_vm_id e ->
         (forall b, In b after -> va_vm_id b <> vr_vm_id e) ->
         In owner (users (db w)) -> user_id owner = va_user_id a ->
         vr_assigned_user e = Some (user_email owner)).
Proof.
  intros Hadm ND.
  destruct (get_all_vms_run env None w) as (all_vms & Hrun & Hids & _).
  cbn [dict_get] in Hrun, Hids.
  set (w1 := mkWorld (db w) (pending w)
               (hv_log w ++ map StatusCurrentGet proxmox.default_vm_ids)
               (commit_faults w)) in *.
  exists all_vms, w1, (map (admin_entry (db w) (vm_assignments (db w)))
                         all_vms).
  split; [exact Hrun|].
  assert (Hlen : length all_vms = 4%nat).
  { rewrite <- (length_map vd_vm_id), Hids. reflexivity. }
  split; [|split; [|split]].
  - unfold vms.list_vms. apply try_except_return.
    rewrite (bind_return _ _ _ _ _ Hrun). rewrite Hadm.
    rewrite (bind_return _ _ _ _ _ (execute_run _ _ w1)).
    rewrite filter_all.
    rewrite (bind_return _ _ _ _ _ (list_vms_admin_loop_run _ _ w1 ND [])).
    cbn [app w1 db]. unfold ret. now rewrite length_map, Hlen.
  - rewrite map_map. cbn [admin_entry vr_vm_id]. exact Hids.
  - clear. induction all_vms as [|vm rest IH]; cbn [map]; constructor;
      [now cbn|exact IH].
  - intros e He. apply in_map_iff in He. destruct He as (vm & <- & _).
    cbn [admin_entry vr_vm_id vr_assigned_user]. unfold shown_owner. split.
    + intros Hnone. now rewrite assignment_map_get_none.
    + intros before a after owner Hsplit Ha Hafter Hin Hown.
      rewrite Hsplit, (assignment_map_get_last before after a _ Ha Hafter).
      rewrite (filter_unique user_id _ (va_user_id a) (users (db w)) owner
                 ND);
        [reflexivity|intros y Hy; now apply String.eqb_eq|assumption
        |now apply String.eqb_eq].
Qed.

(** Every entry of the batch listing is the entry of its own id for some
    history of calls. *)
Lemma get_all_vms_entries (vm_ids : option (list Z)) (w : World)
    (all_vms : list VmDict) (w1 : World) (vm : VmDict) :
  proxmox.get_all_vms env vm_ids w = (Return all_vms, w1) ->
  In vm all_vms ->
  exists log, vm = batch_entry env log (vd_vm_id vm).
Proof.
  intros Hrun Hin.
  destruct (get_all_vms_run env vm_ids w) as (vms & Hrun' & Hids & Hnth).
  rewrite Hrun in Hrun'. injection Hrun' as <- _.
  apply In_nth_error in Hin. destruct Hin as [i Hi].
  pose proof (map_nth_error vd_vm_id i all_vms Hi) as Hid.
  rewrite Hids in Hid. specialize (Hnth i _ Hid).
  rewrite Hi in Hnth. injection Hnth as ->.
  rewrite batch_entry_vm_id. eauto.
Qed.

(** X8.  [GET /vms] for a user whose VM is one of the default ids while the
    hypervisor cannot answer for it: the listing does not fail, it shows the
    VM with the placeholder name and status ["unknown"]. *)
Theorem list_vms_degrades_to_unknown (u : User) (w : World)
    (a : VMAssignment) :
  user_is_admin u = false ->
  NoDup (map va_user_id (vm_assignments (db w))) ->
  In a (vm_assignments (db w)) -> va_user_id a = user_id u ->
  In (va_vm_id a) proxmox.default_vm_ids ->
  (forall log, exists msg,
     hv_status_current env log (va_vm_id a) = inl msg) ->
  exists w1,
    vms.list_vms env u w =
    (Return
       (mkVMListResponse
          [mkVMResponse (va_vm_id a) ("VM-" ++ str_int (va_vm_id a))%string
             "unknown" None (Some (user_email u)) true]
          1),
     w1).
Proof.
  intros Hadm ND Ha Hu Hlisted Hdown.
  destruct (get_all_vms_run env None w) as (all_vms & Hrun & Hids & _).
  cbn [dict_get] in Hrun, Hids.
  eexists. unfold vms.list_vms. apply try_except_return.
  rewrite (bind_return _ _ _ _ _ Hrun). rewrite Hadm.
  rewrite (bind_return _ _ _ _ _ (execute_run _ _ _)). cbn [db].
  rewrite (filter_unique va_user_id _ (user_id u) _ a ND);
    [|intros y Hy; now apply String.eqb_eq|assumption
     |now apply String.eqb_eq].
  rewrite (bind_return _ _ _ _ _ (scalar_one_or_none_one a _)).
  destruct (find_by_id (va_vm_id a) all_vms) as [Hfound _].
  rewrite <- Hids in Hlisted.
  destruct (Hfound Hlisted) as (vm & Hfind & Hin & Hk).
  rewrite Hfind.
  destruct (get_all_vms_entries None w all_vms _ vm Hrun Hin) as [log Hvm].
  rewrite Hk in Hvm. unfold batch_entry in Hvm.
  destruct (Hdown log) as [msg Hmsg]. rewrite Hmsg in Hvm.
  rewrite Hvm. reflexivity.
Qed.

End ListingMoreFacts.

(** The admin's listing of the lab. *)
Lemma list_vms_admin_witness :
  user_is_admin lab.root = true /\
  NoDup (map user_id (users (db lab.world))) /\
  exists entries w1,
    vms.list_vms lab.env lab.root lab.world =
      (Return (mkVMListResponse entries 4), w1) /\
    map vr_vm_id entries = [106; 103; 101; 102]%Z.
Proof.
  split; [reflexivity|]. split; [exact lab_users_pkey|].
  destruct (list_vms_admin lab.env lab.root lab.world eq_refl lab_users_pkey)
    as (all_vms & w1 & entries & _ & Hrun & Hids & _).
  exists entries, w1. split; [exact Hrun|exact Hids].
Defined.

(** Bob's own listing once he owns VM 101, which the node does not know. *)
Lemma list_vms_degrades_to_unknown_witness :
  user_is_admin lab.bob = false /\
  In 101%Z proxmox.default_vm_ids /\
  (forall log, exists msg, hv_status_current lab.env log 101 = inl msg) /\
  exists w1,
    vms.list_vms lab.env lab.bob
      (request_world
         (mkDb [lab.bob] [mkVMAssignment 1 "u-bob" 101 None 0] [] 2 1 9)
         [] []) =
    (Return
       (mkVMListResponse
          [mkVMResponse 101 "VM-101" "unknown" None
             (Some "bob@lab.example"%string) true]
          1),
     w1).
Proof.
  assert (Hdown : forall log, exists msg,
            hv_status_current lab.env log 101 = inl msg)
    by (intros log; eexists; reflexivity).
  split; [reflexivity|]. split; [right; right; left; reflexivity|].
  split; [exact Hdown|].
  apply (list_vms_degrades_to_unknown lab.env lab.bob _
           (mkVMAssignment 1 "u-bob" 101 None 0) eq_refl).
  - cbn. constructor; [intros []|constructor].
  - left. reflexivity.
  - reflexivity.
  - right. right. left. reflexivity.
  - exact Hdown.
Defined.

(** ** The admin's user and assignment listings *)
Section AdminListingFacts.

Lemma join_user_all (d : Db) :
  db_ok d -> admin_users.join_user d = vm_assignments d.
Proof.
  intros Hok. unfold admin_users.join_user.
  pose proof (vm_assignments_user_fkey _ Hok) as Hfk.
  induction (vm_assignments d) as [|a l IH]; cbn [flat_map];
    [reflexivity|].
  inversion Hfk as [|? ? Ha Hl]; subst.
  apply has_user_spec in Ha. destruct Ha as (owner & Hin & Hid).
  rewrite (filter_unique user_id _ (va_user_id a) (users d) owner
             (users_pkey _ Hok));
    [|intros y Hy; now apply String.eqb_eq|assumption
     |now apply String.eqb_eq].
  cbn [map app]. now rewrite IH.
Qed.

Lemma list_vm_assignments_loop_run (w : World) :
  NoDup (map user_id (users (db w))) ->
  forall assignments response,
    Forall (fun a => session.has_user (db w) (va_user_id a) = true)
      assignments ->
    exists out,
      admin_users.list_vm_assignments_loop assignments response w =
        (Return (response ++ out), w) /\
      Forall2
        (fun a r =>
           vs_id r = va_id a /\ vs_user_id r = va_user_id a /\
           vs_vm_id r = va_vm_id a /\ vs_vm_name r = va_vm_name a /\
           vs_created_at r = va_created_at a /\
           exists owner,
             In owner (users (db w)) /\ user_id owner = va_user_id a /\
             vs_user r = user_response owner)
        assignments out.
Proof.
  intros ND. induction assignments as [|a l IH]; intros acc Hfk;
    cbn [admin_users.list_vm_assignments_loop].
  - exists []. rewrite app_nil_r. split; [reflexivity|constructor].
  - inversion Hfk as [|? ? Ha Hl]; subst.
    apply has_user_spec in Ha. destruct Ha as (owner & Hin & Hid).
    rewrite (bind_return _ _ _ _ _ (execute_run _ _ w)).
    rewrite (filter_unique user_id _ (va_user_id a) (users (db w)) owner ND);
      [|intros y Hy; now apply String.eqb_eq|assumption
       |now apply String.eqb_eq].
    erewrite bind_return; [|reflexivity].
    destruct (IH (acc ++
                    [mkVMAssignmentResponse (va_id a) (va_user_id a)
                       (va_vm_id a) (va_vm_name a) (va_created_at a)
                       (user_response owner)]) Hl) as (out & Hrun & Hall).
    eexists (_ :: out). rewrite Hrun, <- app_assoc. split; [reflexivity|].
    constructor; [|exact Hall]. cbn. repeat split. eauto.
Qed.

(** X9.  [GET /admin/vm-assignments] on a database that satisfies its
    constraints never fails and lists every assignment row once, in order,
    each with the row of its owner; nothing is written. *)
Theorem list_vm_assignments_complete (w : World) :
  db_ok (db w) ->
  exists out,
    admin_users.list_vm_assignments w = (Return out, w) /\
    Forall2
      (fun a r =>
         vs_id r = va_id a /\ vs_user_id r = va_user_id a /\
         vs_vm_id r = va_vm_id a /\ vs_vm_name r = va_vm_name a /\
         vs_created_at r = va_created_at a /\
         exists owner,
           In owner (users (db w)) /\ user_id owner = va_user_id a /\
           vs_user r = user_response owner)
      (vm_assignments (db w)) out.
Proof.
  intros Hok. unfold admin_users.list_vm_assignments.
  rewrite (bind_return _ _ _ _ _ (execute_run _ _ w)).
  rewrite filter_all, (join_user_all _ Hok).
  destruct (list_vm_assignments_loop_run w (users_pkey _ Hok)
              (vm_assignments (db w)) []
              (vm_assignments_user_fkey _ Hok)) as (out & Hrun & Hall).
  exists out. split; [exact Hrun|exact Hall].
Qed.

(** A dangling assignment (possible only when the foreign key is not
    enforced) is left out by the join rather than failing the listing. *)
Lemma join_user_skips_dangling (d : Db) (a : VMAssignment) :
  session.has_user d (va_user_id a) = false ->
  ~ In a (admin_users.join_user d).
Proof.
  intros Hno Hin. unfold admin_users.join_user in Hin.
  apply in_flat_map in Hin. destruct Hin as (b & _ & Hb).
  apply in_map_iff in Hb. destruct Hb as (owner & <- & Howner).
  apply filter_In in Howner. destruct Howner as [Hin Hid].
  apply String.eqb_eq in Hid.
  now apply (has_user_false _ _ Hno owner).
Qed.

End AdminListingFacts.

Lemma list_vm_assignments_complete_witness :
  db_ok (db lab.world) /\
  exists out,
    admin_users.list_vm_assignments lab.world = (Return out, lab.world) /\
    length out = 1%nat.
Proof.
  split; [exact lab_store_ok|].
  destruct (list_vm_assignments_complete lab.world lab_store_ok)
    as (out & Hrun & Hall).
  exists out. split; [exact Hrun|].
  apply Forall2_length in Hall. symmetry. exact Hall.
Defined.

(** ** The account calls *)
Section AccountFacts.

Variable acc : Accounts.

(** X10.  [POST /auth/request-password-reset] answers with the same message
    whatever status and body the provider returns for the address, known or
    not, so the answer does not tell whether an account exists; only a
    transport failure is told apart, as 503.  Nothing is written. *)
Theorem password_reset_reveals_nothing (email : string) (w : World) :
  (forall code body,
     gotrue_recover acc email = Response code body ->
     routers_account.request_password_reset acc email w =
     (Return "Password reset email sent if account exists"%string, w)) /\
  (forall msg,
     gotrue_recover acc email = TransportFailure msg ->
     routers_account.request_password_reset acc email w =
     (Raise (HTTPException 503 "Authentication service unavailable"), w)).
Proof.
  unfold routers_account.request_password_reset,
    gotrue.request_password_reset, try_except_class, bind, gotrue.send.
  split; intros; rewrite H; reflexivity.
Qed.

(** X11.  [POST /auth/refresh] and [POST /auth/change-password] hand the
    provider's body on when it answers 200; any other status is answered 401
    for a refresh and 400 for a password change, a transport failure 503.
    The route takes the new password first and the token second and hands
    them to the client the other way round, so the provider is sent the
    token as bearer and the new password as body.  Neither call writes
    anything. *)
Theorem account_calls_map_status (w : World) :
  (forall rt,
     match gotrue_refresh acc rt with
     | Response code body =>
         routers_account.refresh_token acc rt w =
         if (code =? 200)%Z then (Return body, w)
         else (Raise (HTTPException 401 "Invalid refresh token"), w)
     | TransportFailure _ =>
         routers_account.refresh_token acc rt w =
         (Raise (HTTPException 503 "Authentication service unavailable"), w)
     end) /\
  (forall new_password access_token,
     match gotrue_user_put acc access_token new_password with
     | Response code body =>
         routers_account.change_password acc new_password access_token w =
         if (code =? 200)%Z then (Return body, w)
         else (Raise (HTTPException 400 "Password change failed"), w)
     | TransportFailure _ =>
         routers_account.change_password acc new_password access_token w =
         (Raise (HTTPException 503 "Authentication service unavailable"), w)
     end).
Proof.
  split.
  - intros rt.
    unfold routers_account.refresh_token, gotrue.refresh_token,
      try_except_class, bind, gotrue.send.
    destruct (gotrue_refresh acc rt) as [code body|msg]; [|reflexivity].
    cbn [ret fst snd]. destruct (code =? 200)%Z; reflexivity.
  - intros new_password access_token.
    unfold routers_account.change_password, gotrue.change_password,
      try_except_class, bind, gotrue.send.
    destruct (gotrue_user_put acc access_token new_password)
      as [code body|msg]; [|reflexivity].
    cbn [ret fst snd]. destruct (code =? 200)%Z; reflexivity.
Qed.

Lemma signup_run (email password : string) (w : World) :
  gotrue.signup acc email password w =
  match gotrue_signup acc email password with
  | Response code (inr body) =>
      if (code =? 200)%Z || (code =? 201)%Z then (Return body, w)
      else
        (Raise (HTTPException 400 (dict_get (sr_msg body) "Signup failed")),
         w)
  | Response code (inl msg) => (Raise (JSONDecodeError msg), w)
  | TransportFailure _ =>
      (Raise (HTTPException 503 "Authentication service unavailable"), w)
  end.
Proof.
  unfold gotrue.signup, try_except_class, bind, gotrue.send, gotrue.json.
  destruct (gotrue_signup acc email password) as [code [msg|body]|msg];
    [| |reflexivity];
    cbn [ret fst snd]; destruct ((code =? 200)%Z || (code =? 201)%Z);
    reflexivity.
Qed.

(** [create_user] once the provider has taken the signup. *)
Lemma create_user_accepted_run (email password : string) (is_admin : bool)
    (w : World) (body : SignupResponse) :
  pending w = [] ->
  gotrue.signup acc email password w = (Return body, w) ->
  admin_users.create_user acc email password is_admin w =
  match signup_user_id body with
  | None =>
      (Raise (HTTPException 500 "Failed to get user ID from GoTrue"), w)
  | Some uid =>
      let failed (msg : string) :=
        (Raise (HTTPException 500 ("Failed to create user: " ++ msg)),
         mkWorld (db w) [InactiveTransaction msg] (hv_log w)
           (tl (commit_faults w))) in
      match hd None (commit_faults w) with
      | Some msg => failed msg
      | None =>
          match session.flush_op (db w) (AddUser uid email is_admin) with
          | inl e => failed (str_exn e)
          | inr _ =>
              (Return (mkUserResponse uid email is_admin (db_now (db w))),
               with_new_user w uid email is_admin)
          end
      end
  end%string.
Proof.
  intros Hp Hs. unfold admin_users.create_user, signup_user_id.
  set (uid := admin_users.or_else (sr_id body)
                match sr_user body with
                | Some i => i
                | None => None
                end).
  destruct (truthy uid) eqn:Tu.
  2:{ erewrite try_except_raise;
        [|rewrite (bind_return _ _ _ _ _ Hs); fold uid; rewrite Tu;
          reflexivity].
      reflexivity. }
  destruct uid as [i|] eqn:Eu; [|discriminate]. cbn [dict_get].
  cbv zeta.
  assert (Hadd : forall k : unit -> M UserResponse,
            (session.add (AddUser i email is_admin) ;;; k tt)%monad w =
            k tt (mkWorld (db w) [AddUser i email is_admin] (hv_log w)
                    (commit_faults w))).
  { intros k. rewrite (bind_return _ _ _ _ _ (add_run _ w)).
    now rewrite Hp. }
  assert (Hfail : forall e : Exn,
            (forall c d, e <> HTTPException c d) ->
            session.commit
              (mkWorld (db w) [AddUser i email is_admin] (hv_log w)
                 (commit_faults w)) =
            (Raise e,
             mkWorld (db w) [InactiveTransaction (str_exn e)] (hv_log w)
               (tl (commit_faults w))) ->
            admin_users.create_user acc email password is_admin w =
            (Raise
               (HTTPException 500
                  ("Failed to create user: " ++ str_exn e)%string),
             mkWorld (db w) [InactiveTransaction (str_exn e)] (hv_log w)
               (tl (commit_faults w)))).
  { intros e Hne Hcm. unfold admin_users.create_user.
    erewrite try_except_raise with (e := e).
    - destruct e as [c d| | | | | | | | | |]; try reflexivity.
      now destruct (Hne c d).
    - rewrite (bind_return _ _ _ _ _ Hs). fold uid. rewrite Eu, Tu.
      cbn [negb dict_get].
      rewrite (Hadd (fun _ => _)). apply bind_raise. exact Hcm. }
  fold (admin_users.create_user acc email password is_admin).
  destruct (hd None (commit_faults w)) as [msg|] eqn:Hf.
  { apply (Hfail (OperationalError msg)); [discriminate|].
    unfold session.commit. cbn [db pending hv_log commit_faults].
    cbn [session.inactive]. now rewrite Hf. }
  cbn [session.flush_op].
  destruct (session.has_user (db w) i) eqn:Hnew.
  { apply (Hfail (IntegrityError _)); [discriminate|].
    unfold session.commit. cbn [db pending hv_log commit_faults].
    cbn [session.inactive session.flush session.flush_op].
    now rewrite Hf, Hnew. }
  destruct (existsb _ (users (db w))) eqn:Hmail.
  { apply (Hfail (IntegrityError _)); [discriminate|].
    unfold session.commit. cbn [db pending hv_log commit_faults].
    cbn [session.inactive session.flush session.flush_op].
    now rewrite Hf, Hnew, Hmail. }
  unfold admin_users.create_user.
  apply try_except_return.
  rewrite (bind_return _ _ _ _ _ Hs). fold uid. rewrite Eu, Tu.
  cbn [negb dict_get].
  rewrite (Hadd (fun _ => _)).
  erewrite bind_return with (w' := with_new_user w i email is_admin).
  2:{ unfold session.commit. cbn [db pending hv_log commit_faults].
      rewrite Hf. cbn [session.inactive session.flush session.flush_op].
      now rewrite Hnew, Hmail. }
  erewrite bind_return with
    (a := mkUser i email is_admin (db_now (db w))); [reflexivity|].
  unfold session.refresh.
  rewrite (bind_return _ _ _ _ _ (execute_run _ _ _)).
  cbn [with_new_user db session.set_users users].
  rewrite filter_app, filter_none.
  - cbn [filter app user_id]. now rewrite String.eqb_refl.
  - intros x Hx. apply String.eqb_neq. now apply (has_user_false _ _ Hnew).
Qed.

End AccountFacts.

(** ** Creating, listing and deleting users *)
Section UserAdminFacts.

Variable acc : Accounts.


(** What a [create_user] that returned has done. *)
Lemma create_user_returned (email password : string) (is_admin : bool)
    (w w1 : World) (r : UserResponse) :
  pending w = [] ->
  admin_users.create_user acc email password is_admin w = (Return r, w1) ->
  exists uid,
    r = mkUserResponse uid email is_admin (db_now (db w)) /\
    w1 = with_new_user w uid email is_admin /\
    session.has_user (db w) uid = false.
Proof.
  intros Hp Hc.
  assert (Hs := signup_run acc email password w).
  destruct (gotrue_signup acc email password) as [code [msg|body]|msg].
  1,3:
    unfold admin_users.create_user in Hc;
    rewrite (try_except_raise _ _ _ _ _ (bind_raise _ _ _ _ _ Hs)) in Hc;
    discriminate.
  destruct ((code =? 200)%Z || (code =? 201)%Z).
  2:{ unfold admin_users.create_user in Hc.
      rewrite (try_except_raise _ _ _ _ _ (bind_raise _ _ _ _ _ Hs)) in Hc.
      discriminate. }
  rewrite (create_user_accepted_run acc email password is_admin w body Hp Hs)
    in Hc.
  destruct (signup_user_id body) as [uid|]; [|discriminate].
  cbv zeta in Hc.
  destruct (hd None (commit_faults w)); [discriminate|].
  cbn [session.flush_op] in Hc.
  destruct (session.has_user (db w) uid) eqn:Hu; [discriminate|].
  destruct (existsb _ (users (db w))); [discriminate|].
  injection Hc as <- <-. now exists uid.
Qed.

Lemma without_new_user (d : Db) (u : User) :
  db_ok d -> session.has_user d (user_id u) = false ->
  without_user (session.set_users d (users d ++ [u])) (user_id u) = d.
Proof.
  intros Hok Hu. unfold without_user.
  cbn [session.set_users users vm_assignments audit_logs vm_assignments_seq
       audit_logs_seq db_now].
  assert (Hus : filter (fun x => negb (user_id x =? user_id u)%string)
                  (users d ++ [u]) = users d).
  { rewrite filter_app. cbn [filter]. rewrite String.eqb_refl. cbn [negb].
    rewrite app_nil_r. apply forallb_filter_id. apply forallb_forall.
    intros x Hx. apply negb_true_iff, String.eqb_neq.
    now apply (has_user_false _ _ Hu). }
  assert (Has : filter (fun a => negb (va_user_id a =? user_id u)%string)
                  (vm_assignments d) = vm_assignments d).
  { apply forallb_filter_id. apply forallb_forall. intros a Ha.
    apply negb_true_iff, String.eqb_neq. intros E.
    assert (H := proj1 (Forall_forall _ _) (vm_assignments_user_fkey d Hok)
                   a Ha).
    cbn beta in H. rewrite E in H. congruence. }
  assert (Hls : map (session.set_null (user_id u)) (audit_logs d) =
                audit_logs d).
  { rewrite <- (map_id (audit_logs d)) at 2. apply map_ext_in.
    intros l Hl. apply set_null_spec. intros E.
    assert (H := proj1 (Forall_forall _ _) (audit_logs_user_fkey d Hok)
                   l Hl).
    cbn beta in H. rewrite E in H. cbn [session.fk_user] in H.
    congruence. }
  rewrite Hus, Has, Hls. now destruct d.
Qed.

(** X13.  Round trip.  A user [create_user] has just returned is the last entry
    of the next [list_users], after the entries listed before; deleting that
    user then answers with the user's email and leaves the database exactly
    as it was before the creation, so the following listing is the first one
    again. *)
Theorem create_list_delete_round_trip (email password : string)
    (is_admin : bool) (w w1 : World) (r : UserResponse)
    (listed : list UserResponse) :
  db_ok (db w) -> pending w = [] ->
  admin_users.list_users w = (Return listed, w) ->
  admin_users.create_user acc email password is_admin w = (Return r, w1) ->
  hd None (commit_faults w1) = None ->
  admin_users.list_users w1 = (Return (listed ++ [r]), w1) /\
  exists w2,
    admin.delete_user (ur_id r) w1 =
    (Return ("User " ++ email ++ " deleted successfully")%string, w2) /\
    db w2 = db w /\
    admin_users.list_users w2 = (Return listed, w2).
Proof.
  intros Hok Hp Hl Hc Hf.
  destruct (create_user_returned email password is_admin w w1 r Hp Hc)
    as (uid & -> & -> & Hu).
  unfold admin_users.list_users in *.
  rewrite (bind_return _ _ _ _ _ (execute_run _ _ _)) in Hl.
  injection Hl as Hl.
  split.
  { rewrite (bind_return _ _ _ _ _ (execute_run _ _ _)).
    cbn [with_new_user db session.set_users users].
    rewrite filter_all in *. rewrite map_app, Hl. reflexivity. }
  set (u := mkUser uid email is_admin (db_now (db w))).
  assert (ND : NoDup (map user_id (users (db (with_new_user w uid email
                                                 is_admin))))).
  { cbn [with_new_user db session.set_users users].
    apply NoDup_map_snoc; [apply (users_pkey _ Hok)|].
    intros y Hy. now apply (has_user_false _ _ Hu). }
  assert (Hrun := delete_user_run uid (with_new_user w uid email is_admin) u
                    ND eq_refl).
  rewrite Hf in Hrun. cbn [ur_id]. rewrite Hrun.
  2:{ cbn [with_new_user db session.set_users users]. apply in_or_app.
      right. now left. }
  2:{ reflexivity. }
  eexists. split; [reflexivity|].
  cbn [db with_new_user].
  assert (Hw := without_new_user (db w) u Hok Hu).
  unfold u in Hw. cbn [user_id] in Hw. rewrite Hw.
  split; [reflexivity|].
  rewrite (bind_return _ _ _ _ _ (execute_run _ _ _)).
  cbn [db]. now rewrite Hl.
Qed.

(** X14.  [DELETE /admin/users/{id}] for an id no row holds answers 404 and does
    nothing; so once a deletion has gone through, repeating it answers
    404. *)
Theorem delete_user_missing (uid : string) (w : World) :
  (session.has_user (db w) uid = false ->
   admin.delete_user uid w =
   (Raise (HTTPException 404 "User not found"), w)) /\
  (NoDup (map user_id (users (db w))) -> pending w = [] ->
   forall msg w1,
     admin.delete_user uid w = (Return msg, w1) ->
     admin.delete_user uid w1 =
     (Raise (HTTPException 404 "User not found"), w1)).
Proof.
  assert (Hmiss : forall w0, session.has_user (db w0) uid = false ->
            admin.delete_user uid w0 =
            (Raise (HTTPException 404 "User not found"), w0)).
  { intros w0 Hu. unfold admin.delete_user.
    rewrite (bind_return _ _ _ _ _ (execute_run _ _ _)).
    rewrite filter_none; [reflexivity|].
    intros x Hx. apply String.eqb_neq. now apply (has_user_false _ _ Hu). }
  split; [apply Hmiss|].
  intros ND Hp msg w1 Hrun. apply Hmiss.
  destruct (session.has_user (db w) uid) eqn:Hu.
  2:{ rewrite (Hmiss w Hu) in Hrun. discriminate. }
  apply has_user_spec in Hu. destruct Hu as (user & Hin & Hid).
  rewrite (delete_user_run uid w user ND Hp Hin Hid) in Hrun.
  destruct (hd None (commit_faults w)); [discriminate|].
  injection Hrun as _ <-. cbn [db without_user].
  unfold session.has_user. cbn [users].
  apply filter_nil_existsb_false.
  intros x Hx. apply filter_In in Hx. destruct Hx as [_ Hne].
  now apply negb_true_iff in Hne.
Qed.

End UserAdminFacts.

(** ** Removing an assignment *)
Section RevocationFacts.

Variable env : Env.




End RevocationFacts.

(** ** The health probe *)
Section HealthFacts.

Variable env : Env.
Variable acc : Accounts.

(** X17.  [GET /health] never raises and writes nothing.  It reports the database
    as healthy whatever its state, the hypervisor as healthy exactly when the
    version probe succeeds, the provider as healthy exactly when its health
    endpoint answers 200, and the whole as healthy when both are and as
    degraded otherwise. *)
Theorem health_check_reports (utcnow : Z) (w : World) :
  exists r,
    main.health_check env acc utcnow w =
    (Return r, proxmox.log_call VersionGet w) /\
    hr_database r = "healthy"%string /\
    hr_timestamp r = utcnow /\
    hr_proxmox r =
    (if hv_version env (hv_log w) then "healthy" else "unhealthy")%string /\
    (hr_gotrue r = "healthy"%string <->
     exists body, gotrue_health acc = Response 200 body) /\
    (hr_gotrue r = "healthy"%string \/ hr_gotrue r = "unhealthy"%string) /\
    (hr_status r = "healthy"%string <->
     hr_proxmox r = "healthy"%string /\ hr_gotrue r = "healthy"%string) /\
    (hr_status r = "healthy"%string \/ hr_status r = "degraded"%string).
Proof.
  unfold main.health_check, proxmox.health_check.
  unfold bind at 1.
  assert (Hg : forall w0,
            gotrue.health_check acc w0 =
            (Return match gotrue_health acc with
                    | Response code _ => (code =? 200)%Z
                    | TransportFailure _ => false
                    end, w0)).
  { intros w0. unfold gotrue.health_check, try_except, bind, gotrue.send.
    destruct (gotrue_health acc); reflexivity. }
  rewrite (bind_return _ _ _ _ _ (Hg _)).
  eexists. split; [reflexivity|].
  cbn [hr_database hr_timestamp hr_proxmox hr_gotrue hr_status].
  split; [reflexivity|split; [reflexivity|split; [reflexivity|]]].
  destruct (hv_version env (hv_log w));
    destruct (gotrue_health acc) as [code body|msg];
    [destruct (Z.eqb_spec code 200) as [->|Hne]|
    |destruct (Z.eqb_spec code 200) as [->|Hne]|];
    cbn;
    (split; [split; [intros; eauto; discriminate
                    |intros (b & E); try reflexivity; try discriminate;
                     injection E as E _; congruence]|]);
    (split; [auto|]);
    (split; [split; [intros; try discriminate; auto
                    |intros [? ?]; try discriminate; auto]|auto]).
Qed.

End HealthFacts.

(** ** Concrete runs of the user and assignment routes *)


(** Erin is created, listed after root, alice and bob, and deleted again. *)
Lemma create_list_delete_round_trip_witness :
  db_ok (db lab.world) /\
  admin_users.create_user lab_accounts.accounts "erin@lab.example" "pw" false
    lab.world =
  (Return (mkUserResponse "u-erin" "erin@lab.example" false 9),
   with_new_user lab.world "u-erin" "erin@lab.example" false) /\
  admin_users.list_users
    (with_new_user lab.world "u-erin" "erin@lab.example" false) =
  (Return
     (map user_response [lab.root; lab.alice; lab.bob] ++
      [mkUserResponse "u-erin" "erin@lab.example" false 9]),
   with_new_user lab.world "u-erin" "erin@lab.example" false) /\
  exists w2,
    admin.delete_user "u-erin"
      (with_new_user lab.world "u-erin" "erin@lab.example" false) =
    (Return "User erin@lab.example deleted successfully"%string, w2) /\
    db w2 = db lab.world /\
    admin_users.list_users w2 =
    (Return (map user_response [lab.root; lab.alice; lab.bob]), w2).
Proof.
  split; [exact lab_store_ok|]. split; [reflexivity|].
  exact (create_list_delete_round_trip lab_accounts.accounts
           "erin@lab.example" "pw" false lab.world
           (with_new_user lab.world "u-erin" "erin@lab.example" false)
           (mkUserResponse "u-erin" "erin@lab.example" false 9)
           (map user_response [lab.root; lab.alice; lab.bob])
           lab_store_ok eq_refl eq_refl eq_refl eq_refl).
Defined.



(** ** What a route can touch *)
Section Footprints.

Variable R : World -> World -> Prop.
Variable ops : SessionOp -> bool.
Variable calls : HvCall -> bool.
Hypothesis F : footprint R ops calls.

Variable env : Env.
Variable acc : Accounts.

Lemma frame_ret {A} (a : A) : frame R (ret a).
Proof. intros w. apply (fp_refl _ _ _ F). Qed.

Lemma frame_raise {A} (e : Exn) : frame R (@raise A e).
Proof. intros w. apply (fp_refl _ _ _ F). Qed.

Lemma frame_bind {A B} (m : M A) (k : A -> M B) :
  frame R m -> (forall a, frame R (k a)) -> frame R (bind m k).
Proof.
  intros Hm Hk w. unfold bind. specialize (Hm w).
  destruct (m w) as [[a|e] w']; cbn [snd] in Hm |- *; [|exact Hm].
  apply (fp_trans _ _ _ F _ w'); [exact Hm|apply Hk].
Qed.

Lemma frame_try_except_class {A} (C : Exn -> bool) (m : M A)
    (h : Exn -> M A) :
  frame R m -> (forall e, frame R (h e)) -> frame R (try_except_class C m h).
Proof.
  intros Hm Hh w. unfold try_except_class. specialize (Hm w).
  destruct (m w) as [[a|e] w']; cbn [snd] in Hm |- *; [exact Hm|].
  destruct (C e); [|exact Hm].
  apply (fp_trans _ _ _ F _ w'); [exact Hm|apply Hh].
Qed.

Lemma frame_try_except {A} (m : M A) (h : Exn -> M A) :
  frame R m -> (forall e, frame R (h e)) -> frame R (try_except m h).
Proof.
  intros Hm Hh w. unfold try_except. specialize (Hm w).
  destruct (m w) as [[a|e] w']; cbn [snd] in Hm |- *; [exact Hm|].
  apply (fp_trans _ _ _ F _ w'); [exact Hm|apply Hh].
Qed.

Lemma frame_add (op : SessionOp) : ops op = true -> frame R (session.add op).
Proof. intros H w. now apply (fp_add _ _ _ F). Qed.

Lemma frame_commit : frame R session.commit.
Proof. intros w. apply (fp_commit _ _ _ F). Qed.

Lemma frame_execute {A} (table : Db -> list A) (p : A -> bool) :
  frame R (session.execute table p).
Proof. intros w. apply (fp_refl _ _ _ F). Qed.

Lemma frame_execute_int4 {A} (n : Z) (table : Db -> list A)
    (p : A -> bool) :
  frame R (session.execute_int4 n table p).
Proof.
  intros w. unfold session.execute_int4.
  destruct (int4 n); apply (fp_refl _ _ _ F).
Qed.

Lemma frame_scalar_one_or_none {A} (rows : list A) :
  frame R (session.scalar_one_or_none rows).
Proof.
  intros w. destruct rows as [|r [|r' rows]]; apply (fp_refl _ _ _ F).
Qed.

Lemma frame_scalar_one {A} (rows : list A) :
  frame R (session.scalar_one rows).
Proof.
  intros w. destruct rows as [|r [|r' rows]]; apply (fp_refl _ _ _ F).
Qed.

Lemma frame_status_current_get (vm_id : Z) :
  calls (StatusCurrentGet vm_id) = true ->
  frame R (proxmox.status_current_get env vm_id).
Proof.
  intros H w. unfold proxmox.status_current_get.
  destruct (hv_status_current env (hv_log w) vm_id);
    now apply (fp_call _ _ _ F).
Qed.

Lemma frame_status_post (a : Action) (vm_id : Z) :
  calls (StatusPost a vm_id) = true ->
  frame R (proxmox.status_post env a vm_id).
Proof.
  intros H w. unfold proxmox.status_post.
  destruct (hv_status_post env (hv_log w) a vm_id);
    now apply (fp_call _ _ _ F).
Qed.

Lemma frame_version_get :
  calls VersionGet = true -> frame R (proxmox.health_check env).
Proof. intros H w. now apply (fp_call _ _ _ F). Qed.

Lemma frame_post_token (email password : string) :
  frame R (auth.post_token env email password).
Proof.
  unfold auth.post_token.
  destruct (gotrue_token env email password);
    [apply frame_ret|apply frame_raise].
Qed.

Lemma frame_verify_token (tok : string) : frame R (auth.verify_token env tok).
Proof.
  unfold auth.verify_token.
  destruct (jwt_decode env tok); [apply frame_ret|apply frame_raise..].
Qed.

Lemma frame_send {A} (reply : HttpReply A) : frame R (gotrue.send reply).
Proof. destruct reply; [apply frame_ret|apply frame_raise]. Qed.

Lemma frame_json {A} (body : string + A) : frame R (gotrue.json body).
Proof. destruct body; [apply frame_raise|apply frame_ret]. Qed.

Lemma frame_next_assignment_id : frame R admin.next_assignment_id.
Proof. intros w. apply (fp_refl _ _ _ F). Qed.

(** Breaks a handler down to the session and client calls above. *)
Ltac frame_step :=
  first
    [ apply frame_ret | apply frame_raise
    | apply frame_add; solve [auto]
    | apply frame_commit | apply frame_execute | apply frame_execute_int4
    | apply frame_scalar_one_or_none | apply frame_scalar_one
    | apply frame_status_current_get; solve [auto]
    | apply frame_status_post; solve [auto]
    | apply frame_version_get; solve [auto]
    | apply frame_post_token | apply frame_verify_token
    | apply frame_send | apply frame_json | apply frame_next_assignment_id
    | progress cbv beta zeta
    | apply frame_bind; [|intro]
    | apply frame_try_except_class; [|intro]
    | apply frame_try_except; [|intro]
    | match goal with
      | |- frame _ (if ?c then _ else _) => destruct c
      | |- frame _ (match ?x with _ => _ end) => destruct x
      end ].

Ltac frame_all := repeat frame_step.

Lemma frame_get_all_vms (vm_ids : option (list Z)) :
  (forall vm_id, calls (StatusCurrentGet vm_id) = true) ->
  frame R (proxmox.get_all_vms env vm_ids).
Proof.
  intros Hq. unfold proxmox.get_all_vms.
  generalize (@nil VmDict).
  induction (dict_get vm_ids proxmox.default_vm_ids) as [|id ids IH];
    intros vms; cbn [proxmox.get_all_vms_loop].
  - apply frame_ret.
  - apply frame_bind; [|intro; apply IH].
    unfold proxmox.get_vm_status. frame_all.
Qed.

Lemma frame_list_vms_admin_loop (assignments : list VMAssignment)
    (all_vms : list VmDict) :
  forall vm_responses,
    frame R (vms.list_vms_admin_loop assignments all_vms vm_responses).
Proof.
  induction all_vms as [|vm rest IH]; intros vm_responses;
    cbn [vms.list_vms_admin_loop].
  - apply frame_ret.
  - apply frame_bind; [|intro; apply IH]. frame_all.
Qed.

Lemma frame_list_vm_assignments_loop (assignments : list VMAssignment) :
  forall response,
    frame R (admin_users.list_vm_assignments_loop assignments response).
Proof.
  induction assignments as [|a rest IH]; intros response;
    cbn [admin_users.list_vm_assignments_loop].
  - apply frame_ret.
  - apply frame_bind; [apply frame_execute|intro].
    apply frame_bind; [apply frame_scalar_one|intro]. apply IH.
Qed.

(** The routes that write nothing and only query the hypervisor. *)
Lemma frame_reading_routes :
  (forall vm_id, calls (StatusCurrentGet vm_id) = true) ->
  calls VersionGet = true ->
  (forall tok, frame R (auth.get_current_admin_user env tok)) /\
  (forall u, frame R (vms.list_vms env u)) /\
  (forall vm_id u, frame R (vms.get_vm_status env vm_id u)) /\
  frame R admin_users.list_users /\
  frame R admin_users.list_vm_assignments /\
  (forall rt, frame R (routers_account.refresh_token acc rt)) /\
  (forall email, frame R (routers_account.request_password_reset acc email))
  /\
  (forall pw tok, frame R (routers_account.change_password acc pw tok)) /\
  (forall utcnow, frame R (main.health_check env acc utcnow)).
Proof.
  intros Hq Hv.
  split; [|split; [|split; [|split; [|split; [|split; [|split; [|split]]]]]]].
  - intros tok.
    unfold auth.get_current_admin_user, auth.get_current_user. frame_all.
  - intros u. unfold vms.list_vms.
    apply frame_try_except; [|intro; apply frame_raise].
    apply frame_bind; [now apply frame_get_all_vms|intro].
    destruct (user_is_admin u).
    + apply frame_bind; [apply frame_execute|intro].
      apply frame_bind; [apply frame_list_vms_admin_loop|intro].
      apply frame_ret.
    + frame_all.
  - intros vm_id u.
    unfold vms.get_vm_status, vms.check_permissions, proxmox.get_vm_status.
    frame_all.
  - unfold admin_users.list_users. frame_all.
  - unfold admin_users.list_vm_assignments.
    apply frame_bind; [apply frame_execute|intro].
    apply frame_list_vm_assignments_loop.
  - intros rt.
    unfold routers_account.refresh_token, gotrue.refresh_token,
      gotrue.unavailable. frame_all.
  - intros email.
    unfold routers_account.request_password_reset,
      gotrue.request_password_reset, gotrue.unavailable. frame_all.
  - intros pw tok.
    unfold routers_account.change_password, gotrue.change_password,
      gotrue.unavailable. frame_all.
  - intros utcnow.
    unfold main.health_check, gotrue.health_check. frame_all.
Qed.

Lemma frame_login (email password : string) :
  (forall i e, ops (AddUser i e false) = true) ->
  frame R (routers_auth.login env email password).
Proof.
  intros Ho.
  unfold routers_auth.login, auth.login, session.refresh,
    routers_auth.subscript. frame_all.
Qed.

Lemma frame_create_user (email password : string) (is_admin : bool) :
  (forall i e a, ops (AddUser i e a) = true) ->
  frame R (admin_users.create_user acc email password is_admin).
Proof.
  intros Ho.
  unfold admin_users.create_user, gotrue.signup, gotrue.unavailable,
    session.refresh. frame_all.
Qed.

Lemma frame_assign_vm_to_user (uid : string) (vm_id : Z) :
  (forall k, calls (StatusCurrentGet k) = true) ->
  (forall u k n, ops (AddVMAssignment u k n) = true) ->
  frame R (admin.assign_vm_to_user env uid vm_id).
Proof.
  intros Hq Ho.
  unfold admin.assign_vm_to_user, proxmox.get_vm_status, session.refresh.
  frame_all.
Qed.

Lemma frame_delete_vm_assignment (id : Z) :
  (forall k, ops (DeleteVMAssignment k) = true) ->
  frame R (admin.delete_vm_assignment id).
Proof.
  intros Ho. unfold admin.delete_vm_assignment, session.delete. frame_all.
Qed.

Lemma frame_delete_user (uid : string) :
  (forall k, ops (DeleteUser k) = true) ->
  frame R (admin.delete_user uid).
Proof.
  intros Ho. unfold admin.delete_user, session.delete. frame_all.
Qed.

Lemma frame_start_vm (vm_id : Z) (ip : option string) (u : User) :
  (forall k, calls (StatusCurrentGet k) = true) ->
  calls (StatusPost start vm_id) = true ->
  (forall op, is_audit_insert op = true -> ops op = true) ->
  frame R (vms.start_vm env vm_id ip u).
Proof.
  intros Hq Hc Ho.
  unfold vms.start_vm, vms.check_permissions, proxmox.start_vm,
    proxmox.get_vm_status. frame_all.
Qed.

End Footprints.

Lemma flush_audit_untouched (ops : list SessionOp) :
  forall d d',
    existsb touches_audit ops = false ->
    session.flush d ops = inr d' -> audit_logs d' = audit_logs d.
Proof.
  induction ops as [|op rest IH]; intros d d' Hc Hf; cbn in Hf.
  - now injection Hf as <-.
  - cbn [existsb] in Hc. apply orb_false_iff in Hc. destruct Hc as [Hop Hc].
    destruct (session.flush_op d op) as [msg|d1] eqn:E; [discriminate|].
    rewrite (IH d1 d' Hc Hf).
    destruct op; try discriminate Hop; cbn [session.flush_op] in E.
    + destruct (session.has_user d id); [discriminate|].
      destruct (existsb _ (users d)); [discriminate|].
      now injection E as <-.
    + destruct (negb (session.has_user d uid)); [discriminate|].
      destruct (existsb _ (vm_assignments d)); [discriminate|].
      now injection E as <-.
    + now injection E as <-.
    + discriminate E.
Qed.

Lemma flush_accounts_untouched (ops : list SessionOp) :
  forall d d',
    forallb is_audit_insert ops = true ->
    session.flush d ops = inr d' ->
    users d' = users d /\ vm_assignments d' = vm_assignments d.
Proof.
  induction ops as [|op rest IH]; intros d d' Hc Hf; cbn in Hf.
  - injection Hf as <-. now split.
  - cbn [forallb] in Hc. apply andb_true_iff in Hc. destruct Hc as [Hop Hc].
    destruct (session.flush_op d op) as [msg|d1] eqn:E; [discriminate|].
    destruct (IH d1 d' Hc Hf) as [-> ->].
    destruct op; try discriminate Hop; cbn [session.flush_op] in E;
      [|discriminate E].
    destruct (negb (int4 vm_id)); [discriminate|].
    destruct (negb (session.fk_user d uid)); [discriminate|].
    injection E as <-. now split.
Qed.

Lemma audit_footprint :
  footprint audit_untouched (fun op => negb (touches_audit op))
    (fun _ => true).
Proof.
  constructor.
  - intros w H. now split.
  - intros w1 w2 w3 H12 H23 H.
    destruct (H12 H) as [H2 E2]. destruct (H23 H2) as [H3 E3].
    split; [exact H3|congruence].
  - intros op w Hop H. cbn [session.add snd pending db].
    rewrite existsb_app, H. cbn [existsb].
    apply negb_true_iff in Hop. rewrite Hop. now split.
  - intros w H. unfold session.commit.
    destruct (session.inactive (pending w)); [now split|].
    destruct (hd None (commit_faults w)); [now split|].
    destruct (session.flush (db w) (pending w)) as [msg|d'] eqn:E;
      [now split|].
    cbn [snd pending db]. split; [reflexivity|].
    now apply (flush_audit_untouched (pending w)).
  - intros c w _ H. now split.
Qed.

Lemma hypervisor_footprint :
  footprint only_queried (fun _ => true) (fun c => negb (is_command c)).
Proof.
  constructor.
  - intros w. exists []. now rewrite app_nil_r.
  - intros w1 w2 w3 (s1 & E1 & H1) (s2 & E2 & H2).
    exists (s1 ++ s2). rewrite E2, E1, <- app_assoc, existsb_app, H1, H2.
    now split.
  - intros op w _. exists []. cbn [session.add snd hv_log].
    now rewrite app_nil_r.
  - intros w. exists []. rewrite commit_hv_log. now rewrite app_nil_r.
  - intros c w Hc. exists [c]. cbn [proxmox.log_call hv_log existsb].
    apply negb_true_iff in Hc. rewrite Hc. now split.
Qed.

Lemma accounts_footprint :
  footprint accounts_untouched is_audit_insert (fun _ => true).
Proof.
  constructor.
  - intros w H. now split.
  - intros w1 w2 w3 H12 H23 H.
    destruct (H12 H) as (H2 & U2 & A2). destruct (H23 H2) as (H3 & U3 & A3).
    split; [exact H3|split; congruence].
  - intros op w Hop H. cbn [session.add snd pending db].
    rewrite forallb_app, H. cbn [forallb]. rewrite Hop. now split.
  - intros w H. unfold session.commit.
    destruct (session.inactive (pending w)); [now split|].
    destruct (hd None (commit_faults w)); [now split|].
    destruct (session.flush (db w) (pending w)) as [msg|d'] eqn:E;
      [now split|].
    cbn [snd pending db]. split; [reflexivity|].
    now apply (flush_accounts_untouched (pending w)).
  - intros c w _ H. now split.
Qed.

(** X18.  Only [start_vm] and [delete_user] write to the audit table.  Every other
    route, started with no such write waiting in the session, leaves
    [audit_logs] exactly as it was, whether it returns or raises: a login,
    the creation of a user, and the creation and the deletion of an
    assignment are not audited. *)
Theorem audit_only_written_by_start_and_user_deletion (env : Env)
    (acc : Accounts) :
  (forall email password,
     frame audit_untouched (routers_auth.login env email password)) /\
  (forall email password is_admin,
     frame audit_untouched
       (admin_users.create_user acc email password is_admin)) /\
  (forall uid vm_id,
     frame audit_untouched (admin.assign_vm_to_user env uid vm_id)) /\
  (forall id, frame audit_untouched (admin.delete_vm_assignment id)) /\
  (forall tok, frame audit_untouched (auth.get_current_admin_user env tok)) /\
  (forall u, frame audit_untouched (vms.list_vms env u)) /\
  (forall vm_id u, frame audit_untouched (vms.get_vm_status env vm_id u)) /\
  frame audit_untouched admin_users.list_users /\
  frame audit_untouched admin_users.list_vm_assignments.
Proof.
  pose proof audit_footprint as F.
  destruct (frame_reading_routes _ _ _ F env acc (fun _ => eq_refl) eq_refl)
    as (Hadm & Hlist & Hstatus & Husers & Hassignments & _).
  split; [|split; [|split; [|split]]].
  - intros email password.
    apply (frame_login _ _ _ F). reflexivity.
  - intros email password is_admin.
    apply (frame_create_user _ _ _ F). reflexivity.
  - intros uid vm_id.
    apply (frame_assign_vm_to_user _ _ _ F); reflexivity.
  - intros id. apply (frame_delete_vm_assignment _ _ _ F). reflexivity.
  - split; [exact Hadm|split; [exact Hlist|split; [exact Hstatus|]]].
    split; [exact Husers|exact Hassignments].
Qed.

(** X19.  Only [start_vm] sends the hypervisor a command.  Every other route that
    talks to the hypervisor sends status and version queries only: listing
    VMs, reading a status and assigning a VM never start, stop or shut down
    anything, and the user and account routes send it nothing that changes
    a VM. *)
Theorem hypervisor_only_commanded_by_start (env : Env) (acc : Accounts) :
  (forall u, frame only_queried (vms.list_vms env u)) /\
  (forall vm_id u, frame only_queried (vms.get_vm_status env vm_id u)) /\
  (forall uid vm_id,
     frame only_queried (admin.assign_vm_to_user env uid vm_id)) /\
  (forall utcnow, frame only_queried (main.health_check env acc utcnow)) /\
  (forall email password,
     frame only_queried (routers_auth.login env email password)) /\
  (forall email password is_admin,
     frame only_queried
       (admin_users.create_user acc email password is_admin)) /\
  (forall uid, frame only_queried (admin.delete_user uid)) /\
  (forall id, frame only_queried (admin.delete_vm_assignment id)).
Proof.
  pose proof hypervisor_footprint as F.
  destruct (frame_reading_routes _ _ _ F env acc (fun _ => eq_refl) eq_refl)
    as (_ & Hlist & Hstatus & _ & _ & _ & _ & _ & Hhealth).
  split; [exact Hlist|split; [exact Hstatus|split; [|split]]].
  - intros uid vm_id.
    apply (frame_assign_vm_to_user _ _ _ F); reflexivity.
  - exact Hhealth.
  - split; [|split; [|split]].
    + intros email password. apply (frame_login _ _ _ F). reflexivity.
    + intros email password is_admin.
      apply (frame_create_user _ _ _ F). reflexivity.
    + intros uid. apply (frame_delete_user _ _ _ F). reflexivity.
    + intros id. apply (frame_delete_vm_assignment _ _ _ F). reflexivity.
Qed.

(** X20.  The VM routes never change who exists or who owns what: [list_vms],
    [get_vm_status] and [start_vm], started with at most audit inserts
    waiting in the session, leave the users and the assignment rows exactly
    as they were, whatever the hypervisor and the database do. *)
Theorem vm_routes_leave_users_and_assignments (env : Env) (acc : Accounts) :
  (forall u, frame accounts_untouched (vms.list_vms env u)) /\
  (forall vm_id u, frame accounts_untouched (vms.get_vm_status env vm_id u))
  /\
  (forall vm_id ip u,
     frame accounts_untouched (vms.start_vm env vm_id ip u)) /\
  (forall tok, frame accounts_untouched (auth.get_current_admin_user env tok))
  /\
  (forall utcnow, frame accounts_untouched (main.health_check env acc utcnow)).
Proof.
  pose proof accounts_footprint as F.
  destruct (frame_reading_routes _ _ _ F env acc (fun _ => eq_refl) eq_refl)
    as (Hadm & Hlist & Hstatus & _ & _ & _ & _ & _ & Hhealth).
  split; [exact Hlist|split; [exact Hstatus|split; [|split]]].
  - intros vm_id ip u.
    apply (frame_start_vm _ _ _ F); [reflexivity|reflexivity|auto].
  - exact Hadm.
  - exact Hhealth.
Qed.

(** ** Deleting a user and logging in again *)
Section ReturnFacts.

Variable env : Env.

(** X21.  Deleting a user locally does not lock the user out.  The provider still
    accepts the credentials, so the next login answers 200 and inserts a
    fresh row under the same id: not an admin, whatever the deleted row
    said, and without an assignment; the audit rows that were set to null by
    the deletion stay as the deletion left them. *)
Theorem login_after_deletion (email password : string) (w w1 : World)
    (body : AuthResponse) (user : User) (msg tok : string) :
  db_ok (db w) -> pending w = [] ->
  In user (users (db w)) ->
  gotrue_token env email password = Response 200 body ->
  ar_user body = Some (Some (user_id user), Some (user_email user)) ->
  ar_access_token body = Some tok ->
  user_id user <> EmptyString -> user_email user <> EmptyString ->
  admin.delete_user (user_id user) w = (Return msg, w1) ->
  hd None (commit_faults w1) = None ->
  exists r w2,
    routers_auth.login env email password w1 = (Return r, w2) /\
    tr_user r =
    mkUserResponse (user_id user) (user_email user) false (db_now (db w)) /\
    In (mkUser (user_id user) (user_email user) false (db_now (db w)))
      (users (db w2)) /\
    (forall a, In a (vm_assignments (db w2)) -> va_user_id a <> user_id user)
    /\
    audit_logs (db w2) =
    map (session.set_null (user_id user)) (audit_logs (db w)).
Proof.
  intros Hok Hp Hin Hg Hbody Htok Hid Hem Hdel Hf.
  rewrite (delete_user_run (user_id user) w user (users_pkey _ Hok) Hp Hin
             eq_refl) in Hdel.
  destruct (hd None (commit_faults w)) as [m|]; [discriminate|].
  injection Hdel as _ <-.
  set (w1 := mkWorld (without_user (db w) (user_id user)) [] (hv_log w)
               (tl (commit_faults w))) in *.
  assert (ND1 : NoDup (map user_id (users (db w1)))).
  { cbn [w1 db without_user users]. apply NoDup_map_filter.
    apply (users_pkey _ Hok). }
  assert (Hrun := login_accepted_run env email password w1 body
                    (user_id user) (user_email user) eq_refl ND1 Hg Hbody
                    Hid Hem).
  cbv zeta in Hrun. rewrite Htok, Hf in Hrun.
  assert (Hgone : filter (fun u => user_id u =? user_id user)%string
                    (users (db w1)) = []).
  { apply filter_none. intros x Hx.
    cbn [w1 db without_user users] in Hx. apply filter_In in Hx.
    destruct Hx as [_ Hne]. now apply negb_true_iff in Hne. }
  assert (Hfree : existsb (fun u => user_email u =? user_email user)%string
                    (users (db w1)) = false).
  { apply filter_nil_existsb_false. intros x Hx.
    cbn [w1 db without_user users] in Hx. apply filter_In in Hx.
    destruct Hx as [Hx Hne].
    destruct (user_email x =? user_email user)%string eqn:E;
      [|reflexivity].
    exfalso.
    assert (Hone := filter_unique user_email
                      (fun y => user_email y =? user_email user)%string
                      (user_email user) (users (db w)) user
                      (ix_users_email _ Hok)
                      (fun y Hy => proj1 (String.eqb_eq _ _) Hy) Hin
                      (String.eqb_refl _)).
    assert (Hx' : In x (filter
                          (fun y => user_email y =? user_email user)%string
                          (users (db w))))
      by (apply filter_In; now split).
    rewrite Hone in Hx'. destruct Hx' as [<-|[]].
    rewrite String.eqb_refl in Hne. discriminate. }
  rewrite Hgone, Hfree in Hrun.
  eexists. eexists. split; [exact Hrun|].
  cbn [tr_user user_response user_id user_email user_is_admin
       user_created_at with_user db session.set_users users vm_assignments
       audit_logs w1 without_user db_now].
  split; [reflexivity|split; [|split; [|reflexivity]]].
  - apply in_or_app. right. now left.
  - intros a Ha. apply filter_In in Ha. destruct Ha as [_ Hne].
    apply negb_true_iff in Hne. now apply String.eqb_neq.
Qed.

End ReturnFacts.

(** Alice, who owns VM 106 and has one audit row, is deleted and logs in
    again. *)
Lemma login_after_deletion_witness :
  db_ok (db lab.world) /\
  admin.delete_user "u-alice" lab.world =
  (Return "User alice@lab.example deleted successfully"%string,
   request_world (without_user lab.store "u-alice") [] []) /\
  exists r w2,
    routers_auth.login lab.env "alice@lab.example" "correct horse"
      (request_world (without_user lab.store "u-alice") [] []) =
    (Return r, w2) /\
    tr_user r = mkUserResponse "u-alice" "alice@lab.example" false 9 /\
    vm_assignments (db w2) = [] /\
    map al_user_id (audit_logs (db w2)) = [None].
Proof.
  split; [exact lab_store_ok|]. split; [reflexivity|].
  destruct (login_after_deletion lab.env "alice@lab.example" "correct horse"
              lab.world
              (request_world (without_user lab.store "u-alice") [] [])
              (mkAuthResponse (Some "jwt-alice") (Some 1800)
                 (Some (Some "u-alice", Some "alice@lab.example")))
              lab.alice "User alice@lab.example deleted successfully"
              "jwt-alice" lab_store_ok eq_refl
              (or_intror (or_introl eq_refl)) eq_refl eq_refl eq_refl
              ltac:(discriminate) ltac:(discriminate) eq_refl eq_refl)
    as (r & w2 & Hrun & Huser & _ & _ & Haudit).
  exists r, w2. split; [exact Hrun|]. split; [exact Huser|].
  assert (E : w2 = snd (routers_auth.login lab.env "alice@lab.example"
                          "correct horse"
                          (request_world (without_user lab.store "u-alice")
                             [] [])))
    by (now rewrite Hrun).
  split; [rewrite E; reflexivity|].
  rewrite Haudit. reflexivity.
Defined.
